(** * Pressure-Trend-Calculator: the trend classifier and the station-model
      calculator of [program.py], embedded and verified.

    The two functions of the core, [determine_trend] and
    [calculate_pressure_trend], are written once over the arithmetic that
    Python performs on their arguments ([PyNum]).  Two instances are given:

    - [binary64]: IEEE 754 double precision, which is what a Python [float]
      is, built on the Standard Library's executable specification of
      binary floating point ([SpecFloat]);
    - [exact]: the same operations on exact rationals, the reading under
      which the decimal tolerances of the specification are meant.  It is
      not what Python computes: what is stated of the program is stated on
      [binary64], or for every instance.

    Python exceptions ([IndexError] on a short history list, [ValueError] and
    [OverflowError] from [int] on a NaN or an infinity) are results of the
    embedded function.

    The interactive program, [main] with [clear_console], is a function of
    the lines of its standard input: it gives the events of the run in
    order (commands, printed lines, prompts), how the run ends and the lines
    left unread.  The text operations it applies ([strip], [lower], [split],
    [float], the format specifications) are given for text whose code points
    are below 256.

    Contents: the exceptions and the arithmetic; the program; the text
    operations, the console and the interactive program; what a returned
    record contains; the classifier, the symbol table and the unit
    selectors; signs and values on binary64; the rounding error of the
    binary64 operations and the orders of magnitude on which a call returns;
    the round trip of the current reading; the same facts in exact
    arithmetic; the scenarios of the specification; the exceptions of a
    call and the floats it returns; the runs of [main]. *)

From Stdlib Require Import ZArith QArith Qround Qabs Qpower List String Ascii
  Bool Lia Lqa DecimalString.
From Stdlib Require Import Floats.SpecFloat.
Import ListNotations.

Set Implicit Arguments.
Close Scope Q_scope.

(** ** Python exceptions as results *)

Inductive PyError : Type :=
| IndexError
| ValueError
| OverflowError.

Inductive py (A : Type) : Type :=
| Ok (a : A)
| Raise (e : PyError).

Arguments Ok {A} a.
Arguments Raise {A} e.

Definition bind {A B : Type} (c : py A) (k : A -> py B) : py B :=
  match c with
  | Ok a => k a
  | Raise e => Raise e
  end.

Lemma Ok_inj (A : Type) (a b : A) : Ok a = Ok b -> a = b.
Proof. intros H. congruence. Qed.

Declare Scope py_scope.
Delimit Scope py_scope with py.
Notation "x <- c ;; k" := (bind c (fun x => k))
  (at level 61, c at next level, right associativity) : py_scope.

(** [xs[i]] for a non-negative literal index. *)
Definition index {A : Type} (xs : list A) (i : nat) : py A :=
  match nth_error xs i with
  | Some x => Ok x
  | None => Raise IndexError
  end.

(** ** The arithmetic of the program *)

Class PyNum : Type := {
  num : Type;
  (** the literal [m / 10^k], as in [33.8639] or [10] *)
  lit : Z -> nat -> num;
  mul : num -> num -> num;
  sub : num -> num -> num;
  div : num -> num -> num;
  neg : num -> num;
  absf : num -> num;
  (** [round(x, 1)] *)
  round1 : num -> num;
  (** [int(x)] *)
  to_int : num -> py Z;
  gt : num -> num -> bool;
  lt : num -> num -> bool
}.

Declare Scope num_scope.
Delimit Scope num_scope with num.
Infix "*" := mul : num_scope.
Infix "-" := sub : num_scope.
Infix "/" := div : num_scope.
Notation "- x" := (neg x) : num_scope.
Infix ">?" := gt (at level 70, no associativity) : num_scope.
Infix "<?" := lt (at level 70, no associativity) : num_scope.

(** The integer nearest to the rational [n / d] ([d > 0]), a tie going to
    the even one: the rounding of [round] in Python 3. *)
Definition rne_div (n d : Z) : Z :=
  let q := (n / d)%Z in
  let r := (n mod d)%Z in
  match (2 * r ?= d)%Z with
  | Lt => q
  | Gt => (q + 1)%Z
  | Eq => if Z.even q then q else (q + 1)%Z
  end.

(** ** IEEE 754 binary64 *)

Module B64.

Definition prec : Z := 53.
Definition emax : Z := 1024.

(** [n / d] correctly rounded, for integers [n] and [d > 0]. *)
Definition of_ratio (s : bool) (n d : positive) : spec_float :=
  SFdiv prec emax (S754_finite s n 0) (S754_finite false d 0).

(** A decimal literal: the double nearest to [m / 10^k]. *)
Definition of_decimal (m : Z) (k : nat) : spec_float :=
  match m with
  | Z0 => S754_zero false
  | Zpos p => of_ratio false p (Z.to_pos (10 ^ Z.of_nat k))
  | Zneg p => of_ratio true p (Z.to_pos (10 ^ Z.of_nat k))
  end.

(** [|x| * 10] rounded half to even to an integer. *)
Definition tenths (m : positive) (e : Z) : Z :=
  match e with
  | Zneg k => rne_div (10 * Zpos m) (Z.pow 2 (Zpos k))
  | _ => (10 * Zpos m * Z.pow 2 e)%Z
  end.

(** [round(x, 1)]: CPython prints [x] correctly rounded to one decimal
    and reads the decimal string back; NaN and the infinities round to
    themselves and the sign of a zero result is the sign of [x]. *)
Definition round1 (x : spec_float) : spec_float :=
  match x with
  | S754_finite s m e =>
      match tenths m e with
      | Zpos n => of_ratio s n 10
      | _ => S754_zero s
      end
  | _ => x
  end.

(** [int(x)]: truncation towards zero. *)
Definition to_int (x : spec_float) : py Z :=
  match x with
  | S754_zero _ => Ok 0%Z
  | S754_nan => Raise ValueError
  | S754_infinity _ => Raise OverflowError
  | S754_finite s m e =>
      let a := match e with
               | Zneg k => (Zpos m / Z.pow 2 (Zpos k))%Z
               | _ => (Zpos m * Z.pow 2 e)%Z
               end in
      Ok (if s then (- a)%Z else a)
  end.

(** The exact value of a finite float. *)
Definition value (x : spec_float) : Q :=
  match x with
  | S754_finite s m e =>
      let a := match e with
               | Zneg k => Qmake (Zpos m) (Pos.pow 2 k)
               | _ => inject_Z (Zpos m * Z.pow 2 e)
               end in
      if s then Qopp a else a
  | _ => 0%Q
  end.

Definition is_finite (x : spec_float) : bool :=
  match x with
  | S754_zero _ | S754_finite _ _ _ => true
  | _ => false
  end.

End B64.

#[export] Instance binary64 : PyNum := {
  num := spec_float;
  lit := B64.of_decimal;
  mul := SFmul B64.prec B64.emax;
  sub := SFsub B64.prec B64.emax;
  div := SFdiv B64.prec B64.emax;
  neg := SFopp;
  absf := SFabs;
  round1 := B64.round1;
  to_int := B64.to_int;
  gt := fun x y => SFltb y x;
  lt := SFltb
}.

(** ** Exact rationals *)

Module Exact.

Definition of_decimal (m : Z) (k : nat) : Q :=
  Qmake m (Z.to_pos (10 ^ Z.of_nat k)).

(** [round(x, 1)]: the nearest tenth, a tie going to the even one. *)
Definition round1 (x : Q) : Q :=
  Qmake (rne_div (10 * Qnum x) (Zpos (Qden x))) 10.

(** [int(x)]: truncation towards zero. *)
Definition to_int (x : Q) : py Z :=
  Ok (Z.quot (Qnum x) (Zpos (Qden x))).

Definition ltb (x y : Q) : bool :=
  (Qnum x * Zpos (Qden y) <? Qnum y * Zpos (Qden x))%Z.

End Exact.

#[export] Instance exact : PyNum := {
  num := Q;
  lit := Exact.of_decimal;
  mul := Qmult;
  sub := Qminus;
  div := Qdiv;
  neg := Qopp;
  absf := Qabs;
  round1 := Exact.round1;
  to_int := Exact.to_int;
  gt := fun x y => Exact.ltb y x;
  lt := Exact.ltb
}.

(** ** The program *)

(** The dictionary that [calculate_pressure_trend] returns. *)
Record TrendResult {N : PyNum} : Type := {
  current_pressure_display : num;
  current_pressure_mb : num;
  station_model_pressure : Z;
  pressure_change_display : num;
  pressure_change_mb : num;
  trend_value : Z;
  overall_trend : string;
  tendency_description : string;
  tendency_symbol : string;
  unit : string;
  unit_label : string
}.

Arguments TrendResult : clear implicits.

Section Program.

Context {N : PyNum}.

Local Open Scope string_scope.
Local Open Scope num_scope.
Local Open Scope py_scope.

(** Conversion factors *)
Definition INHG_TO_MB : num := lit 338639 4.
Definition HPA_TO_INHG : num := lit 2953 5.
Definition KPA_TO_INHG : num := lit 2953 4.

(** The default value of the parameter [threshold]. *)
Definition default_threshold : num := lit 1 2.

Definition determine_trend (pressure1 pressure2 threshold : num) : string :=
  let diff := pressure2 - pressure1 in
  if diff >? threshold then "Rising"
  else if diff <? - threshold then "Falling"
  else "Steady".

(** Lines 41-52: the inputs in inHg. *)
Definition to_inhg (current_pressure : num) (past_pressures : list num)
    (unit : string) : num * list num :=
  if String.eqb unit "hPa" then
    (current_pressure * HPA_TO_INHG,
     map (fun p => p * HPA_TO_INHG) past_pressures)
  else if String.eqb unit "kPa" then
    (current_pressure * KPA_TO_INHG,
     map (fun p => p * KPA_TO_INHG) past_pressures)
  else if String.eqb unit "custom" then
    (current_pressure, map (fun p => p * HPA_TO_INHG) past_pressures)
  else
    (current_pressure, past_pressures).

(** Lines 67-72. *)
Definition overall_trend_of (pressure_change_mb : num) : string :=
  if pressure_change_mb >? lit 0 0 then "Rising"
  else if pressure_change_mb <? lit 0 0 then "Falling"
  else "Steady".

(** Lines 82-97: current pressure and change in the chosen unit, and the
    label. *)
Definition to_display (unit : string)
    (current_pressure_inhg current_pressure_mb_rounded pressure_change_mb : num)
    : num * num * string :=
  if String.eqb unit "hPa" then
    (current_pressure_mb_rounded, pressure_change_mb, "hPa")
  else if String.eqb unit "kPa" then
    (current_pressure_mb_rounded / lit 10 0, pressure_change_mb / lit 10 0,
     "kPa")
  else if String.eqb unit "custom" then
    (current_pressure_inhg, pressure_change_mb,
     "hPa (change), inHg (current)")
  else
    (current_pressure_inhg, pressure_change_mb / INHG_TO_MB, "inHg").

(** Lines 105-113: the trend of the first two hours, from the two hourly
    trends and the readings of 3 hours and of 1 hour ago. *)
Definition first_period_trend_of (trend_3h_to_2h trend_2h_to_1h : string)
    (p_3h p_1h : num) : string :=
  if String.eqb trend_3h_to_2h trend_2h_to_1h then trend_3h_to_2h
  else if String.eqb trend_3h_to_2h "Steady"
          && negb (String.eqb trend_2h_to_1h "Steady") then trend_2h_to_1h
  else if String.eqb trend_2h_to_1h "Steady"
          && negb (String.eqb trend_3h_to_2h "Steady") then trend_3h_to_2h
  else determine_trend p_3h p_1h default_threshold.

(** Lines 121-139: the station model tendency symbol. *)
Definition tendency_symbol_of (first_period_trend second_period_trend : string)
    : string :=
  if String.eqb first_period_trend "Rising"
     && String.eqb second_period_trend "Falling" then "+/"
  else if String.eqb first_period_trend "Falling"
     && String.eqb second_period_trend "Rising" then "-+"
  else if String.eqb first_period_trend "Rising"
     && String.eqb second_period_trend "Steady" then "+="
  else if String.eqb first_period_trend "Falling"
     && String.eqb second_period_trend "Steady" then "-="
  else if String.eqb first_period_trend "Rising"
     && String.eqb second_period_trend "Rising" then "+"
  else if String.eqb first_period_trend "Falling"
     && String.eqb second_period_trend "Falling" then "-"
  else if String.eqb first_period_trend "Steady"
     && String.eqb second_period_trend "Rising" then "=+"
  else if String.eqb first_period_trend "Steady"
     && String.eqb second_period_trend "Falling" then "=-"
  else if String.eqb first_period_trend "Steady"
     && String.eqb second_period_trend "Steady" then "="
  else EmptyString.

Definition calculate_pressure_trend (current_pressure : num)
    (past_pressures : list num) (unit : string) : py (TrendResult N) :=
  let '(current_pressure_inhg, past_pressures_inhg) :=
    to_inhg current_pressure past_pressures unit in
  let current_pressure_mb := current_pressure_inhg * INHG_TO_MB in
  p_1h <- index past_pressures_inhg 0 ;;
  p_2h <- index past_pressures_inhg 1 ;;
  p_3h <- index past_pressures_inhg 2 ;;
  let pressure_3h_ago_mb := p_3h * INHG_TO_MB in
  let pressure_change_mb := round1 (current_pressure_mb - pressure_3h_ago_mb) in
  let overall_trend := overall_trend_of pressure_change_mb in
  trend_value <- to_int (absf pressure_change_mb * lit 10 0) ;;
  let current_pressure_mb_rounded := round1 current_pressure_mb in
  tenths_of_mb <- to_int (current_pressure_mb_rounded * lit 10 0) ;;
  let station_model_pressure := (tenths_of_mb mod 1000)%Z in
  let '(display_current_pressure, display_pressure_change, unit_label) :=
    to_display unit current_pressure_inhg current_pressure_mb_rounded
               pressure_change_mb in
  let trend_3h_to_2h := determine_trend p_3h p_2h default_threshold in
  let trend_2h_to_1h := determine_trend p_2h p_1h default_threshold in
  let trend_1h_to_now :=
    determine_trend p_1h current_pressure_inhg default_threshold in
  let first_period_trend :=
    first_period_trend_of trend_3h_to_2h trend_2h_to_1h p_3h p_1h in
  let second_period_trend := trend_1h_to_now in
  let tendency_description :=
    first_period_trend ++ " then " ++ second_period_trend in
  let tendency_symbol :=
    tendency_symbol_of first_period_trend second_period_trend in
  Ok {| current_pressure_display := display_current_pressure;
        current_pressure_mb := current_pressure_mb_rounded;
        station_model_pressure := station_model_pressure;
        pressure_change_display := display_pressure_change;
        pressure_change_mb := pressure_change_mb;
        trend_value := trend_value;
        overall_trend := overall_trend;
        tendency_description := tendency_description;
        tendency_symbol := tendency_symbol;
        unit := unit;
        unit_label := unit_label |}.

End Program.

(** The record [r] with its field [unit] replaced. *)
Definition with_unit {N : PyNum} (r : TrendResult N) (u : string)
    : TrendResult N :=
  {| current_pressure_display := current_pressure_display r;
     current_pressure_mb := current_pressure_mb r;
     station_model_pressure := station_model_pressure r;
     pressure_change_display := pressure_change_display r;
     pressure_change_mb := pressure_change_mb r;
     trend_value := trend_value r;
     overall_trend := overall_trend r;
     tendency_description := tendency_description r;
     tendency_symbol := tendency_symbol r;
     unit := u;
     unit_label := unit_label r |}.

(** The label that goes with a unit selector (lines 82-97). *)
Definition label_of (u : string) : string :=
  if String.eqb u "hPa" then "hPa"
  else if String.eqb u "kPa" then "kPa"
  else if String.eqb u "custom" then "hPa (change), inHg (current)"
  else "inHg".

(** ** The text operations of [main] *)

(** Python's [str] methods, for text whose code points are below 256: a
    character is its code. *)
Module Str.

Local Open Scope string_scope.
Local Open Scope Z_scope.

(** [c.isspace()] *)
Definition isspace (c : ascii) : bool :=
  let n := N_of_ascii c in
  ((9 <=? n) && (n <=? 13) || (28 <=? n) && (n <=? 32)
   || (n =? 133) || (n =? 160))%N.

Fixpoint lstrip_with (space : ascii -> bool) (s : string) : string :=
  match s with
  | String c s' => if space c then lstrip_with space s' else s
  | EmptyString => EmptyString
  end.

Fixpoint rstrip_with (space : ascii -> bool) (s : string) : string :=
  match s with
  | String c s' =>
      match rstrip_with space s' with
      | EmptyString => if space c then EmptyString else String c EmptyString
      | t => String c t
      end
  | EmptyString => EmptyString
  end.

Definition strip_with (space : ascii -> bool) (s : string) : string :=
  rstrip_with space (lstrip_with space s).

(** [s.strip()] *)
Definition strip (s : string) : string := strip_with isspace s.

(** [c.lower()] *)
Definition lower_char (c : ascii) : ascii :=
  let n := N_of_ascii c in
  if ((65 <=? n) && (n <=? 90)
      || (192 <=? n) && (n <=? 222) && negb (n =? 215))%N
  then ascii_of_N (n + 32) else c.

Fixpoint map_chars (f : ascii -> ascii) (s : string) : string :=
  match s with
  | String c s' => String (f c) (map_chars f s')
  | EmptyString => EmptyString
  end.

(** [s.lower()] *)
Definition lower (s : string) : string := map_chars lower_char s.

(** [s.split(sep)] for a separator of one character. *)
Fixpoint split (sep : ascii) (s : string) : list string :=
  match s with
  | EmptyString => [EmptyString]
  | String c s' =>
      if Ascii.eqb c sep then EmptyString :: split sep s'
      else match split sep s' with
           | w :: ws => String c w :: ws
           | [] => [String c EmptyString]
           end
  end.

(** [s.zfill(width)] of a string of digits. *)
Definition zfill (width : nat) (s : string) : string :=
  string_of_list_ascii (repeat "0"%char (width - String.length s)) ++ s.

(** [str(n)] of a natural number. *)
Definition of_N (n : N) : string := NilZero.string_of_uint (N.to_uint n).

(** [str(n)] *)
Definition of_int (n : Z) : string := NilZero.string_of_int (Z.to_int n).

(** [format(n, '0wd')]: the sign counts in the width. *)
Definition format_0d (width : nat) (n : Z) : string :=
  match n with
  | Zneg p => "-" ++ zfill (width - 1) (of_N (Npos p))
  | _ => zfill width (of_N (Z.to_N n))
  end.

End Str.

(** [float(text)] and [format(x, '.df')] on binary64. *)
Module Float.

Local Open Scope string_scope.
Local Open Scope Z_scope.

Definition is_digit (c : ascii) : bool :=
  let n := N_of_ascii c in ((48 <=? n) && (n <=? 57))%N.

Definition digit_value (c : ascii) : Z := Z.of_N (N_of_ascii c) - 48.

(** The white space that [float] strips: the ASCII white space of C, and
    the two other spaces below 256, which it first turns into blanks. *)
Definition isspace (c : ascii) : bool :=
  let n := N_of_ascii c in
  ((9 <=? n) && (n <=? 13) || (n =? 32) || (n =? 133) || (n =? 160))%N.

(** An underscore is accepted between two digits and dropped. *)
Fixpoint drop_underscores (prev : ascii) (s : string) : option string :=
  match s with
  | EmptyString => if Ascii.eqb prev "_" then None else Some EmptyString
  | String c s' =>
      if Ascii.eqb c "_" then
        if is_digit prev then drop_underscores c s' else None
      else if Ascii.eqb prev "_" && negb (is_digit c) then None
      else option_map (String c) (drop_underscores c s')
  end.

(** A run of digits: its value after [acc], the number of digits, and what
    follows. *)
Fixpoint digits (s : string) (acc : Z) (n : nat) : Z * nat * string :=
  match s with
  | String c s' =>
      if is_digit c then digits s' (10 * acc + digit_value c) (S n)
      else (acc, n, s)
  | EmptyString => (acc, n, s)
  end.

Definition sign (s : string) : bool * string :=
  match s with
  | String "-" s' => (true, s')
  | String "+" s' => (false, s')
  | _ => (false, s)
  end.

(** A decimal number without its sign: digits with an optional point and
    an optional exponent.  The result [(m, k)] stands for [m * 10^k]. *)
Definition number (s : string) : option (Z * Z) :=
  let '(i, ni, s1) := digits s 0 0 in
  let '(f, nf, s2) :=
    match s1 with
    | String "." s' => digits s' i 0
    | _ => (i, 0%nat, s1)
    end in
  if (ni + nf =? 0)%nat then None
  else
    match s2 with
    | EmptyString => Some (f, - Z.of_nat nf)
    | String c s3 =>
        if Ascii.eqb c "e" || Ascii.eqb c "E" then
          let '(es, s4) := sign s3 in
          let '(e, ne, s5) := digits s4 0 0 in
          if (ne =? 0)%nat then None
          else match s5 with
               | EmptyString =>
                   Some (f, (if es then - e else e) - Z.of_nat nf)
               | _ => None
               end
        else None
    end.

(** The double nearest to [m * 10^k], with the sign [s]. *)
Definition of_scientific (s : bool) (m k : Z) : spec_float :=
  match m with
  | Zpos p =>
      match k with
      | Zneg d => B64.of_ratio s p (Pos.pow 10 d)
      | _ => B64.of_ratio s (p * Z.to_pos (10 ^ k)) 1
      end
  | _ => S754_zero s
  end.

Definition lower_ascii (c : ascii) : ascii :=
  let n := N_of_ascii c in
  if ((65 <=? n) && (n <=? 90))%N then ascii_of_N (n + 32) else c.

(** "inf", "infinity" and "nan", in any case. *)
Definition special (s : bool) (word : string) : option spec_float :=
  let w := Str.map_chars lower_ascii word in
  if String.eqb w "inf" || String.eqb w "infinity" then Some (S754_infinity s)
  else if String.eqb w "nan" then Some S754_nan
  else None.

(** [float(text)] *)
Definition of_string (text : string) : py spec_float :=
  match drop_underscores zero (Str.strip_with isspace text) with
  | None => Raise ValueError
  | Some t =>
      let '(s, body) := sign t in
      match number body with
      | Some (m, k) => Ok (of_scientific s m k)
      | None =>
          match special s body with
          | Some x => Ok x
          | None => Raise ValueError
          end
      end
  end.

(** [|x| * 10^d], rounded half to even to an integer. *)
Definition scaled (d : nat) (m : positive) (e : Z) : Z :=
  match e with
  | Zneg k => rne_div (10 ^ Z.of_nat d * Zpos m) (2 ^ Zpos k)
  | _ => 10 ^ Z.of_nat d * Zpos m * 2 ^ e
  end.

(** [n / 10^d] written with [d] decimals. *)
Definition fixed (d : nat) (n : Z) : string :=
  match d with
  | O => Str.of_N (Z.to_N n)
  | _ => Str.of_N (Z.to_N (n / 10 ^ Z.of_nat d)) ++ "."
         ++ Str.zfill d (Str.of_N (Z.to_N (n mod 10 ^ Z.of_nat d)))
  end.

(** [format(x, '.df')], and [format(x, '+.df')] when [plus] is set. *)
Definition format_f (plus : bool) (d : nat) (x : spec_float) : string :=
  let sgn := fun s : bool => if s then "-" else if plus then "+" else EmptyString in
  match x with
  | S754_nan => sgn false ++ "nan"
  | S754_infinity s => sgn s ++ "inf"
  | S754_zero s => sgn s ++ fixed d 0
  | S754_finite s m e => sgn s ++ fixed d (scaled d m e)
  end.

End Float.

(** ** The console *)

(** What a run does to the outside, in order. *)
Inductive Event : Type :=
| System (command : string)
| Print (text : string)
| Prompt (text : string).

(** What can leave [main]: the end of the input, met by [input], and the
    exceptions of the calculator. *)
Inductive Exn : Type :=
| EOFError
| Error (e : PyError).

Inductive outcome (A : Type) : Type :=
| Returns (a : A)
| Raises (e : Exn).

Arguments Returns {A} a.
Arguments Raises {A} e.

(** A run from given lines of standard input: the events, how it ends and
    the lines left unread. *)
Record Run (A : Type) : Type := {
  events : list Event;
  result : outcome A;
  unread : list string
}.

Definition io (A : Type) : Type := list string -> Run A.

Definition ret {A : Type} (a : A) : io A :=
  fun stdin => {| events := []; result := Returns a; unread := stdin |}.

Definition raise {A : Type} (e : Exn) : io A :=
  fun stdin => {| events := []; result := Raises e; unread := stdin |}.

(** The run [r], after the events [before]. *)
Definition after {A : Type} (before : list Event) (r : Run A) : Run A :=
  {| events := before ++ events r; result := result r; unread := unread r |}.

Definition io_bind {A B : Type} (c : io A) (k : A -> io B) : io B :=
  fun stdin =>
    let r := c stdin in
    match result r with
    | Returns a => after (events r) (k a (unread r))
    | Raises e =>
        {| events := events r; result := Raises e; unread := unread r |}
    end.

Declare Scope io_scope.
Delimit Scope io_scope with io.
Notation "x <- c ;; k" := (io_bind c (fun x => k))
  (at level 61, c at next level, right associativity) : io_scope.
Notation "c ;; k" := (io_bind c (fun _ => k))
  (at level 61, right associativity) : io_scope.

Definition emit (e : Event) : io Datatypes.unit :=
  fun stdin => {| events := [e]; result := Returns tt; unread := stdin |}.

(** [print(text)] *)
Definition print (text : string) : io Datatypes.unit := emit (Print text).

(** [input()]: the next line, without its end of line. *)
Definition read_line : io string :=
  fun stdin =>
    match stdin with
    | line :: rest =>
        {| events := []; result := Returns line; unread := rest |}
    | [] => {| events := []; result := Raises EOFError; unread := [] |}
    end.

(** [input(prompt)] *)
Definition input (prompt : string) : io string :=
  (emit (Prompt prompt) ;; read_line)%io.

(** A computation of the calculator inside [main]. *)
Definition lift {A : Type} (c : py A) : io A :=
  match c with
  | Ok a => ret a
  | Raise e => raise (Error e)
  end.

(** [try: body except ValueError: handler] *)
Definition try_except_ValueError (body handler : io Datatypes.unit)
    : io Datatypes.unit :=
  fun stdin =>
    let r := body stdin in
    match result r with
    | Raises (Error ValueError) => after (events r) (handler (unread r))
    | _ => r
    end.

(** ** The interactive program *)

Section Main.

Local Open Scope string_scope.
Local Open Scope io_scope.

(** Lines 3-5. *)
Definition clear_console : io Datatypes.unit := emit (System "cls").

(** Lines 171-186: the selector and the label of a menu choice. *)
Definition unit_of_choice (unit_choice : string) : io (string * string) :=
  if String.eqb unit_choice "1" then ret ("inHg", "inHg")
  else if String.eqb unit_choice "2" then ret ("hPa", "hPa")
  else if String.eqb unit_choice "3" then ret ("kPa", "kPa")
  else if String.eqb unit_choice "4" then
    ret ("custom", "hPa (change), inHg (current)")
  else
    print (String "010" "Invalid choice. Defaulting to inHg.") ;;
    ret ("inHg", "inHg").

(** [float(input(prompt))] *)
Definition input_float (prompt : string) : io (@num binary64) :=
  line <- input prompt ;; lift (Float.of_string line).

(** Lines 190-201: the four readings. *)
Definition input_pressures (unit unit_label : string)
    : io (@num binary64 * list (@num binary64)) :=
  if String.eqb unit "custom" then
    print (String "010"
             "Enter current pressure in inHg and past pressures in hPa:") ;;
    current_pressure <- input_float "Enter current pressure (inHg): " ;;
    pressure_1h <- input_float "Enter pressure 1 hour ago (hPa): " ;;
    pressure_2h <- input_float "Enter pressure 2 hours ago (hPa): " ;;
    pressure_3h <- input_float "Enter pressure 3 hours ago (hPa): " ;;
    ret (current_pressure, [pressure_1h; pressure_2h; pressure_3h])
  else
    print (String "010" ("Enter pressures in " ++ unit_label ++ ":")) ;;
    current_pressure <-
      input_float ("Enter current pressure (" ++ unit_label ++ "): ") ;;
    pressure_1h <-
      input_float ("Enter pressure 1 hour ago (" ++ unit_label ++ "): ") ;;
    pressure_2h <-
      input_float ("Enter pressure 2 hours ago (" ++ unit_label ++ "): ") ;;
    pressure_3h <-
      input_float ("Enter pressure 3 hours ago (" ++ unit_label ++ "): ") ;;
    ret (current_pressure, [pressure_1h; pressure_2h; pressure_3h]).

(** [result['unit_label'].split(' ')[0]] *)
Definition unit_word (r : TrendResult binary64) : py string :=
  index (Str.split " " (unit_label r)) 0.

(** Lines 209-218: the five lines of results. *)
Definition print_results (r : TrendResult binary64) : io Datatypes.unit :=
  print (String "010" "Pressure Trend Results:") ;;
  word <- lift (unit_word r) ;;
  print ("Current Pressure: "
         ++ Float.format_f false 2 (current_pressure_display r)
         ++ " " ++ word ++ " "
         ++ "(" ++ Float.format_f false 1 (current_pressure_mb r) ++ " mb)") ;;
  print ("Station Model Pressure: "
         ++ Str.format_0d 3 (station_model_pressure r)) ;;
  word <- lift (unit_word r) ;;
  print ("Pressure Change (3 hours): "
         ++ Float.format_f true 1 (pressure_change_display r)
         ++ " " ++ word ++ " "
         ++ "(" ++ Float.format_f true 1 (pressure_change_mb r) ++ " mb)") ;;
  print ("Pressure Trend: " ++ Str.of_int (trend_value r) ++ " tenths of mb "
         ++ "(" ++ overall_trend r ++ ")") ;;
  print ("Pressure Tendency: " ++ tendency_description r ++ " "
         ++ "(Symbol: " ++ tendency_symbol r ++ ")").

(** Lines 157-229: one pass of the loop; [true] when it goes on. *)
Definition iteration : io bool :=
  clear_console ;;
  print "Pressure Trend Calculator" ;;
  print "------------------------" ;;
  print "Select pressure unit:" ;;
  print "1. inHg (inches of mercury)" ;;
  print "2. hPa (hectopascals)" ;;
  print "3. kPa (kilopascals)" ;;
  print "4. Custom (current in inHg, past in hPa)" ;;
  line <- input "Enter 1, 2, 3, or 4: " ;;
  let unit_choice := Str.strip line in
  selected <- unit_of_choice unit_choice ;;
  let unit := fst selected in
  let unit_label := snd selected in
  try_except_ValueError
    (readings <- input_pressures unit unit_label ;;
     let current_pressure := fst readings in
     let past_pressures := snd readings in
     result <-
       lift (calculate_pressure_trend current_pressure past_pressures unit) ;;
     print_results result)
    (print (String "010"
              "Error: Please enter valid numeric values for pressures.")) ;;
  print (String "010" "Would you like to calculate another trend? (y/n)") ;;
  line <- read_line ;;
  let choice := Str.lower (Str.strip line) in
  if negb (String.eqb choice "y") then
    clear_console ;;
    print "Thank you for using the Pressure Trend Calculator!" ;;
    ret false
  else ret true.

(** The loop of [main], for at most [fuel] passes. *)
Fixpoint main_loop (fuel : nat) (stdin : list string)
    : option (Run Datatypes.unit) :=
  match fuel with
  | O => None
  | S fuel' =>
      let r := iteration stdin in
      match result r with
      | Returns true => option_map (after (events r)) (main_loop fuel' (unread r))
      | Returns false =>
          Some {| events := events r; result := Returns tt;
                  unread := unread r |}
      | Raises e =>
          Some {| events := events r; result := Raises e;
                  unread := unread r |}
      end
  end.

(** Every pass reads a line, so the lines of the input bound the passes. *)
Definition main (stdin : list string) : option (Run Datatypes.unit) :=
  main_loop (S (List.length stdin)) stdin.

End Main.

(** ** What a pass of the loop shows *)

Section Transcript.

Local Open Scope string_scope.

(** Lines 158-169: what every pass shows before it reads the choice. *)
Definition menu : list Event :=
  [System "cls"; Print "Pressure Trend Calculator";
   Print "------------------------"; Print "Select pressure unit:";
   Print "1. inHg (inches of mercury)"; Print "2. hPa (hectopascals)";
   Print "3. kPa (kilopascals)";
   Print "4. Custom (current in inHg, past in hPa)";
   Prompt "Enter 1, 2, 3, or 4: "].

(** Lines 171-186: the four choices. *)
Definition is_choice (choice : string) : bool :=
  String.eqb choice "1" || String.eqb choice "2" || String.eqb choice "3"
  || String.eqb choice "4".

(** The selector and the label that a choice stands for. *)
Definition selection (choice : string) : string * string :=
  if String.eqb choice "2" then ("hPa", "hPa")
  else if String.eqb choice "3" then ("kPa", "kPa")
  else if String.eqb choice "4" then
    ("custom", "hPa (change), inHg (current)")
  else ("inHg", "inHg").

(** Lines 183-184: what is printed for any other choice. *)
Definition notice (choice : string) : list Event :=
  if is_choice choice then []
  else [Print (String "010" "Invalid choice. Defaulting to inHg.")].

(** Lines 190-201: the heading of the request for the readings and the
    four prompts. *)
Definition asking (u label : string) : list Event :=
  if String.eqb u "custom" then
    [Print (String "010"
              "Enter current pressure in inHg and past pressures in hPa:");
     Prompt "Enter current pressure (inHg): ";
     Prompt "Enter pressure 1 hour ago (hPa): ";
     Prompt "Enter pressure 2 hours ago (hPa): ";
     Prompt "Enter pressure 3 hours ago (hPa): "]
  else
    [Print (String "010" ("Enter pressures in " ++ label ++ ":"));
     Prompt ("Enter current pressure (" ++ label ++ "): ");
     Prompt ("Enter pressure 1 hour ago (" ++ label ++ "): ");
     Prompt ("Enter pressure 2 hours ago (" ++ label ++ "): ");
     Prompt ("Enter pressure 3 hours ago (" ++ label ++ "): ")].

End Transcript.

(** ** Readings that are doubles *)

(** A float of the format that is a number: finite, with the mantissa and
    the exponent that binary64 gives its value. *)
Definition finite_double (x : spec_float) : bool :=
  B64.is_finite x && valid_binary B64.prec B64.emax x.

(** ** Sample calls *)

Module Sample.

(** 1013.2 hPa now; 1012.0, 1010.5 and 1009.0 hPa one, two and three
    hours ago. *)
Definition hpa_now : @num binary64 := lit 10132 1.
Definition hpa_past : list (@num binary64) :=
  [lit 10120 1; lit 10105 1; lit 10090 1].

(** 29.92 inHg now; 29.90, 30.05 and 30.00 inHg before: a rise followed
    by a larger fall over the first two hours. *)
Definition inhg_now : @num binary64 := lit 2992 2.
Definition inhg_past : list (@num binary64) :=
  [lit 2990 2; lit 3005 2; lit 3000 2].

(** What the call on these readings returns with the selector "inHg". *)
Definition inhg_result : TrendResult binary64 :=
  @Build_TrendResult binary64
    (S754_finite false 8421731303182828 (-48))
    (S754_finite false 8912201450101146 (-43))
    132
    (S754_finite true 5745218474611768 (-56))
    (S754_finite true 6079859496950170 (-51))
    27 "Falling" "Falling then Rising" "-+" "inHg" "inHg".

(** What the call on the hPa readings returns with the selector "hPa". *)
Definition hpa_result : TrendResult binary64 :=
  @Build_TrendResult binary64
    (S754_finite false 8912201450101146 (-43))
    (S754_finite false 8912201450101146 (-43))
    132
    (S754_finite false 4728779608739021 (-50))
    (S754_finite false 4728779608739021 (-50))
    42 "Rising" "Rising then Rising" "+" "hPa" "hPa".

(** 1013.2495 hPa, now and at each of the three hours before. *)
Definition drift_hpa : @num binary64 := lit 10132495 4.

Definition drift_hpa_result : TrendResult binary64 :=
  @Build_TrendResult binary64
    (S754_finite false 8913081059403366 (-43))
    (S754_finite false 8913081059403366 (-43))
    133 (S754_zero false) (S754_zero false)
    0 "Steady" "Steady then Steady" "=" "hPa" "hPa".

(** The same pressure in kPa: 101.32495. *)
Definition drift_kpa : @num binary64 := lit 10132495 5.

Definition drift_kpa_result : TrendResult binary64 :=
  @Build_TrendResult binary64
    (S754_finite false 7130464847522693 (-46))
    (S754_finite false 8913081059403366 (-43))
    133 (S754_zero false) (S754_zero false)
    0 "Steady" "Steady then Steady" "=" "kPa" "kPa".

End Sample.

(** More readings, and what the calls on them return. *)
Module Readings.

(** 29.92 inHg now; 29.90 one hour ago, no number two hours ago, 30.00
    three hours ago. *)
Definition nan_gap_past : list (@num binary64) :=
  [lit 2990 2; S754_nan : @num binary64; lit 3000 2].

Definition nan_gap_result : TrendResult binary64 :=
  @Build_TrendResult binary64
    (S754_finite false 8421731303182828 (-48))
    (S754_finite false 8912201450101146 (-43))
    132
    (S754_finite true 5745218474611768 (-56))
    (S754_finite true 6079859496950170 (-51))
    27 "Falling" "Steady then Rising" "=+" "inHg" "inHg".

(** 30.0198 inHg now and one hour ago, 30.0099 and 30.00 before: 0.0099
    inHg per hour over the first two hours. *)
Definition slow_rise_now : @num binary64 := lit 300198 4.
Definition slow_rise_past : list (@num binary64) :=
  [lit 300198 4; lit 300099 4; lit 30 0].

Definition slow_rise_result : TrendResult binary64 :=
  @Build_TrendResult binary64
    (S754_finite false 8449822505858551 (-48))
    (S754_finite false 8942108166376653 (-43))
    166
    (S754_finite false 5958004344041832 (-58))
    (S754_finite false 6305039478318694 (-53))
    7 "Rising" "Steady then Steady" "=" "inHg" "inHg".

End Readings.

(** Readings and lines for the runs of [main]. *)
Module Session.

(** 29.92 inHg now; 1012.0, 1010.5 and 1009.0 hPa before: what the call
    returns with the selector "custom". *)
Definition custom_result : TrendResult binary64 :=
  @Build_TrendResult binary64
    (S754_finite false 8421731303182828 (-48))
    (S754_finite false 8912201450101146 (-43))
    132
    (S754_finite false 4728779608739021 (-50))
    (S754_finite false 4728779608739021 (-50))
    42 "Rising" "Rising then Rising" "+" "custom"
    "hPa (change), inHg (current)".

(** 29.93 inHg now, 29.92 inHg at each of the three hours before. *)
Definition small_rise_now : @num binary64 := lit 2993 2.
Definition small_rise_past : list (@num binary64) :=
  [lit 2992 2; lit 2992 2; lit 2992 2].

Definition small_rise_result : TrendResult binary64 :=
  @Build_TrendResult binary64
    (S754_finite false 8424546052949934 (-48))
    (S754_finite false 8914840278007808 (-43))
    135
    (S754_finite false 5106860866321571 (-59))
    (S754_finite false 5404319552844595 (-54))
    3 "Rising" "Steady then Steady" "=" "inHg" "inHg".

(** The lines typed after the choice of a unit: four readings in inHg
    and the answer. *)
Definition inhg_lines : list string :=
  ["29.92"; "29.90"; "30.05"; "30.00"; "n"]%string.

End Session.

(** Evaluate the left-hand side of an equation between closed terms. *)
Ltac run_call :=
  match goal with
  | |- ?l = ?r => let v := eval vm_compute in l in change (v = r); reflexivity
  end.

(** ** What a successful call has computed *)

Section Inversion.

Context {N : PyNum}.

Local Open Scope string_scope.
Local Open Scope num_scope.

Lemma index_Ok (A : Type) (xs : list A) (i : nat) (x : A) :
  index xs i = Ok x <-> nth_error xs i = Some x.
Proof.
  unfold index. destruct (nth_error xs i); split; intros H;
    try discriminate; inversion H; reflexivity.
Qed.

Lemma bind_Ok (A B : Type) (c : py A) (k : A -> py B) (b : B) :
  bind c k = Ok b -> exists a, c = Ok a /\ k a = Ok b.
Proof.
  destruct c as [a|e]; simpl; intros H; [exists a; auto | discriminate].
Qed.

(** Every field of the returned record, in terms of the inputs in inHg. *)
Lemma calculate_pressure_trend_Ok current_pressure past_pressures unit0 r :
  calculate_pressure_trend current_pressure past_pressures unit0 = Ok r ->
  let current_pressure_inhg := fst (to_inhg current_pressure past_pressures unit0) in
  let past_pressures_inhg := snd (to_inhg current_pressure past_pressures unit0) in
  let mb := current_pressure_inhg * INHG_TO_MB in
  exists p_1h p_2h p_3h,
    nth_error past_pressures_inhg 0 = Some p_1h /\
    nth_error past_pressures_inhg 1 = Some p_2h /\
    nth_error past_pressures_inhg 2 = Some p_3h /\
    let change := round1 (mb - p_3h * INHG_TO_MB) in
    let rounded := round1 mb in
    let first :=
      first_period_trend_of (determine_trend p_3h p_2h default_threshold)
        (determine_trend p_2h p_1h default_threshold) p_3h p_1h in
    let second := determine_trend p_1h current_pressure_inhg default_threshold in
    exists tenths_of_mb,
      to_int (absf change * lit 10 0) = Ok (trend_value r) /\
      to_int (rounded * lit 10 0) = Ok tenths_of_mb /\
      station_model_pressure r = (tenths_of_mb mod 1000)%Z /\
      current_pressure_mb r = rounded /\
      pressure_change_mb r = change /\
      overall_trend r = overall_trend_of change /\
      (current_pressure_display r, pressure_change_display r, unit_label r)
        = to_display unit0 current_pressure_inhg rounded change /\
      tendency_description r = first ++ " then " ++ second /\
      tendency_symbol r = tendency_symbol_of first second /\
      unit r = unit0.
Proof.
  unfold calculate_pressure_trend.
  destruct (to_inhg current_pressure past_pressures unit0) as [ci pi].
  cbn [fst snd]. intros H.
  apply bind_Ok in H. destruct H as (p1 & H1 & H).
  apply bind_Ok in H. destruct H as (p2 & H2 & H).
  apply bind_Ok in H. destruct H as (p3 & H3 & H).
  apply bind_Ok in H. destruct H as (tv & Htv & H).
  apply bind_Ok in H. destruct H as (tm & Htm & H).
  destruct (to_display unit0 ci (round1 (ci * INHG_TO_MB))
              (round1 (ci * INHG_TO_MB - p3 * INHG_TO_MB)))
    as [[dc dp] ul] eqn:Hd.
  apply index_Ok in H1, H2, H3.
  exists p1, p2, p3. repeat split; try assumption.
  exists tm. injection H as <-.
  cbn [trend_value station_model_pressure current_pressure_mb
       pressure_change_mb overall_trend current_pressure_display
       pressure_change_display unit_label tendency_description
       tendency_symbol unit].
  repeat split; auto.
Qed.

End Inversion.

(** ** The classifier and the symbol table *)

Section Classifier.

Context {N : PyNum}.

Local Open Scope string_scope.
Local Open Scope num_scope.

Lemma determine_trend_range (p1 p2 t : num) :
  determine_trend p1 p2 t = "Rising" \/
  determine_trend p1 p2 t = "Falling" \/
  determine_trend p1 p2 t = "Steady".
Proof.
  unfold determine_trend.
  destruct (p2 - p1 >? t); [now left|].
  destruct (p2 - p1 <? - t); [right; now left | right; now right].
Qed.

Lemma first_period_trend_of_range (a b : string) (p3 p1 : num) :
  a = "Rising" \/ a = "Falling" \/ a = "Steady" ->
  b = "Rising" \/ b = "Falling" \/ b = "Steady" ->
  let f := first_period_trend_of a b p3 p1 in
  f = "Rising" \/ f = "Falling" \/ f = "Steady".
Proof.
  intros Ha Hb. unfold first_period_trend_of.
  destruct (String.eqb a b); [assumption|].
  destruct (String.eqb a "Steady" && negb (String.eqb b "Steady"));
    [assumption|].
  destruct (String.eqb b "Steady" && negb (String.eqb a "Steady"));
    [assumption|].
  apply determine_trend_range.
Qed.

(** When the two hourly trends are opposite, the branch of line 113 is the
    one taken. *)
Lemma first_period_trend_of_opposite (a b : string) (p3 p1 : num) :
  (a = "Rising" /\ b = "Falling") \/ (a = "Falling" /\ b = "Rising") ->
  first_period_trend_of a b p3 p1 = determine_trend p3 p1 default_threshold.
Proof.
  intros [[-> ->] | [-> ->]]; reflexivity.
Qed.

Definition symbols : list string :=
  ["+/"; "-+"; "+="; "-="; "+"; "-"; "=+"; "=-"; "="].

Lemma tendency_symbol_of_range (a b : string) :
  a = "Rising" \/ a = "Falling" \/ a = "Steady" ->
  b = "Rising" \/ b = "Falling" \/ b = "Steady" ->
  In (tendency_symbol_of a b) symbols.
Proof.
  intros [-> | [-> | ->]] [-> | [-> | ->]]; cbv; tauto.
Qed.

End Classifier.

(** C1. [determine_trend] is a function of any two readings and any
    threshold that never raises: it answers Rising when
    [p_after - p_before > t], otherwise Falling when
    [p_after - p_before < -t], and Steady when neither comparison holds. *)
Theorem determine_trend_spec (N : PyNum) (p_before p_after t : num) :
  let diff := (p_after - p_before)%num in
  ((diff >? t)%num = true ->
     determine_trend p_before p_after t = "Rising"%string) /\
  ((diff >? t)%num = false -> (diff <? - t)%num = true ->
     determine_trend p_before p_after t = "Falling"%string) /\
  ((diff >? t)%num = false -> (diff <? - t)%num = false ->
     determine_trend p_before p_after t = "Steady"%string).
Proof.
  unfold determine_trend. cbv zeta.
  destruct (gt (sub p_after p_before) t);
    destruct (lt (sub p_after p_before) (neg t));
    repeat split; intros; congruence.
Qed.

Lemma determine_trend_spec_witness :
  @determine_trend binary64 (lit 2990 2) (lit 2992 2) default_threshold
  = "Rising"%string.
Proof.
  apply (proj1 (@determine_trend_spec binary64 (lit 2990 2) (lit 2992 2)
                  default_threshold)).
  run_call.
Defined.

(** ** Unit selectors, labels and the history list *)

Section Selectors.

Context {N : PyNum}.

Local Open Scope string_scope.
Local Open Scope num_scope.

Lemma to_display_label u ci rounded change :
  snd (to_display u ci rounded change) = label_of u.
Proof.
  unfold to_display, label_of.
  destruct (String.eqb u "hPa"); [reflexivity|].
  destruct (String.eqb u "kPa"); [reflexivity|].
  destruct (String.eqb u "custom"); reflexivity.
Qed.

Lemma unit_label_Ok cur past u r :
  calculate_pressure_trend cur past u = Ok r -> unit_label r = label_of u.
Proof.
  intros H. apply calculate_pressure_trend_Ok in H.
  destruct H as (p1 & p2 & p3 & _ & _ & _ & tm & H).
  destruct H as (_ & _ & _ & _ & _ & _ & Hd & _).
  rewrite <- (to_display_label u (fst (to_inhg cur past u))
    (round1 (fst (to_inhg cur past u) * INHG_TO_MB))
    (round1 (fst (to_inhg cur past u) * INHG_TO_MB - p3 * INHG_TO_MB))).
  rewrite <- Hd. reflexivity.
Qed.

(** Only the first three readings of the history are looked at. *)
Lemma calculate_pressure_trend_firstn cur a b c rest u :
  calculate_pressure_trend cur (a :: b :: c :: rest) u
  = calculate_pressure_trend cur [a; b; c] u.
Proof.
  unfold calculate_pressure_trend, to_inhg.
  destruct (String.eqb u "hPa"); [reflexivity|].
  destruct (String.eqb u "kPa"); [reflexivity|].
  destruct (String.eqb u "custom"); reflexivity.
Qed.

Lemma calculate_pressure_trend_short cur past u :
  (List.length past < 3)%nat ->
  calculate_pressure_trend cur past u = Raise IndexError.
Proof.
  intros Hlen.
  assert (Hm : forall f : num -> num, (List.length (map f past) < 3)%nat)
    by (intros f; rewrite length_map; exact Hlen).
  unfold calculate_pressure_trend, to_inhg.
  destruct (String.eqb u "hPa");
    [specialize (Hm (fun p => p * HPA_TO_INHG));
     destruct (map _ past) as [|x [|y [|z l]]]; simpl in Hm; try lia;
     reflexivity|].
  destruct (String.eqb u "kPa");
    [specialize (Hm (fun p => p * KPA_TO_INHG));
     destruct (map _ past) as [|x [|y [|z l]]]; simpl in Hm; try lia;
     reflexivity|].
  destruct (String.eqb u "custom");
    [specialize (Hm (fun p => p * HPA_TO_INHG));
     destruct (map _ past) as [|x [|y [|z l]]]; simpl in Hm; try lia;
     reflexivity|].
  destruct past as [|x [|y [|z l]]]; simpl in Hlen; try lia; reflexivity.
Qed.

End Selectors.

(** C6. The symbol table has one entry for each of the nine pairs of
    directions and the nine symbols are pairwise distinct.  In every
    returned record the symbol is the entry of the table for the two periods
    of that record: the first period and the second period computed from
    its readings, which are directions and are the two parts of its
    description.  So the symbol of a returned record is one of the nine,
    never the empty string the variable starts with. *)
Theorem tendency_symbol_total (N : PyNum) :
  (tendency_symbol_of "Rising" "Falling" = "+/"
   /\ tendency_symbol_of "Falling" "Rising" = "-+"
   /\ tendency_symbol_of "Rising" "Steady" = "+="
   /\ tendency_symbol_of "Falling" "Steady" = "-="
   /\ tendency_symbol_of "Rising" "Rising" = "+"
   /\ tendency_symbol_of "Falling" "Falling" = "-"
   /\ tendency_symbol_of "Steady" "Rising" = "=+"
   /\ tendency_symbol_of "Steady" "Falling" = "=-"
   /\ tendency_symbol_of "Steady" "Steady" = "=")%string
  /\ NoDup symbols
  /\ forall (cur : num) (past : list num) (u : string) (r : TrendResult N),
       calculate_pressure_trend cur past u = Ok r ->
       (exists p_1h p_2h p_3h : num,
          nth_error (snd (to_inhg cur past u)) 0 = Some p_1h
          /\ nth_error (snd (to_inhg cur past u)) 1 = Some p_2h
          /\ nth_error (snd (to_inhg cur past u)) 2 = Some p_3h
          /\ let first :=
               first_period_trend_of
                 (determine_trend p_3h p_2h default_threshold)
                 (determine_trend p_2h p_1h default_threshold) p_3h p_1h in
             let second :=
               determine_trend p_1h (fst (to_inhg cur past u))
                 default_threshold in
             (first = "Rising" \/ first = "Falling" \/ first = "Steady")%string
             /\ (second = "Rising" \/ second = "Falling"
                 \/ second = "Steady")%string
             /\ tendency_description r = (first ++ " then " ++ second)%string
             /\ tendency_symbol r = tendency_symbol_of first second)
       /\ In (tendency_symbol r) symbols
       /\ tendency_symbol r <> EmptyString.
Proof.
  split; [repeat split|split].
  - unfold symbols.
    repeat (constructor; [cbv; intuition discriminate|]). constructor.
  - intros cur past u r H. apply calculate_pressure_trend_Ok in H.
    destruct H as (p1 & p2 & p3 & H1 & H2 & H3 & tm & H).
    destruct H as (_ & _ & _ & _ & _ & _ & _ & Hd & Hs & _).
    pose proof (first_period_trend_of_range p3 p1
                  (determine_trend_range p3 p2 default_threshold)
                  (determine_trend_range p2 p1 default_threshold)) as Hf.
    pose proof (determine_trend_range p1 (fst (to_inhg cur past u))
                  default_threshold) as Hsec.
    cbv zeta in Hf.
    assert (Hin : In (tendency_symbol r) symbols).
    { rewrite Hs. apply tendency_symbol_of_range; assumption. }
    split; [|split; [exact Hin|]].
    + exists p1, p2, p3. cbv zeta. auto 10.
    + intros E. rewrite E in Hin. cbv in Hin. intuition discriminate.
Qed.

Lemma tendency_symbol_total_witness :
  calculate_pressure_trend Sample.inhg_now Sample.inhg_past "inHg"
    = Ok Sample.inhg_result
  /\ tendency_description Sample.inhg_result = "Falling then Rising"%string
  /\ tendency_symbol Sample.inhg_result
     = tendency_symbol_of "Falling" "Rising"
  /\ In (tendency_symbol Sample.inhg_result) symbols
  /\ tendency_symbol Sample.inhg_result <> EmptyString.
Proof.
  assert (H : calculate_pressure_trend Sample.inhg_now Sample.inhg_past "inHg"
              = Ok Sample.inhg_result) by run_call.
  split; [exact H|].
  destruct (proj2 (proj2 (tendency_symbol_total binary64)) _ _ _ _ H)
    as [(p_1h & p_2h & p_3h & H1 & H2 & H3 & _ & _ & Hd & Hs) [Hin Hne]].
  change (Some (lit 2990 2) = Some p_1h) in H1.
  change (Some (lit 3005 2) = Some p_2h) in H2.
  change (Some (lit 3000 2) = Some p_3h) in H3.
  apply (f_equal (fun o => match o with Some x => x | None => S754_nan end))
    in H1, H2, H3.
  cbv beta iota in H1, H2, H3. subst p_1h p_2h p_3h.
  assert (Ef : first_period_trend_of
                 (@determine_trend binary64 (lit 3000 2) (lit 3005 2)
                    default_threshold)
                 (@determine_trend binary64 (lit 3005 2) (lit 2990 2)
                    default_threshold) (lit 3000 2) (lit 2990 2)
               = "Falling"%string) by run_call.
  assert (Es : @determine_trend binary64 (lit 2990 2)
                 (fst (to_inhg Sample.inhg_now Sample.inhg_past "inHg"))
                 default_threshold = "Rising"%string) by run_call.
  split; [exact (eq_trans Hd
                  (f_equal2 (fun a b => (a ++ " then " ++ b)%string) Ef Es))|].
  split; [exact (eq_trans Hs (f_equal2 tendency_symbol_of Ef Es))|].
  split; [exact Hin | exact Hne].
Defined.

(** C7. A unit selector other than "hPa", "kPa" and "custom" is not
    rejected: the readings are taken as inHg unchanged, the change is
    displayed as [pressure_change_mb / INHG_TO_MB], the label is "inHg", and
    the call returns what the call with "inHg" returns, but for the field
    [unit]. *)
Theorem unrecognised_unit_is_inhg (N : PyNum) (cur : num) (past : list num)
    (u : string) :
  u <> "hPa"%string -> u <> "kPa"%string -> u <> "custom"%string ->
  to_inhg cur past u = (cur, past)
  /\ (forall r : TrendResult N,
        calculate_pressure_trend cur past u = Ok r ->
        current_pressure_display r = cur
        /\ pressure_change_display r = (pressure_change_mb r / INHG_TO_MB)%num
        /\ unit_label r = "inHg"%string)
  /\ calculate_pressure_trend cur past u
     = match calculate_pressure_trend cur past "inHg" with
       | Ok r => Ok (with_unit r u)
       | Raise e => Raise e
       end.
Proof.
  intros H1 H2 H3.
  apply String.eqb_neq in H1, H2, H3.
  assert (Hi : to_inhg cur past u = (cur, past))
    by (unfold to_inhg; rewrite H1, H2, H3; reflexivity).
  split; [exact Hi|split].
  - intros r H. apply calculate_pressure_trend_Ok in H.
    destruct H as (p1 & p2 & p3 & _ & _ & _ & tm & H).
    destruct H as (_ & _ & _ & _ & Hc & _ & Hd & _).
    rewrite Hi in Hd, Hc. cbn [fst snd] in Hd, Hc.
    unfold to_display in Hd. rewrite H1, H2, H3 in Hd.
    injection Hd as Hd1 Hd2 Hd3. rewrite Hc. auto.
  - unfold calculate_pressure_trend. rewrite Hi.
    unfold to_inhg, to_display. rewrite H1, H2, H3.
    cbn [String.eqb Ascii.eqb Bool.eqb].
    destruct (index past 0) as [p1|]; [|reflexivity].
    destruct (index past 1) as [p2|]; [|reflexivity].
    destruct (index past 2) as [p3|]; [|reflexivity].
    cbn [bind].
    destruct (to_int _) as [tv|]; [|reflexivity].
    cbn [bind].
    destruct (to_int _) as [tm|]; reflexivity.
Qed.

Lemma unrecognised_unit_is_inhg_witness :
  to_inhg Sample.inhg_now Sample.inhg_past "psi"
    = (Sample.inhg_now, Sample.inhg_past)
  /\ calculate_pressure_trend Sample.inhg_now Sample.inhg_past "psi"
     = Ok (with_unit Sample.inhg_result "psi")
  /\ unit_label (with_unit Sample.inhg_result "psi") = "inHg"%string.
Proof.
  destruct (@unrecognised_unit_is_inhg binary64 Sample.inhg_now
              Sample.inhg_past "psi") as (Hi & Hr & _);
    try (intros E; discriminate E).
  assert (H : calculate_pressure_trend Sample.inhg_now Sample.inhg_past "psi"
              = Ok (with_unit Sample.inhg_result "psi"))
    by run_call.
  split; [exact Hi|]. split; [exact H|].
  exact (proj2 (proj2 (Hr _ H))).
Defined.

(** C9. The field [unit] of a returned record is the argument [unit] as it
    was passed, whatever string it is, and [unit_label] is the label of the
    branch taken; with an unrecognised selector the record carries that
    selector next to the label "inHg". *)
Theorem unit_verbatim_label_of_branch (N : PyNum) (cur : num)
    (past : list num) (u : string) (r : TrendResult N) :
  calculate_pressure_trend cur past u = Ok r ->
  unit r = u
  /\ unit_label r = label_of u
  /\ (u <> "hPa"%string -> u <> "kPa"%string -> u <> "custom"%string ->
      unit_label r = "inHg"%string).
Proof.
  intros H. split; [|split].
  - apply calculate_pressure_trend_Ok in H.
    destruct H as (p1 & p2 & p3 & _ & _ & _ & tm & H).
    destruct H as (_ & _ & _ & _ & _ & _ & _ & _ & _ & Hu). exact Hu.
  - apply unit_label_Ok with (1 := H).
  - intros H1 H2 H3. rewrite (unit_label_Ok _ _ _ H).
    apply String.eqb_neq in H1, H2, H3.
    unfold label_of. rewrite H1, H2, H3. reflexivity.
Qed.

Lemma unit_verbatim_label_of_branch_witness :
  calculate_pressure_trend Sample.inhg_now Sample.inhg_past "mmHg"
    = Ok (with_unit Sample.inhg_result "mmHg")
  /\ unit (with_unit Sample.inhg_result "mmHg") = "mmHg"%string
  /\ unit_label (with_unit Sample.inhg_result "mmHg") = "inHg"%string.
Proof.
  assert (H : calculate_pressure_trend Sample.inhg_now Sample.inhg_past "mmHg"
              = Ok (with_unit Sample.inhg_result "mmHg"))
    by run_call.
  destruct (unit_verbatim_label_of_branch _ _ _ H) as (Hu & _ & Hl).
  split; [exact H|]. split; [exact Hu|].
  apply Hl; intros E; discriminate E.
Defined.

(** ** Facts on binary64 *)

Section Binary64.

Local Open Scope Z_scope.

(** A float that does not compare below zero: not a negative number and not
    minus infinity.  A NaN and both zeros qualify. *)
Definition not_negative (x : spec_float) : Prop :=
  match x with
  | S754_finite true _ _ | S754_infinity true => False
  | _ => True
  end.

(** The rounding at the end of each operation keeps the sign it is given. *)
Lemma binary_round_aux_sign (s : bool) (m e : Z) (l : location) :
  let r := binary_round_aux B64.prec B64.emax s m e l in
  r = S754_zero s \/ (exists m' e', r = S754_finite s m' e')
  \/ r = S754_infinity s \/ r = S754_nan.
Proof.
  unfold binary_round_aux.
  destruct (shr_fexp B64.prec B64.emax m e l) as [mrs' e'].
  destruct (shr_fexp B64.prec B64.emax _ e' loc_Exact) as [mrs'' e''].
  destruct (shr_m mrs'') as [|p|p].
  - now left.
  - destruct (e'' <=? B64.emax - B64.prec).
    + right; left. now exists p, e''.
    + right; right; now left.
  - right; right; now right.
Qed.

Lemma binary_round_aux_not_negative (m e : Z) (l : location) :
  not_negative (binary_round_aux B64.prec B64.emax false m e l).
Proof.
  destruct (binary_round_aux_sign false m e l) as [H | [(m' & e' & H) | [H | H]]];
    rewrite H; exact I.
Qed.

Lemma SFmul_not_negative (x : spec_float) (m : positive) (e : Z) :
  not_negative x ->
  not_negative (SFmul B64.prec B64.emax x (S754_finite false m e)).
Proof.
  destruct x as [s|[|]| |[|] mx ex]; simpl; intros H; try exact I;
    try contradiction.
  apply binary_round_aux_not_negative.
Qed.

Lemma SFabs_not_negative (x : spec_float) : not_negative (SFabs x).
Proof. destruct x; exact I. Qed.

Lemma of_ratio_not_negative (n d : positive) :
  not_negative (B64.of_ratio false n d).
Proof.
  unfold B64.of_ratio, SFdiv.
  destruct (SFdiv_core_binary B64.prec B64.emax (Z.pos n) 0 (Z.pos d) 0)
    as [[mz ez] lz].
  apply binary_round_aux_not_negative.
Qed.

Lemma round1_not_negative (x : spec_float) :
  not_negative x -> not_negative (B64.round1 x).
Proof.
  destruct x as [s|[|]| |[|] m e]; simpl; intros H; try exact I;
    try contradiction.
  destruct (B64.tenths m e); try exact I.
  apply of_ratio_not_negative.
Qed.

(** Python's [x < 0] is false exactly on these floats. *)
Lemma not_negative_iff (x : spec_float) :
  SFltb x (S754_zero false) = false <-> not_negative x.
Proof.
  destruct x as [s|[|]| |[|] m e]; simpl; unfold SFltb; simpl;
    split; intros H; try exact I; try reflexivity; try discriminate;
    contradiction.
Qed.

(** On a float that is not negative [int] is the floor of the exact
    value. *)
Lemma to_int_not_negative (x : spec_float) (n : Z) :
  not_negative x -> B64.to_int x = Ok n ->
  0 <= n /\ n = Qfloor (B64.value x).
Proof.
  destruct x as [s|[|]| |[|] m e];
    cbn [not_negative]; intros H E;
    try contradiction; try discriminate.
  - apply Ok_inj in E. subst n. split; [lia | reflexivity].
  - unfold B64.to_int in E. unfold B64.value.
    destruct e as [|p|p]; apply Ok_inj in E; subst n.
    + rewrite Qfloor_Z. split; [|reflexivity]. lia.
    + rewrite Qfloor_Z. split; [|reflexivity].
      apply Z.mul_nonneg_nonneg; [lia|]. apply Z.pow_nonneg. lia.
    + unfold Qfloor. rewrite Pos2Z.inj_pow. split; [|reflexivity].
      apply Z.div_pos; [lia|]. apply Z.pow_pos_nonneg; lia.
Qed.

(** [int] of a float is its exact value with the fraction dropped. *)
Definition Qtrunc (q : Q) : Z := Z.quot (Qnum q) (Z.pos (Qden q)).

Lemma to_int_truncates (x : spec_float) (n : Z) :
  B64.to_int x = Ok n -> n = Qtrunc (B64.value x).
Proof.
  destruct x as [s|s| |s m e]; intros E; try discriminate.
  - apply Ok_inj in E. subst n. reflexivity.
  - unfold B64.to_int in E. apply Ok_inj in E. subst n.
    unfold B64.value, Qtrunc.
    destruct e as [|p|p], s; cbn [Qopp Qnum Qden inject_Z];
      rewrite ?Z.quot_1_r, ?Pos2Z.inj_pow; try reflexivity.
    + rewrite Z.quot_opp_l by (apply Z.pow_nonzero; lia).
      rewrite Z.quot_div_nonneg;
        [reflexivity | lia | apply Z.pow_pos_nonneg; lia].
    + rewrite Z.quot_div_nonneg;
        [reflexivity | lia | apply Z.pow_pos_nonneg; lia].
Qed.

(** The sign of the exact value of a finite float is its sign bit. *)
Lemma value_finite_positive (m : positive) (e : Z) :
  (0 < B64.value (S754_finite false m e))%Q.
Proof.
  unfold B64.value. destruct e as [|p|p].
  - unfold Qlt; simpl. lia.
  - unfold Qlt. cbn [inject_Z Qnum Qden].
    assert (0 < 2 ^ Z.pos p) by (apply Z.pow_pos_nonneg; lia). nia.
  - unfold Qlt; simpl. lia.
Qed.

Lemma value_finite_negative (m : positive) (e : Z) :
  (B64.value (S754_finite true m e) < 0)%Q.
Proof.
  pose proof (value_finite_positive m e) as H.
  unfold B64.value in *.
  apply Qopp_lt_compat in H. exact H.
Qed.

(** A float whose product with ten [int] accepts is a zero or a finite
    number. *)
Lemma to_int_mul_finite (x : spec_float) (m : positive) (e n : Z) :
  B64.to_int (SFmul B64.prec B64.emax x (S754_finite false m e)) = Ok n ->
  B64.is_finite x = true.
Proof.
  destruct x as [s|s| |s mx ex]; simpl; intros H; try reflexivity;
    discriminate.
Qed.

Lemma to_int_abs_mul_finite (x : spec_float) (m : positive) (e n : Z) :
  B64.to_int (SFmul B64.prec B64.emax (SFabs x) (S754_finite false m e)) = Ok n ->
  B64.is_finite x = true.
Proof.
  destruct x as [s|s| |s mx ex]; simpl; intros H; try reflexivity;
    discriminate.
Qed.

(** The literals of the program. *)
Lemma lit_10 : @lit binary64 10 0 = S754_finite false 5629499534213120 (-49).
Proof. reflexivity. Qed.

Lemma lit_0 : @lit binary64 0 0 = S754_zero false.
Proof. reflexivity. Qed.

Lemma INHG_TO_MB_binary64 :
  @INHG_TO_MB binary64 = S754_finite false 4765920231915992 (-47).
Proof. vm_compute. reflexivity. Qed.

Lemma HPA_TO_INHG_binary64 :
  @HPA_TO_INHG binary64 = S754_finite false 8511443007760048 (-58).
Proof. vm_compute. reflexivity. Qed.

Lemma KPA_TO_INHG_binary64 :
  @KPA_TO_INHG binary64 = S754_finite false 5319651879850030 (-54).
Proof. vm_compute. reflexivity. Qed.

Lemma default_threshold_binary64 :
  @default_threshold binary64 = S754_finite false 5764607523034235 (-59).
Proof. vm_compute. reflexivity. Qed.

(** The overall trend is the sign of the rounded change. *)
Lemma overall_trend_of_binary64 (x : spec_float) :
  B64.is_finite x = true ->
  ((0 < B64.value x)%Q -> @overall_trend_of binary64 x = "Rising"%string)
  /\ ((B64.value x < 0)%Q -> @overall_trend_of binary64 x = "Falling"%string)
  /\ ((B64.value x == 0)%Q -> @overall_trend_of binary64 x = "Steady"%string).
Proof.
  unfold overall_trend_of. rewrite lit_0.
  destruct x as [s|s| |[|] m e]; cbn [B64.is_finite]; intros F;
    try discriminate; cbn [gt lt binary64].
  - cbn. repeat split; intros H; try reflexivity; inversion H.
  - pose proof (value_finite_negative m e) as Hn.
    repeat split; intros H; try reflexivity.
    + exfalso. apply (Qlt_irrefl 0). eapply Qlt_trans; eassumption.
    + exfalso. rewrite H in Hn. apply (Qlt_irrefl 0), Hn.
  - pose proof (value_finite_positive m e) as Hp.
    repeat split; intros H; try reflexivity.
    + exfalso. apply (Qlt_irrefl 0). eapply Qlt_trans; eassumption.
    + exfalso. rewrite H in Hp. apply (Qlt_irrefl 0), Hp.
Qed.

(** With a threshold that is not negative, a difference below its negation
    is not above it, so the classifier answers Falling. *)
Lemma determine_trend_falling_binary64 (p1 p2 t : spec_float) :
  not_negative t ->
  SFltb (SFsub B64.prec B64.emax p2 p1) (SFopp t) = true ->
  @determine_trend binary64 p1 p2 t = "Falling"%string.
Proof.
  intros Ht H. unfold determine_trend. cbn [gt lt sub neg binary64].
  rewrite H.
  destruct (SFsub B64.prec B64.emax p2 p1) as [s|[|]| |[|] m e],
           t as [s'|[|]| |[|] m' e'];
    try contradiction; try reflexivity; try discriminate.
Qed.

End Binary64.

Section LongHistory.

Context {N : PyNum}.

Local Open Scope string_scope.
Local Open Scope num_scope.

(** With three readings or more the list is never the cause of an
    exception. *)
Lemma calculate_pressure_trend_no_IndexError cur a b c rest u :
  (forall x : num, to_int x <> Raise IndexError) ->
  calculate_pressure_trend cur (a :: b :: c :: rest) u <> Raise IndexError.
Proof.
  intros Hint.
  assert (Hb : forall (x : num) (k : Z -> py (TrendResult N)),
             (forall n, k n <> Raise IndexError) ->
             bind (to_int x) k <> Raise IndexError).
  { intros x k Hk. destruct (to_int x) as [n|e] eqn:E; cbn [bind].
    - apply Hk.
    - intros E'. injection E' as ->. exact (Hint _ E). }
  unfold calculate_pressure_trend, to_inhg.
  destruct (String.eqb u "hPa"); [|destruct (String.eqb u "kPa");
    [|destruct (String.eqb u "custom")]];
    cbn [map index nth_error bind];
    apply Hb; intros tv; apply Hb; intros tm;
    destruct (to_display _ _ _ _) as [[dc dp] ul]; discriminate.
Qed.

Lemma three_or_more (A : Type) (l : list A) :
  (3 <= List.length l)%nat ->
  exists a b c rest, l = a :: b :: c :: rest.
Proof.
  destruct l as [|a [|b [|c rest]]]; simpl; intros H; try lia.
  now exists a, b, c, rest.
Qed.

End LongHistory.

Lemma to_int_binary64_no_IndexError (x : spec_float) :
  B64.to_int x <> Raise IndexError.
Proof. destruct x; discriminate. Qed.

(** ** The numeric fields on binary64 *)

(** C2. The overall trend of a returned record is the sign of its field
    [pressure_change_mb], compared with zero and not with the threshold of
    the classifier: a change above zero gives Rising, a change below zero
    Falling, a change equal to zero Steady.  The change of a returned
    record is a finite float, so one of the three cases applies. *)
Theorem overall_trend_is_sign_of_change (cur : @num binary64)
    (past : list (@num binary64)) (u : string) (r : TrendResult binary64) :
  calculate_pressure_trend cur past u = Ok r ->
  B64.is_finite (pressure_change_mb r) = true
  /\ ((0 < B64.value (pressure_change_mb r))%Q ->
      overall_trend r = "Rising"%string)
  /\ ((B64.value (pressure_change_mb r) < 0)%Q ->
      overall_trend r = "Falling"%string)
  /\ ((B64.value (pressure_change_mb r) == 0)%Q ->
      overall_trend r = "Steady"%string).
Proof.
  intros H. apply calculate_pressure_trend_Ok in H.
  destruct H as (p1 & p2 & p3 & _ & _ & _ & tm & H).
  destruct H as (Htv & _ & _ & _ & Hc & Ho & _).
  rewrite <- Hc in Htv, Ho. rewrite lit_10 in Htv.
  apply to_int_abs_mul_finite in Htv.
  split; [exact Htv|]. rewrite Ho.
  apply overall_trend_of_binary64. exact Htv.
Qed.

Lemma overall_trend_is_sign_of_change_witness :
  calculate_pressure_trend Sample.hpa_now Sample.hpa_past "hPa"
    = Ok Sample.hpa_result
  /\ (0 < B64.value (pressure_change_mb Sample.hpa_result))%Q
  /\ overall_trend Sample.hpa_result = "Rising"%string.
Proof.
  assert (H : calculate_pressure_trend Sample.hpa_now Sample.hpa_past "hPa"
              = Ok Sample.hpa_result) by run_call.
  assert (Hp : (0 < B64.value (pressure_change_mb Sample.hpa_result))%Q)
    by reflexivity.
  split; [exact H|]. split; [exact Hp|].
  exact (proj1 (proj2 (overall_trend_is_sign_of_change _ _ _ H)) Hp).
Defined.

(** C3. The trend value of a returned record is a non-negative integer, the
    floor of [abs(pressure_change_mb) * 10] (the product as the program
    computes it), where [pressure_change_mb] is the difference in mb between
    the current reading and the reading of three hours ago, rounded to one
    decimal. *)
Theorem trend_value_is_floor_of_tenths (cur : @num binary64)
    (past : list (@num binary64)) (u : string) (r : TrendResult binary64) :
  calculate_pressure_trend cur past u = Ok r ->
  (0 <= trend_value r)%Z
  /\ trend_value r
     = Qfloor (B64.value (absf (pressure_change_mb r) * lit 10 0)%num)
  /\ exists p_3h : @num binary64,
       nth_error (snd (to_inhg cur past u)) 2 = Some p_3h
       /\ pressure_change_mb r
          = round1 (fst (to_inhg cur past u) * INHG_TO_MB
                    - p_3h * INHG_TO_MB)%num.
Proof.
  intros H. apply calculate_pressure_trend_Ok in H.
  destruct H as (p1 & p2 & p3 & _ & _ & H3 & tm & H).
  destruct H as (Htv & _ & _ & _ & Hc & _).
  rewrite <- Hc in Htv.
  assert (Hn : not_negative (absf (pressure_change_mb r) * lit 10 0)%num).
  { rewrite lit_10. apply SFmul_not_negative, SFabs_not_negative. }
  destruct (to_int_not_negative _ Hn Htv) as [H0 Hf].
  split; [exact H0|]. split; [exact Hf|].
  exists p3. split; assumption.
Qed.

Lemma trend_value_is_floor_of_tenths_witness :
  calculate_pressure_trend Sample.hpa_now Sample.hpa_past "hPa"
    = Ok Sample.hpa_result
  /\ (0 <= trend_value Sample.hpa_result)%Z
  /\ trend_value Sample.hpa_result = 42%Z.
Proof.
  assert (H : calculate_pressure_trend Sample.hpa_now Sample.hpa_past "hPa"
              = Ok Sample.hpa_result) by run_call.
  split; [exact H|].
  split; [exact (proj1 (trend_value_is_floor_of_tenths _ _ _ H))|reflexivity].
Defined.

(** The current reading in inHg is not negative when the reading is not. *)
Lemma to_inhg_not_negative (cur : @num binary64)
    (past : list (@num binary64)) (u : string) :
  not_negative cur -> not_negative (fst (to_inhg cur past u)).
Proof.
  intros H. unfold to_inhg.
  destruct (String.eqb u "hPa");
    [cbn [fst]; rewrite HPA_TO_INHG_binary64;
     apply SFmul_not_negative, H|].
  destruct (String.eqb u "kPa");
    [cbn [fst]; rewrite KPA_TO_INHG_binary64;
     apply SFmul_not_negative, H|].
  destruct (String.eqb u "custom"); exact H.
Qed.

(** C4. The station model pressure of a returned record lies between 0 and
    999.  It is [int(current_pressure_mb * 10) mod 1000], where
    [current_pressure_mb] is the current pressure in mb rounded to one
    decimal and [int] drops the fraction; for a current reading that is not
    negative that is [floor(current_pressure_mb * 10) mod 1000], the last
    three digits of the pressure in tenths of a millibar. *)
Theorem station_model_pressure_last_three_digits (cur : @num binary64)
    (past : list (@num binary64)) (u : string) (r : TrendResult binary64) :
  calculate_pressure_trend cur past u = Ok r ->
  (0 <= station_model_pressure r <= 999)%Z
  /\ current_pressure_mb r
     = round1 (fst (to_inhg cur past u) * INHG_TO_MB)%num
  /\ station_model_pressure r
     = (Qtrunc (B64.value (current_pressure_mb r * lit 10 0)%num)
        mod 1000)%Z
  /\ ((cur <? lit 0 0)%num = false ->
      station_model_pressure r
      = (Qfloor (B64.value (current_pressure_mb r * lit 10 0)%num)
         mod 1000)%Z).
Proof.
  intros H. apply calculate_pressure_trend_Ok in H.
  destruct H as (p1 & p2 & p3 & _ & _ & _ & tm & H).
  destruct H as (_ & Htm & Hs & Hm & _).
  split; [|split; [|split]].
  - rewrite Hs. pose proof (Z.mod_pos_bound tm 1000). lia.
  - exact Hm.
  - rewrite Hs, Hm, (to_int_truncates _ Htm). reflexivity.
  - intros Hcur. rewrite lit_0 in Hcur. apply not_negative_iff in Hcur.
    rewrite Hs, Hm.
    assert (Hn : not_negative
              (round1 (fst (to_inhg cur past u) * INHG_TO_MB) * lit 10 0)%num).
    { rewrite lit_10, INHG_TO_MB_binary64.
      apply SFmul_not_negative, round1_not_negative, SFmul_not_negative.
      apply to_inhg_not_negative, Hcur. }
    destruct (to_int_not_negative _ Hn Htm) as [_ ->]. reflexivity.
Qed.

Lemma station_model_pressure_last_three_digits_witness :
  calculate_pressure_trend Sample.hpa_now Sample.hpa_past "hPa"
    = Ok Sample.hpa_result
  /\ (0 <= station_model_pressure Sample.hpa_result <= 999)%Z
  /\ station_model_pressure Sample.hpa_result = (10132 mod 1000)%Z.
Proof.
  assert (H : calculate_pressure_trend Sample.hpa_now Sample.hpa_past "hPa"
              = Ok Sample.hpa_result) by run_call.
  destruct (station_model_pressure_last_three_digits _ _ _ H)
    as (Hr & _ & _ & Hf).
  split; [exact H|]. split; [exact Hr|].
  rewrite (Hf eq_refl). reflexivity.
Defined.

(** C5. When the trend of the third hour back and the trend of the second
    hour back are one Rising and the other Falling, the first period of the
    description is the classification of the reading of three hours ago
    against the reading of one hour ago, in inHg and with the default
    threshold; so a net change below -0.01 inHg makes the first period
    Falling, also when the first of the two hours was Rising. *)
Theorem opposite_hours_are_reclassified (cur : @num binary64)
    (past : list (@num binary64)) (u : string) (r : TrendResult binary64)
    (p_1h p_2h p_3h : @num binary64) :
  calculate_pressure_trend cur past u = Ok r ->
  nth_error (snd (to_inhg cur past u)) 0 = Some p_1h ->
  nth_error (snd (to_inhg cur past u)) 1 = Some p_2h ->
  nth_error (snd (to_inhg cur past u)) 2 = Some p_3h ->
  (determine_trend p_3h p_2h default_threshold = "Rising"%string
   /\ determine_trend p_2h p_1h default_threshold = "Falling"%string)
  \/ (determine_trend p_3h p_2h default_threshold = "Falling"%string
      /\ determine_trend p_2h p_1h default_threshold = "Rising"%string) ->
  let second :=
    determine_trend p_1h (fst (to_inhg cur past u)) default_threshold in
  tendency_description r
  = (determine_trend p_3h p_1h default_threshold ++ " then " ++ second)%string
  /\ ((p_1h - p_3h <? - default_threshold)%num = true ->
      tendency_description r = ("Falling then " ++ second)%string).
Proof.
  intros H E1 E2 E3 Hopp second.
  apply calculate_pressure_trend_Ok in H.
  destruct H as (p1 & p2 & p3 & H1 & H2 & H3 & tm & H).
  destruct H as (_ & _ & _ & _ & _ & _ & _ & Hd & _).
  rewrite E1 in H1. rewrite E2 in H2. rewrite E3 in H3.
  injection H1 as <-. injection H2 as <-. injection H3 as <-.
  rewrite (first_period_trend_of_opposite _ _ Hopp) in Hd.
  split; [exact Hd|].
  intros Hlt. rewrite Hd.
  rewrite (determine_trend_falling_binary64 p_3h p_1h (@default_threshold binary64)).
  - reflexivity.
  - rewrite default_threshold_binary64. exact I.
  - exact Hlt.
Qed.

Lemma opposite_hours_are_reclassified_witness :
  calculate_pressure_trend Sample.inhg_now Sample.inhg_past "inHg"
    = Ok Sample.inhg_result
  /\ @determine_trend binary64 (lit 3000 2) (lit 3005 2) default_threshold
     = "Rising"%string
  /\ tendency_description Sample.inhg_result = "Falling then Rising"%string.
Proof.
  assert (H : calculate_pressure_trend Sample.inhg_now Sample.inhg_past "inHg"
              = Ok Sample.inhg_result) by run_call.
  assert (H32 : @determine_trend binary64 (lit 3000 2) (lit 3005 2)
                  default_threshold = "Rising"%string) by run_call.
  assert (H21 : @determine_trend binary64 (lit 3005 2) (lit 2990 2)
                  default_threshold = "Falling"%string) by run_call.
  assert (Hlt : (@lit binary64 2990 2 - lit 3000 2 <? - default_threshold)%num
                = true) by run_call.
  split; [exact H|]. split; [exact H32|].
  destruct (@opposite_hours_are_reclassified Sample.inhg_now
              Sample.inhg_past "inHg" Sample.inhg_result
              (lit 2990 2) (lit 3005 2) (lit 3000 2)
              H eq_refl eq_refl eq_refl (or_introl (conj H32 H21)))
    as [_ Hf].
  rewrite (Hf Hlt). run_call.
Defined.

(** C10. Two calls with the same current reading, the same unit and
    histories of three readings or more that agree on their first three
    readings return the same record or raise the same exception: what
    follows the third reading is never looked at, and a history longer than
    three readings raises no [IndexError]. *)
Theorem history_beyond_three_is_ignored (cur : @num binary64)
    (past1 past2 : list (@num binary64)) (u : string) :
  (3 <= List.length past1)%nat -> (3 <= List.length past2)%nat ->
  firstn 3 past1 = firstn 3 past2 ->
  calculate_pressure_trend cur past1 u = calculate_pressure_trend cur past2 u
  /\ calculate_pressure_trend cur past1 u
     = calculate_pressure_trend cur (firstn 3 past1) u
  /\ calculate_pressure_trend cur past1 u <> Raise IndexError.
Proof.
  intros H1 H2 Hf.
  destruct (three_or_more past1 H1) as (a & b & c & rest1 & ->).
  destruct (three_or_more past2 H2) as (a' & b' & c' & rest2 & ->).
  cbn [firstn] in Hf |- *. injection Hf as <- <- <-.
  split; [|split].
  - rewrite (calculate_pressure_trend_firstn cur a b c rest1).
    rewrite (calculate_pressure_trend_firstn cur a b c rest2). reflexivity.
  - apply calculate_pressure_trend_firstn.
  - apply calculate_pressure_trend_no_IndexError.
    exact to_int_binary64_no_IndexError.
Qed.

Lemma history_beyond_three_is_ignored_witness :
  calculate_pressure_trend Sample.inhg_now
    (Sample.inhg_past ++ [lit 1 0; lit 99999 0]) "inHg"
  = calculate_pressure_trend Sample.inhg_now
      (Sample.inhg_past ++ [S754_nan]) "inHg".
Proof.
  apply history_beyond_three_is_ignored; [simpl; lia | simpl; lia | reflexivity].
Defined.

(** ** Facts on exact rationals *)

Section ExactRationals.

Local Open Scope Z_scope.

(** [rne_div n d] is within half a unit of [n / d]. *)
Lemma rne_div_error (n d : Z) :
  0 < d -> 2 * Z.abs (rne_div n d * d - n) <= d.
Proof.
  intros Hd. unfold rne_div.
  pose proof (Z.div_mod n d ltac:(lia)) as Hn.
  pose proof (Z.mod_pos_bound n d Hd) as Hr.
  set (q := n / d) in *. set (r := n mod d) in *.
  destruct (Z.compare_spec (2 * r) d) as [E|L|G].
  - destruct (Z.even q); lia.
  - lia.
  - lia.
Qed.

(** Rounding to one decimal moves a value by at most 0.05. *)
Lemma round1_exact_error (x : Q) : (Qabs (Exact.round1 x - x) <= 1 # 20)%Q.
Proof.
  destruct x as [n d]. unfold Exact.round1. cbn [Qnum Qden].
  pose proof (@rne_div_error (10 * n) (Z.pos d) ltac:(lia)) as H.
  set (k := rne_div (10 * n) (Z.pos d)) in *.
  apply Qabs_Qle_condition.
  unfold Qle, Qminus, Qplus, Qopp. cbn [Qnum Qden].
  rewrite !Pos2Z.inj_mul. lia.
Qed.

Lemma HPA_TO_INHG_exact : @HPA_TO_INHG exact = (2953 # 100000)%Q.
Proof. reflexivity. Qed.

Lemma KPA_TO_INHG_exact : @KPA_TO_INHG exact = (2953 # 10000)%Q.
Proof. reflexivity. Qed.

Lemma INHG_TO_MB_exact : @INHG_TO_MB exact = (338639 # 10000)%Q.
Proof. reflexivity. Qed.

(** The two conversion factors of the hPa mode multiply to 1.000000967. *)
Lemma hpa_factors_product :
  (@HPA_TO_INHG exact * @INHG_TO_MB exact == 1 + (967 # 1000000000))%Q.
Proof. reflexivity. Qed.

Lemma kpa_factors_product :
  (@KPA_TO_INHG exact * @INHG_TO_MB exact == 10 * (1 + (967 # 1000000000)))%Q.
Proof. reflexivity. Qed.

Lemma Qabs_le_add (a b c d : Q) :
  (Qabs a <= c -> Qabs b <= d -> Qabs (a + b) <= c + d)%Q.
Proof.
  intros Ha Hb. eapply Qle_trans; [apply Qabs_triangle|].
  apply Qplus_le_compat; assumption.
Qed.

(** The hPa round trip: to inHg, to mb, to one decimal. *)
Lemma hpa_round_trip_error (x : Q) :
  (Qabs (Exact.round1 (x * (2953 # 100000) * (338639 # 10000)) - x)
   <= (5 # 100) + Qabs x * (967 # 1000000000))%Q.
Proof.
  set (y := (x * (2953 # 100000) * (338639 # 10000))%Q).
  assert (E : (Exact.round1 y - x
               == (Exact.round1 y - y) + x * (967 # 1000000000))%Q)
    by (unfold y; ring).
  rewrite E. apply Qabs_le_add.
  - eapply Qle_trans; [apply round1_exact_error|]. discriminate.
  - rewrite Qabs_Qmult. apply Qle_refl.
Qed.

(** The kPa round trip: to inHg, to mb, to one decimal, to kPa. *)
Lemma kpa_round_trip_error (x : Q) :
  (Qabs (Exact.round1 (x * (2953 # 10000) * (338639 # 10000)) / (10 # 1) - x)
   <= (5 # 1000) + Qabs x * (967 # 1000000000))%Q.
Proof.
  set (y := (x * (2953 # 10000) * (338639 # 10000))%Q).
  assert (E : (Exact.round1 y / (10 # 1) - x
               == (Exact.round1 y - y) * (1 # 10)
                  + x * (967 # 1000000000))%Q)
    by (unfold y; field).
  rewrite E. apply Qabs_le_add.
  - rewrite Qabs_Qmult.
    apply Qle_trans with ((1 # 20) * (1 # 10))%Q; [|discriminate].
    apply Qmult_le_compat_r; [apply round1_exact_error | discriminate].
  - rewrite Qabs_Qmult. apply Qle_refl.
Qed.

End ExactRationals.

(** ** The rounding of binary64 operations

    [SFmul] and [SFdiv] end in [binary_round_aux], which cuts a mantissa down
    to 53 bits, rounds it to nearest, ties to even, and renormalises.  This
    part shows that the result is the exact value up to a relative error of
    [2^-53] (or [2^-1075] absolutely, in the subnormal range), which is what
    the bounds on the round trip need. *)

Section Rounding.

Local Open Scope Z_scope.

Lemma digits2_pos_spec (p : positive) :
  2 ^ (Z.pos (digits2_pos p) - 1) <= Z.pos p < 2 ^ Z.pos (digits2_pos p).
Proof.
  induction p as [p IH|p IH|]; cbn [digits2_pos].
  - rewrite Pos2Z.inj_succ.
    replace (Z.succ (Z.pos (digits2_pos p)) - 1) with (Z.pos (digits2_pos p) - 1 + 1) by lia.
    rewrite (Z.pow_succ_r 2 (Z.pos (digits2_pos p))) by lia.
    rewrite Z.pow_add_r by lia. lia.
  - rewrite Pos2Z.inj_succ.
    replace (Z.succ (Z.pos (digits2_pos p)) - 1) with (Z.pos (digits2_pos p) - 1 + 1) by lia.
    rewrite (Z.pow_succ_r 2 (Z.pos (digits2_pos p))) by lia.
    rewrite Z.pow_add_r by lia. lia.
  - cbn. lia.
Qed.

(** A shift record [(m, r, s)] stands for the fraction [N / D]:
    [m] is its integer part, [r] tells whether the rest reaches one half and
    [s] whether anything is left beyond that. *)
Definition stands_for (mrs : shr_record) (N D : Z) : Prop :=
  0 <= shr_m mrs /\ 0 < D /\
  let R := N - shr_m mrs * D in
  0 <= R < D
  /\ shr_r mrs = (D <=? 2 * R)
  /\ shr_s mrs = (if shr_r mrs then D <? 2 * R else 0 <? R).

Ltac bool_lia :=
  repeat match goal with
         | |- context [?a <=? ?b] => destruct (Z.leb_spec a b)
         | |- context [?a <? ?b] => destruct (Z.ltb_spec a b)
         end;
  try reflexivity; try lia.

Lemma shr_1_stands_for (mrs : shr_record) (N D : Z) :
  stands_for mrs N D ->
  stands_for (shr_1 mrs) N (2 * D) /\ shr_m (shr_1 mrs) = shr_m mrs / 2.
Proof.
  destruct mrs as [m r s]. unfold stands_for; cbn [shr_m shr_r shr_s].
  intros (Hm & HD & HR & Hr & Hs).
  assert (Hrs : orb r s = (0 <? N - m * D)).
  { subst r s. bool_lia. }
  destruct m as [|[p|p|]|p]; try lia; cbn [shr_1 shr_m shr_r shr_s];
    rewrite Hrs.
  - change (0 / 2) with 0. repeat split; try lia; bool_lia.
  - assert (E : Z.pos p~1 / 2 = Z.pos p).
    { rewrite Pos2Z.inj_xI. symmetry. apply (Z.div_unique _ 2 _ 1); lia. }
    rewrite E. rewrite Pos2Z.inj_xI in *.
    repeat split; try lia; bool_lia.
  - assert (E : Z.pos p~0 / 2 = Z.pos p).
    { rewrite Pos2Z.inj_xO. symmetry. apply (Z.div_unique _ 2 _ 0); lia. }
    rewrite E. rewrite Pos2Z.inj_xO in *.
    repeat split; try lia; bool_lia.
  - change (1 / 2) with 0. repeat split; try lia; bool_lia.
Qed.

Lemma iter_pos_shr_1_stands_for (p : positive) :
  forall (mrs : shr_record) (N D : Z),
    stands_for mrs N D ->
    stands_for (iter_pos shr_1 p mrs) N (2 ^ Z.pos p * D)
    /\ shr_m (iter_pos shr_1 p mrs) = shr_m mrs / 2 ^ Z.pos p.
Proof.
  assert (Hpow : forall q, 0 < 2 ^ Z.pos q)
    by (intros q; apply Z.pow_pos_nonneg; lia).
  induction p as [p IH|p IH|]; intros mrs N D H; cbn [iter_pos].
  - destruct (shr_1_stands_for H) as [H1 E1].
    destruct (IH _ _ _ H1) as [H2 E2].
    destruct (IH _ _ _ H2) as [H3 E3].
    rewrite (Pos2Z.inj_xI p), Z.pow_add_r, Z.pow_mul_r, Z.pow_1_r by lia.
    replace (2 ^ 2) with (2 * 2) by reflexivity.
    rewrite Z.pow_mul_l.
    replace (2 ^ Z.pos p * 2 ^ Z.pos p * 2 * D)
      with (2 ^ Z.pos p * (2 ^ Z.pos p * (2 * D))) by ring.
    split; [exact H3|].
    rewrite E3, E2, E1.
    pose proof (Hpow p). rewrite !Z.div_div by lia.
    f_equal. ring.
  - destruct (IH _ _ _ H) as [H2 E2].
    destruct (IH _ _ _ H2) as [H3 E3].
    rewrite (Pos2Z.inj_xO p), Z.pow_mul_r by lia.
    replace (2 ^ 2) with (2 * 2) by reflexivity.
    rewrite Z.pow_mul_l.
    replace (2 ^ Z.pos p * 2 ^ Z.pos p * D)
      with (2 ^ Z.pos p * (2 ^ Z.pos p * D)) by ring.
    split; [exact H3|].
    rewrite E3, E2. pose proof (Hpow p). rewrite Z.div_div by lia.
    reflexivity.
  - change (2 ^ 1) with 2. apply shr_1_stands_for, H.
Qed.

(** Rounding to nearest, ties to even, on a shift record. *)
Lemma round_nearest_even_stands_for (mrs : shr_record) (N D : Z) :
  stands_for mrs N D ->
  let k := round_nearest_even (shr_m mrs) (loc_of_shr_record mrs) in
  2 * Z.abs (k * D - N) <= D
  /\ (k = shr_m mrs \/ k = shr_m mrs + 1)
  /\ (N = shr_m mrs * D -> k = shr_m mrs).
Proof.
  destruct mrs as [m r s]. unfold stands_for; cbn [shr_m shr_r shr_s].
  intros (Hm & HD & HR & Hr & Hs).
  revert Hr Hs.
  destruct (Z.leb_spec D (2 * (N - m * D))) as [L|L]; intros -> Hs;
    revert Hs;
    [destruct (Z.ltb_spec D (2 * (N - m * D)))
    |destruct (Z.ltb_spec 0 (N - m * D))];
    intros ->; cbn [loc_of_shr_record round_nearest_even];
    try destruct (Z.even m); repeat split; lia.
Qed.

Definition fexp64 (e : Z) : Z := fexp B64.prec B64.emax e.

Lemma fexp64_eq (e : Z) : fexp64 e = Z.max (e - 53) (-1074).
Proof. reflexivity. Qed.

Lemma pow2_pos (n : Z) : 0 <= n -> 0 < 2 ^ n.
Proof. intros H. apply Z.pow_pos_nonneg; lia. Qed.

Lemma Zdigits2_bounds (z : Z) :
  0 < z -> 0 < Zdigits2 z /\ 2 ^ (Zdigits2 z - 1) <= z < 2 ^ Zdigits2 z.
Proof.
  destruct z as [|p|p]; try lia. intros _. cbn [Zdigits2].
  split; [lia | apply digits2_pos_spec].
Qed.

Lemma Zdigits2_unique (z k : Z) :
  2 ^ (k - 1) <= z < 2 ^ k -> 0 < k -> Zdigits2 z = k.
Proof.
  intros H Hk.
  assert (Hz : 0 < z) by (pose proof (@pow2_pos (k - 1)); lia).
  destruct (Zdigits2_bounds Hz) as [Hd Hb].
  destruct (Z.lt_trichotomy (Zdigits2 z) k) as [L|[E|G]]; [|exact E|].
  - exfalso.
    assert (2 ^ Zdigits2 z <= 2 ^ (k - 1))
      by (apply Z.pow_le_mono_r; lia). lia.
  - exfalso.
    assert (2 ^ k <= 2 ^ (Zdigits2 z - 1))
      by (apply Z.pow_le_mono_r; lia). lia.
Qed.

Lemma Zdigits2_shift (z n : Z) :
  0 < z -> 0 <= n < Zdigits2 z -> Zdigits2 (z / 2 ^ n) = Zdigits2 z - n.
Proof.
  intros Hz Hn. destruct (Zdigits2_bounds Hz) as [Hd [Hlo Hhi]].
  pose proof (@pow2_pos n ltac:(lia)) as Hp.
  apply Zdigits2_unique; [|lia]. split.
  - apply Z.div_le_lower_bound; [lia|].
    rewrite <- Z.pow_add_r by lia.
    replace (n + (Zdigits2 z - n - 1)) with (Zdigits2 z - 1) by lia. exact Hlo.
  - apply Z.div_lt_upper_bound; [lia|].
    rewrite <- Z.pow_add_r by lia.
    replace (n + (Zdigits2 z - n)) with (Zdigits2 z) by lia. exact Hhi.
Qed.

Lemma Zdigits2_shift_zero (z n : Z) :
  0 <= z -> Zdigits2 z <= n -> z / 2 ^ n = 0.
Proof.
  intros Hz Hn. destruct (Z.eq_dec z 0) as [->|Hnz].
  - apply Z.div_0_l. pose proof (@pow2_pos n). cbn in Hn. lia.
  - destruct (@Zdigits2_bounds z ltac:(lia)) as [Hd [Hlo Hhi]].
    apply Z.div_small. split; [lia|].
    assert (2 ^ Zdigits2 z <= 2 ^ n) by (apply Z.pow_le_mono_r; lia). lia.
Qed.

Lemma Zdigits2_nonneg (z : Z) : 0 <= Zdigits2 z.
Proof. destruct z; cbn; lia. Qed.

Lemma shr_record_of_loc_m (m : Z) (l : location) :
  shr_m (shr_record_of_loc m l) = m.
Proof. destruct l as [|[| |]]; reflexivity. Qed.

(** The first step of the rounding: the mantissa is cut down to the
    precision that its magnitude allows. *)
Lemma shr_fexp_stands_for (m e : Z) (l : location) (N D : Z) :
  stands_for (shr_record_of_loc m l) N D ->
  let n := fexp64 (Zdigits2 m + e) - e in
  (n <= 0 -> shr_fexp B64.prec B64.emax m e l = (shr_record_of_loc m l, e))
  /\ (0 < n ->
      exists mrs, shr_fexp B64.prec B64.emax m e l = (mrs, e + n)
                  /\ stands_for mrs N (2 ^ n * D)
                  /\ shr_m mrs = m / 2 ^ n).
Proof.
  intros H n. unfold shr_fexp, shr. fold (fexp64 (Zdigits2 m + e)). fold n.
  destruct n as [|p|p] eqn:En; split; intros Hn; try lia; try reflexivity.
  destruct (iter_pos_shr_1_stands_for p H) as [H1 E1].
  rewrite shr_record_of_loc_m in E1.
  eexists. split; [reflexivity | split; assumption].
Qed.

Lemma stands_for_exact (k : Z) : 0 <= k -> stands_for (shr_record_of_loc k loc_Exact) k 1.
Proof.
  intros H. unfold stands_for. cbn [shr_record_of_loc shr_m shr_r shr_s].
  repeat split; try lia; bool_lia.
Qed.

Lemma shr_fexp_nonneg (m e : Z) (l : location) (N D : Z) :
  stands_for (shr_record_of_loc m l) N D ->
  let n := fexp64 (Zdigits2 m + e) - e in
  0 <= n ->
  exists mrs, shr_fexp B64.prec B64.emax m e l = (mrs, e + n)
              /\ stands_for mrs N (2 ^ n * D)
              /\ shr_m mrs = m / 2 ^ n.
Proof.
  intros H n Hn. destruct (@shr_fexp_stands_for m e l N D H) as [HA HB].
  fold n in HA, HB.
  destruct (Z.eq_dec n 0) as [E|E].
  - exists (shr_record_of_loc m l). rewrite HA by lia. rewrite E.
    rewrite Z.add_0_r, Z.pow_0_r, Z.mul_1_l, Z.div_1_r, shr_record_of_loc_m.
    auto.
  - apply HB. lia.
Qed.

Lemma two_pow_53 : 2 ^ 53 = 9007199254740992.
Proof. reflexivity. Qed.

(** The second step: after rounding, the mantissa is one bit too long only
    when it is a power of two, and halving it then loses nothing. *)
Lemma shr_fexp_after_rounding (k1 e' : Z) :
  0 <= k1 ->
  let n2 := fexp64 (Zdigits2 k1 + e') - e' in
  (n2 <= 0 /\ k1 < 2 ^ 53)
  \/ (n2 = 1 /\ Z.even k1 = true /\ k1 <= 2 ^ 53) ->
  exists mrs k ef,
    shr_fexp B64.prec B64.emax k1 e' loc_Exact = (mrs, ef)
    /\ shr_m mrs = k /\ 0 <= k < 2 ^ 53 /\ e' <= ef <= e' + 1
    /\ k * 2 ^ (ef - e') = k1.
Proof.
  intros Hk n2 [[Hn Hb]|(Hn & Hev & Hb)].
  - destruct (@shr_fexp_stands_for k1 e' loc_Exact k1 1
                (@stands_for_exact k1 Hk)) as [HA _].
    fold n2 in HA. rewrite (HA Hn).
    exists (shr_record_of_loc k1 loc_Exact), k1, e'.
    rewrite Z.sub_diag, Z.pow_0_r. cbn [shr_record_of_loc shr_m].
    repeat split; lia.
  - destruct (@shr_fexp_stands_for k1 e' loc_Exact k1 1
                (@stands_for_exact k1 Hk)) as [_ HB].
    fold n2 in HB. destruct (HB ltac:(lia)) as (mrs & E & Hs & Hm).
    rewrite Hn in *. exists mrs, (k1 / 2), (e' + 1).
    change (2 ^ 1) with 2 in Hm.
    replace (e' + 1 - e') with 1 by lia. change (2 ^ 1) with 2.
    apply Z.even_spec in Hev. destruct Hev as [h ->].
    rewrite Z.mul_comm, Z.div_mul in * by lia.
    rewrite two_pow_53 in *.
    repeat split; try assumption; lia.
Qed.

Lemma even_pow2 (d : Z) : 0 < d -> Z.even (2 ^ d) = true.
Proof.
  intros H. replace d with (1 + (d - 1)) by lia.
  rewrite Z.pow_add_r by lia. rewrite Z.even_mul. reflexivity.
Qed.

(** After the first step and the rounding, the second step has nothing to
    do, or one exact halving. *)
Lemma second_shift_is_exact (m e k1 : Z) :
  0 <= m ->
  let n := fexp64 (Zdigits2 m + e) - e in
  0 <= n ->
  k1 = m / 2 ^ n \/ k1 = m / 2 ^ n + 1 ->
  let n2 := fexp64 (Zdigits2 k1 + (e + n)) - (e + n) in
  (n2 <= 0 /\ k1 < 2 ^ 53)
  \/ (n2 = 1 /\ Z.even k1 = true /\ k1 <= 2 ^ 53).
Proof.
  intros Hm n Hn Hk1 n2.
  pose proof (@pow2_pos n Hn) as Hp.
  assert (Hm1 : 0 <= m / 2 ^ n) by (apply Z.div_pos; lia).
  assert (He' : e + n = fexp64 (Zdigits2 m + e)) by (unfold n; lia).
  destruct (Z.eq_dec (m / 2 ^ n) 0) as [Hz|Hnz].
  - left. unfold n2. rewrite He', !fexp64_eq, two_pow_53.
    destruct Hk1 as [-> | ->]; rewrite Hz;
      [change (Zdigits2 0) with 0 | change (Zdigits2 (0 + 1)) with 1]; lia.
  - assert (Hmpos : 0 < m).
    { destruct (Z.eq_dec m 0) as [->|]; [|lia].
      rewrite Z.div_0_l in Hnz by lia. lia. }
    assert (Hnd : n < Zdigits2 m).
    { destruct (Z_lt_le_dec n (Zdigits2 m)) as [L|G]; [exact L|].
      exfalso. apply Hnz. apply Zdigits2_shift_zero; lia. }
    pose proof (@Zdigits2_shift m n Hmpos ltac:(lia)) as Hd1.
    destruct (@Zdigits2_bounds (m / 2 ^ n) ltac:(lia)) as [Hd1pos [Hlo Hhi]].
    rewrite Hd1 in Hlo, Hhi, Hd1pos.
    assert (Hd53 : Zdigits2 m - n <= 53)
      by (rewrite fexp64_eq in He'; lia).
    assert (Hp53 : 2 ^ (Zdigits2 m - n) <= 2 ^ 53)
      by (apply Z.pow_le_mono_r; lia).
    destruct Hk1 as [-> | ->].
    + left. unfold n2. rewrite Hd1.
      replace (Zdigits2 m - n + (e + n)) with (Zdigits2 m + e) by lia. lia.
    + destruct (Z_lt_le_dec (m / 2 ^ n + 1) (2 ^ (Zdigits2 m - n))) as [L|G].
      * left. unfold n2.
        rewrite (@Zdigits2_unique (m / 2 ^ n + 1) (Zdigits2 m - n)) by lia.
        replace (Zdigits2 m - n + (e + n)) with (Zdigits2 m + e) by lia. lia.
      * assert (E : m / 2 ^ n + 1 = 2 ^ (Zdigits2 m - n)) by lia.
        assert (Hdig : Zdigits2 (m / 2 ^ n + 1) = Zdigits2 m - n + 1).
        { apply Zdigits2_unique; [|lia]. rewrite E.
          replace (Zdigits2 m - n + 1 - 1) with (Zdigits2 m - n) by lia.
          split; [lia|]. apply Z.pow_lt_mono_r; lia. }
        unfold n2. rewrite Hdig.
        replace (Zdigits2 m - n + 1 + (e + n)) with (Zdigits2 m + e + 1) by lia.
        rewrite He', !fexp64_eq.
        destruct (Z_lt_le_dec (Zdigits2 m + e - 53) (-1074)) as [L'|G'].
        -- left. split; [lia|]. rewrite E.
           apply Z.pow_lt_mono_r; try lia.
           rewrite fexp64_eq in He'. lia.
        -- right. split; [lia|]. split; [|lia].
           rewrite E. apply even_pow2. lia.
Qed.

(** What the rounding returns for a mantissa [k] and an exponent [ef]. *)
Definition rounded (s : bool) (k ef : Z) : spec_float :=
  match k with
  | Z0 => S754_zero s
  | Zpos p => if ef <=? B64.emax - B64.prec then S754_finite s p ef
              else S754_infinity s
  | Zneg _ => S754_nan
  end.

(** The rounding of [N / D * 2^e], given as a mantissa with its location:
    the result is [k * 2^ef] for a mantissa [k] below [2^53], within half
    a unit in the last place of the value, or an infinity if [ef] is out of
    range. *)
Lemma binary_round_aux_correct (s : bool) (m e : Z) (l : location) (N D : Z) :
  stands_for (shr_record_of_loc m l) N D ->
  let n := fexp64 (Zdigits2 m + e) - e in
  (n < 0 -> N = m * D) ->
  exists k ef,
    binary_round_aux B64.prec B64.emax s m e l = rounded s k ef
    /\ 0 <= k < 2 ^ 53
    /\ e + Z.max 0 n <= ef <= e + Z.max 0 n + 1
    /\ 2 * Z.abs (k * 2 ^ (ef - e) * D - N) <= 2 ^ (Z.max 0 n) * D
    /\ (n < 0 -> k * 2 ^ (ef - e) * D = N).
Proof.
  intros H n Hex.
  assert (Hm : 0 <= m).
  { destruct H as [H _]. rewrite shr_record_of_loc_m in H. exact H. }
  assert (HD : 0 < D) by (destruct H as (_ & H & _); exact H).
  unfold binary_round_aux.
  destruct (Z_lt_le_dec n 0) as [Hneg|Hpos].
  - destruct (@shr_fexp_stands_for m e l N D H) as [HA _].
    fold n in HA. rewrite (HA ltac:(lia)). cbv beta iota.
    destruct (@round_nearest_even_stands_for _ N D H) as (_ & _ & Hk1).
    rewrite shr_record_of_loc_m in Hk1 |- *. rewrite (Hk1 (Hex Hneg)).
    destruct (@shr_fexp_stands_for m e loc_Exact m 1 (@stands_for_exact m Hm))
      as [HA2 _].
    fold n in HA2. rewrite (HA2 ltac:(lia)). cbv beta iota.
    cbn [shr_record_of_loc shr_m].
    exists m, e. rewrite Z.sub_diag, Z.pow_0_r, (Hex Hneg).
    replace (Z.max 0 n) with 0 by lia.
    assert (Hm53 : m < 2 ^ 53).
    { destruct (Z.eq_dec m 0) as [->|Hnz]; [reflexivity|].
      destruct (@Zdigits2_bounds m ltac:(lia)) as [Hd [_ Hhi]].
      unfold n in Hneg. rewrite fexp64_eq in Hneg.
      assert (2 ^ Zdigits2 m <= 2 ^ 53) by (apply Z.pow_le_mono_r; lia).
      lia. }
    repeat split; try lia.
  - destruct (@shr_fexp_nonneg m e l N D H Hpos) as (mrs & E & Hs & Hm1).
    fold n in E, Hs, Hm1. rewrite E. cbv beta iota.
    destruct (@round_nearest_even_stands_for mrs N _ Hs) as (Herr & Hk1 & _).
    set (k1 := round_nearest_even (shr_m mrs) (loc_of_shr_record mrs)) in *.
    rewrite Hm1 in Hk1.
    pose proof (@second_shift_is_exact m e k1 Hm Hpos Hk1) as H2.
    assert (Hk1pos : 0 <= k1).
    { pose proof (@pow2_pos n Hpos).
      assert (0 <= m / 2 ^ n) by (apply Z.div_pos; lia). lia. }
    destruct (@shr_fexp_after_rounding k1 (e + n) Hk1pos H2)
      as (mrs2 & k & ef & E2 & Hk & Hk0 & Hef & Hval).
    rewrite E2. cbv beta iota. rewrite Hk.
    exists k, ef. replace (Z.max 0 n) with n by lia.
    split; [reflexivity|]. split; [lia|]. split; [lia|]. split; [|lia].
    replace (ef - e) with (ef - (e + n) + n) by lia.
    rewrite Z.pow_add_r by lia.
    replace (k * (2 ^ (ef - (e + n)) * 2 ^ n) * D)
      with (k * 2 ^ (ef - (e + n)) * (2 ^ n * D)) by ring.
    rewrite Hval. exact Herr.
Qed.

(** A result that is not an infinity is a zero or a float of the binary64
    format. *)
Lemma rounded_finite (s : bool) (k ef : Z) :
  0 <= k < 2 ^ 53 ->
  rounded s k ef = S754_infinity s
  \/ (k = 0 /\ rounded s k ef = S754_zero s)
  \/ (exists p, k = Z.pos p /\ ef <= 971
                /\ rounded s k ef = S754_finite s p ef).
Proof.
  intros Hk. unfold rounded. destruct k as [|p|p]; try lia.
  - right; left. auto.
  - destruct (Z.leb_spec ef (B64.emax - B64.prec)) as [L|G].
    + right; right. exists p. repeat split. exact L.
    + left. reflexivity.
Qed.

(** No overflow below [2^1023]. *)
Lemma rounded_no_overflow (s : bool) (m e k ef : Z) :
  let n := fexp64 (Zdigits2 m + e) - e in
  0 <= n -> ef <= e + n + 1 -> Zdigits2 m + e < 1024 ->
  rounded s k ef <> S754_infinity s.
Proof.
  intros n Hn Hef Hd. unfold rounded. unfold n in *.
  rewrite fexp64_eq in *.
  destruct k as [|p|p]; try discriminate.
  destruct (Z.leb_spec ef (B64.emax - B64.prec)) as [L|G]; [discriminate|].
  exfalso. unfold B64.emax, B64.prec in G. lia.
Qed.

(** The unit in the last place is the smallest one, or at most [2^-52]
    times the value. *)
Lemma unit_in_the_last_place (m e : Z) (l : location) (N D : Z) :
  stands_for (shr_record_of_loc m l) N D ->
  let n := fexp64 (Zdigits2 m + e) - e in
  0 <= n -> e + n = -1074 \/ 2 ^ (52 + n) * D <= N.
Proof.
  intros H n Hn. destruct H as (Hm & HD & HR & _).
  rewrite shr_record_of_loc_m in *. cbv zeta in HR.
  unfold n in *. rewrite fexp64_eq in *.
  destruct (Z_lt_le_dec (Zdigits2 m + e - 53) (-1074)) as [L|G].
  - left. lia.
  - right.
    destruct (Z.eq_dec m 0) as [->|Hnz].
    + change (Zdigits2 0) with 0 in *. lia.
    + destruct (@Zdigits2_bounds m ltac:(lia)) as [Hd [Hlo _]].
      replace (52 + (Z.max (Zdigits2 m + e - 53) (-1074) - e))
        with (Zdigits2 m - 1) by lia.
      nia.
Qed.

Local Close Scope Z_scope.
Local Open Scope Q_scope.

(** ** The value of a float as a rational *)

Definition eps : Q := 1 # 9007199254740992.
Definition eta : Q := 2 ^ (-1075).

Lemma two_neq_0 : ~ 2 == 0.
Proof. discriminate. Qed.

Lemma two_pow_add (a b : Z) : 2 ^ (a + b) == 2 ^ a * 2 ^ b.
Proof. apply Qpower_plus, two_neq_0. Qed.

Lemma two_pow_pos (a : Z) : 0 < 2 ^ a.
Proof. apply Qpower_0_lt. reflexivity. Qed.

Lemma inject_Z_two_pow (n : Z) : (0 <= n)%Z -> inject_Z (2 ^ n) == 2 ^ n.
Proof. intros H. apply (Zpower_Qpower 2 n H). Qed.

(** The magnitude of a float: the absolute value of a finite one. *)
Definition mag (x : spec_float) : Q :=
  match x with
  | S754_finite _ m e => inject_Z (Z.pos m) * 2 ^ e
  | _ => 0
  end.

Definition signbit (x : spec_float) : bool :=
  match x with
  | S754_zero s | S754_infinity s | S754_finite s _ _ => s
  | S754_nan => false
  end.

Lemma value_mag (x : spec_float) :
  B64.value x == if signbit x then - mag x else mag x.
Proof.
  destruct x as [s|s| |s m e]; cbn [B64.value mag signbit];
    try reflexivity; try (destruct s; reflexivity).
  assert (E : match e with
              | Z.neg k => Z.pos m # 2 ^ k
              | _ => inject_Z (Z.pos m * 2 ^ e)
              end == inject_Z (Z.pos m) * 2 ^ e).
  { destruct e as [|k|k].
    - change (2 ^ 0)%Z with 1%Z. rewrite Z.mul_1_r.
      change (2 ^ 0) with 1. ring.
    - rewrite inject_Z_mult, inject_Z_two_pow by lia. reflexivity.
    - rewrite Qmake_Qdiv, Pos2Z.inj_pow, inject_Z_two_pow by lia.
      change (2 ^ Z.neg k) with (/ 2 ^ Z.pos k). reflexivity. }
  destruct s; rewrite E; reflexivity.
Qed.

Lemma mag_nonneg (x : spec_float) : 0 <= mag x.
Proof.
  destruct x as [s|s| |s m e]; cbn [mag]; try apply Qle_refl.
  apply Qmult_le_0_compat; [|apply Qlt_le_weak, two_pow_pos].
  change 0 with (inject_Z 0). rewrite <- Zle_Qle. lia.
Qed.

Lemma eps_eq : eps == 2 ^ (-53).
Proof. reflexivity. Qed.

Lemma eta_pos : 0 < eta.
Proof. apply two_pow_pos. Qed.

Lemma Qdiv_mult_cancel (a d : Q) : 0 < d -> a / d * d == a.
Proof. intros H. field. intros E. rewrite E in H. discriminate. Qed.

(** The rounding at the end of an operation: unless it overflows, the
    result is a zero or a finite float of the sign asked for, and its
    magnitude is the value up to a relative error of [2^-53], or of
    [2^-1075] in absolute terms. *)
Lemma binary_round_aux_error (s : bool) (m e : Z) (l : location) (N D : Z) :
  stands_for (shr_record_of_loc m l) N D ->
  ((fexp64 (Zdigits2 m + e) - e < 0)%Z -> N = (m * D)%Z) ->
  let v := inject_Z N / inject_Z D * 2 ^ e in
  let r := binary_round_aux B64.prec B64.emax s m e l in
  r = S754_infinity s
  \/ ((r = S754_zero s
       \/ exists p ef, r = S754_finite s p ef
                       /\ (Z.pos p < 2 ^ 53)%Z /\ (ef <= 971)%Z)
      /\ Qabs (mag r - v) <= eps * v + eta).
Proof.
  intros H Hex v r.
  destruct (@binary_round_aux_correct s m e l N D H Hex)
    as (k & ef & Er & Hk & Hef & Herr & Hexact).
  fold r in Er.
  destruct (@rounded_finite s k ef Hk) as [Hinf | Hr];
    [left; rewrite Er; exact Hinf|].
  rewrite <- Er in Hr. right.
  split.
  { destruct Hr as [[_ ->]|(p & Hp & Hef' & ->)];
      [left; reflexivity | right; exists p, ef].
    split; [reflexivity|]. split; [lia | exact Hef']. }
  assert (HD : (0 < D)%Z) by (destruct H as (_ & H & _); exact H).
  assert (HN : (0 <= N)%Z).
  { destruct H as (Hm & _ & HR & _). cbv zeta in HR. nia. }
  set (d := inject_Z D).
  assert (Hd : 0 < d)
    by (unfold d; change 0 with (inject_Z 0); rewrite <- Zlt_Qlt; exact HD).
  set (q := inject_Z N / d).
  assert (Hq : q * d == inject_Z N) by (apply Qdiv_mult_cancel, Hd).
  assert (Hq0 : 0 <= q).
  { apply Qle_shift_div_l; [exact Hd|]. rewrite Qmult_0_l.
    change 0 with (inject_Z 0). rewrite <- Zle_Qle. exact HN. }
  set (P := 2 ^ e).
  assert (HP : 0 < P) by apply two_pow_pos.
  assert (Hv : 0 <= v)
    by (apply Qmult_le_0_compat; [exact Hq0 | apply Qlt_le_weak, HP]).
  set (K := (k * 2 ^ (ef - e))%Z) in *.
  assert (Hmag : mag r == inject_Z K * P).
  { assert (E : mag r == inject_Z k * 2 ^ ef).
    { destruct Hr as [[-> ->]|(p & -> & _ & ->)]; cbn [mag];
        [ring | reflexivity]. }
    rewrite E. unfold K, P. rewrite inject_Z_mult.
    rewrite inject_Z_two_pow by lia.
    replace ef with (ef - e + e)%Z at 1 by lia.
    rewrite two_pow_add. ring. }
  assert (Hdiff : mag r - v == (inject_Z K - q) * P)
    by (rewrite Hmag; unfold v; fold d; fold q; fold P; ring).
  rewrite Hdiff, Qabs_Qmult, (Qabs_pos P) by (apply Qlt_le_weak, HP).
  set (n := (fexp64 (Zdigits2 m + e) - e)%Z) in *.
  destruct (Z_lt_le_dec n 0) as [Hneg|Hpos].
  - (* nothing was cut: the result is exact *)
    assert (E : inject_Z K == q).
    { apply (Qmult_inj_r _ _ d); [intros E; rewrite E in Hd; discriminate|].
      rewrite Hq. unfold d. rewrite <- inject_Z_mult.
      rewrite (Hexact Hneg). reflexivity. }
    rewrite E. setoid_replace (q - q) with 0 by ring.
    rewrite Qmult_0_l.
    pose proof eta_pos.
    assert (0 <= eps * v)
      by (apply Qmult_le_0_compat; [discriminate | exact Hv]).
    lra.
  - replace (Z.max 0 n) with n in * by lia.
    set (U := 2 ^ n).
    assert (HU : inject_Z (2 ^ n) == U) by (apply inject_Z_two_pow, Hpos).
    assert (Hhalf : Qabs (inject_Z K - q) <= U / 2).
    { apply Qabs_Qle_condition.
      assert (H1 : (2 * (K * D) <= 2 ^ n * D + 2 * N)%Z) by lia.
      assert (H2 : (2 * N <= 2 ^ n * D + 2 * (K * D))%Z) by lia.
      rewrite Zle_Qle in H1, H2.
      rewrite !inject_Z_plus, !inject_Z_mult in H1, H2.
      rewrite HU in H1, H2. fold d in H1, H2. rewrite <- Hq in H1, H2.
      change (inject_Z 2) with 2 in H1, H2.
      split.
      + apply (Qmult_le_r _ _ d Hd).
        apply Qmult_le_r with 2; [reflexivity|].
        setoid_replace (- (U / 2) * d * 2) with (- (U * d)) by field.
        setoid_replace ((inject_Z K - q) * d * 2)
          with (2 * (inject_Z K * d) - 2 * (q * d)) by ring.
        lra.
      + apply (Qmult_le_r _ _ d Hd).
        apply Qmult_le_r with 2; [reflexivity|].
        setoid_replace (U / 2 * d * 2) with (U * d) by field.
        setoid_replace ((inject_Z K - q) * d * 2)
          with (2 * (inject_Z K * d) - 2 * (q * d)) by ring.
        lra. }
    apply Qle_trans with (U / 2 * P);
      [apply Qmult_le_compat_r; [exact Hhalf | apply Qlt_le_weak, HP]|].
    destruct (@unit_in_the_last_place m e l N D H Hpos) as [Hsub|Hnorm];
      fold n in Hsub || fold n in Hnorm.
    + (* the smallest unit *)
      assert (E : U / 2 * P == eta).
      { unfold U, P, eta. replace (-1075)%Z with (n + e + -1)%Z by lia.
        rewrite !two_pow_add. change (2 ^ (-1)) with (/ 2). field. }
      rewrite E.
      assert (0 <= eps * v)
        by (apply Qmult_le_0_compat; [discriminate | exact Hv]).
      lra.
    + (* a full mantissa *)
      assert (Hq52 : 2 ^ 52 * U <= q).
      { rewrite Zle_Qle in Hnorm.
        rewrite inject_Z_mult, inject_Z_two_pow in Hnorm by lia.
        rewrite two_pow_add in Hnorm. fold U in Hnorm. fold d in Hnorm.
        rewrite <- Hq in Hnorm.
        apply (Qmult_le_r _ _ d Hd). exact Hnorm. }
      apply Qle_trans with (eps * v); [|pose proof eta_pos; lra].
      unfold v. fold d. fold q. fold P.
      setoid_replace (eps * (q * P)) with (eps * q * P) by ring.
      apply Qmult_le_compat_r; [|apply Qlt_le_weak, HP].
      rewrite eps_eq.
      setoid_replace (U / 2) with (2 ^ (-53) * (2 ^ 52 * U)).
      * apply Qmult_le_l; [apply two_pow_pos | exact Hq52].
      * change (2 ^ (-53)) with (1 # 9007199254740992).
        change (2 ^ 52) with (4503599627370496 # 1). field.
Qed.

(** ** The operations *)

(** The binary order of magnitude of a finite float: it is below
    [2 ^ log2_up]. *)
Definition log2_up (x : spec_float) : Z :=
  match x with
  | S754_finite _ m e => (Zdigits2 (Z.pos m) + e)%Z
  | _ => (-1074)%Z
  end.

Lemma log2_up_bounded (s : bool) (p : positive) (ef : Z) :
  (Z.pos p < 2 ^ 53)%Z -> (ef <= 971)%Z ->
  (log2_up (S754_finite s p ef) <= 1024)%Z.
Proof.
  intros Hp He. cbn [log2_up].
  destruct (@Zdigits2_bounds (Z.pos p) ltac:(lia)) as [Hd [Hlo _]].
  assert (Zdigits2 (Z.pos p) <= 53)%Z; [|lia].
  destruct (Z_le_gt_dec (Zdigits2 (Z.pos p)) 53) as [L|G]; [exact L|].
  exfalso.
  assert (2 ^ 53 <= 2 ^ (Zdigits2 (Z.pos p) - 1))%Z
    by (apply Z.pow_le_mono_r; lia).
  lia.
Qed.

(** What an operation returns when it does not overflow: a zero or a float
    of the format, of the sign [s]. *)
Definition finite_result (s : bool) (r : spec_float) : Prop :=
  B64.is_finite r = true /\ signbit r = s /\ (log2_up r <= 1024)%Z.

Lemma finite_result_of_rounding (s : bool) (r : spec_float) :
  r = S754_zero s
  \/ (exists p ef, r = S754_finite s p ef
                   /\ (Z.pos p < 2 ^ 53)%Z /\ (ef <= 971)%Z) ->
  finite_result s r.
Proof.
  intros [->|(p & ef & -> & Hp & He)]; repeat split.
  - cbn. lia.
  - apply log2_up_bounded; assumption.
Qed.

Lemma error_bound_nonneg (v : Q) : 0 <= v -> 0 <= eps * v + eta.
Proof.
  intros H. pose proof eta_pos.
  assert (0 <= eps * v) by (apply Qmult_le_0_compat; [discriminate | exact H]).
  lra.
Qed.

Lemma error_bound_zero (v : Q) : v == 0 -> Qabs (0 - v) <= eps * v + eta.
Proof.
  intros E. rewrite E. setoid_replace (0 - 0) with 0 by ring.
  apply error_bound_nonneg, Qle_refl.
Qed.

(** A product of two finite floats is an infinity of the sign of the
    product, or a finite float of that sign within the rounding error of
    the exact product. *)
Lemma SFmul_error (x y : spec_float) :
  B64.is_finite x = true -> B64.is_finite y = true ->
  let r := SFmul B64.prec B64.emax x y in
  r = S754_infinity (xorb (signbit x) (signbit y))
  \/ (finite_result (xorb (signbit x) (signbit y)) r
      /\ Qabs (mag r - mag x * mag y) <= eps * (mag x * mag y) + eta).
Proof.
  destruct x as [sx|sx| |sx mx ex], y as [sy|sy| |sy my ey];
    cbn [B64.is_finite]; intros Hx Hy; try discriminate;
    cbn [SFmul signbit mag];
    try (right; split;
         [apply finite_result_of_rounding; left; reflexivity
         |apply error_bound_zero; ring]).
  - pose proof (@binary_round_aux_error (xorb sx sy) (Z.pos (mx * my))
                  (ex + ey) loc_Exact (Z.pos (mx * my)) 1
                  (@stands_for_exact (Z.pos (mx * my)) ltac:(lia))
                  ltac:(intros _; lia)) as H.
    cbv zeta in H.
    assert (E : inject_Z (Z.pos (mx * my)) / inject_Z 1 * 2 ^ (ex + ey)
                == inject_Z (Z.pos mx) * 2 ^ ex
                   * (inject_Z (Z.pos my) * 2 ^ ey)).
    { rewrite Pos2Z.inj_mul, inject_Z_mult, two_pow_add.
      change (inject_Z 1) with 1. field. }
    rewrite E in H.
    destruct H as [H|[Hr Hb]]; [left; exact H|right].
    split; [apply finite_result_of_rounding, Hr | exact Hb].
Qed.

Local Close Scope Q_scope.
Local Open Scope Z_scope.

(** The location of a remainder [r] of a division by [D]. *)
Lemma new_location_stands_for (q r D : Z) :
  0 <= q -> 0 <= r < D ->
  stands_for (shr_record_of_loc q (new_location D r)) (q * D + r) D.
Proof.
  intros Hq Hr. unfold stands_for. rewrite shr_record_of_loc_m.
  split; [exact Hq|]. split; [lia|]. cbv zeta.
  replace (q * D + r - q * D) with r by ring.
  split; [exact Hr|].
  unfold new_location, new_location_even, new_location_odd.
  destruct (Z.even D) eqn:Ev.
  - destruct (Z.eqb_spec r 0) as [->|Hnz].
    + cbn [shr_record_of_loc shr_r shr_s]. split; bool_lia.
    + destruct (Z.compare_spec (2 * r) D) as [E|L|G];
        cbn [shr_record_of_loc shr_r shr_s]; split; bool_lia.
  - assert (Hodd : 2 * r <> D).
    { intros E. rewrite <- E in Ev. rewrite Z.even_mul in Ev. discriminate. }
    destruct (Z.eqb_spec r 0) as [->|Hnz].
    + cbn [shr_record_of_loc shr_r shr_s]. split; bool_lia.
    + destruct (Z.compare_spec (2 * r + 1) D) as [E|L|G];
        cbn [shr_record_of_loc shr_r shr_s]; split; bool_lia.
Qed.

(** The quotient that the division hands to the rounding. *)
Lemma SFdiv_core_binary_correct (m1 m2 : positive) (e1 e2 : Z) :
  exists q e' l s,
    SFdiv_core_binary B64.prec B64.emax (Z.pos m1) e1 (Z.pos m2) e2
    = (q, e', l)
    /\ 0 <= s /\ e' = e1 - e2 - s
    /\ stands_for (shr_record_of_loc q l) (Z.pos m1 * 2 ^ s) (Z.pos m2)
    /\ 0 <= fexp64 (Zdigits2 q + e') - e'
    /\ Zdigits2 q + e'
       <= Z.max (fexp64 (Zdigits2 (Z.pos m1) + e1 - (Zdigits2 (Z.pos m2) + e2)))
                (Zdigits2 (Z.pos m1) + e1 - (Zdigits2 (Z.pos m2) + e2) + 1).
Proof.
  unfold SFdiv_core_binary.
  set (d1 := Zdigits2 (Z.pos m1)). set (d2 := Zdigits2 (Z.pos m2)).
  fold (fexp64 (d1 + e1 - (d2 + e2))).
  set (e' := Z.min (fexp64 (d1 + e1 - (d2 + e2))) (e1 - e2)).
  set (s := e1 - e2 - e').
  assert (Hs : 0 <= s) by (unfold s, e'; lia).
  assert (Es : e' = e1 - e2 - s) by (unfold s; lia).
  assert (He' : e' <= fexp64 (d1 + e1 - (d2 + e2))) by (unfold e'; lia).
  clearbody s. clearbody e'.
  set (m' := match s with
             | 0 => Z.pos m1
             | Z.pos _ => Z.shiftl (Z.pos m1) s
             | Z.neg _ => 0
             end).
  assert (Hm' : m' = Z.pos m1 * 2 ^ s).
  { unfold m'. destruct s as [|p|p]; try lia.
    apply Z.shiftl_mul_pow2. lia. }
  pose proof (Z_div_mod m' (Z.pos m2) ltac:(lia)) as Hdiv.
  destruct (Z.div_eucl m' (Z.pos m2)) as [q r].
  destruct Hdiv as [Hdiv Hr].
  pose proof (@pow2_pos s Hs) as Hps.
  assert (Hq : 0 <= q) by nia.
  destruct (@Zdigits2_bounds (Z.pos m1) ltac:(lia)) as [Hd1 [Hlo1 Hhi1]].
  destruct (@Zdigits2_bounds (Z.pos m2) ltac:(lia)) as [Hd2 [Hlo2 Hhi2]].
  fold d1 in Hd1, Hlo1, Hhi1. fold d2 in Hd2, Hlo2, Hhi2.
  exists q, e', (new_location (Z.pos m2) r), s.
  split; [reflexivity|]. split; [exact Hs|]. split; [exact Es|].
  split; [|split].
  - rewrite <- Hm', Hdiv, Z.mul_comm. apply new_location_stands_for; lia.
  - (* the quotient has digits enough *)
    assert (Hdq : d1 + s - d2 <= Zdigits2 q).
    { pose proof (Zdigits2_nonneg q).
      destruct (Z_le_gt_dec (d1 + s - d2) 0) as [L|G]; [lia|].
      assert (Hq1 : 2 ^ (d1 + s - d2 - 1) <= q).
      { assert (E : 2 ^ (d1 + s - d2 - 1) * 2 ^ d2 = 2 ^ (d1 - 1) * 2 ^ s).
        { rewrite <- !Z.pow_add_r by lia. f_equal. lia. }
        assert (2 ^ (d1 + s - d2 - 1) < q + 1) by nia. lia. }
      assert (Hqpos : 0 < q)
        by (pose proof (@pow2_pos (d1 + s - d2 - 1) ltac:(lia)); lia).
      destruct (@Zdigits2_bounds q Hqpos) as [Hdq [_ Hhiq]].
      destruct (Z_le_gt_dec (d1 + s - d2) (Zdigits2 q)) as [L'|G'];
        [exact L'|].
      exfalso.
      assert (2 ^ Zdigits2 q <= 2 ^ (d1 + s - d2 - 1))
        by (apply Z.pow_le_mono_r; lia).
      lia. }
    rewrite !fexp64_eq in *. lia.
  - (* and not too many *)
    assert (Hdq : Zdigits2 q <= Z.max 0 (d1 + s - d2 + 1)).
    { destruct (Z.eq_dec q 0) as [->|Hnz]; [cbn; lia|].
      destruct (@Zdigits2_bounds q ltac:(lia)) as [Hdq [Hloq _]].
      destruct (Z_le_gt_dec (Zdigits2 q) (d1 + s - d2 + 1)) as [L|G]; [lia|].
      exfalso.
      assert (Hq2 : q * 2 ^ (d2 - 1) < 2 ^ (d1 + s)).
      { rewrite Z.pow_add_r by lia. nia. }
      assert (Hle : 2 ^ (d1 + s) <= 2 ^ (Zdigits2 q - 1) * 2 ^ (d2 - 1)).
      { rewrite <- Z.pow_add_r by lia. apply Z.pow_le_mono_r; lia. }
      pose proof (@pow2_pos (d2 - 1) ltac:(lia)). nia. }
    rewrite !fexp64_eq in *. lia.
Qed.

Local Close Scope Z_scope.
Local Open Scope Q_scope.

Lemma mag_finite_pos (s : bool) (m : positive) (e : Z) :
  0 < mag (S754_finite s m e).
Proof.
  cbn [mag]. apply Qmult_lt_0_compat; [|apply two_pow_pos].
  change 0 with (inject_Z 0). rewrite <- Zlt_Qlt. lia.
Qed.

(** A quotient of a finite float by a finite float that is not a zero is
    an infinity only if the orders of magnitude are 1023 apart; otherwise it
    is a finite float of the sign of the quotient, within the rounding error
    of the exact quotient. *)
Lemma SFdiv_error (x : spec_float) (sy : bool) (my : positive) (ey : Z) :
  B64.is_finite x = true ->
  let y := S754_finite sy my ey in
  let r := SFdiv B64.prec B64.emax x y in
  let s := xorb (signbit x) sy in
  (r = S754_infinity s /\ (1023 <= log2_up x - log2_up y)%Z)
  \/ (finite_result s r
      /\ Qabs (mag r - mag x / mag y) <= eps * (mag x / mag y) + eta).
Proof.
  destruct x as [sx|sx| |sx mx ex]; cbn [B64.is_finite]; intros Hx;
    try discriminate; cbv zeta; cbn [signbit].
  - right. split; [apply finite_result_of_rounding; left; reflexivity|].
    apply error_bound_zero. cbn [mag]. unfold Qdiv. ring.
  - cbn [SFdiv].
    destruct (SFdiv_core_binary_correct mx my ex ey)
      as (q & e' & l & sh & E & Hsh & He' & Hst & Hn & Hdig).
    rewrite E. cbv beta iota.
    assert (Ev : inject_Z (Z.pos mx * 2 ^ sh) / inject_Z (Z.pos my) * 2 ^ e'
                 == mag (S754_finite sx mx ex) / mag (S754_finite sy my ey)).
    { cbn [mag]. rewrite inject_Z_mult, inject_Z_two_pow by exact Hsh.
      rewrite He'.
      replace (ex - ey - sh)%Z with (ex + - ey + - sh)%Z by lia.
      rewrite !two_pow_add, !Qpower_opp.
      pose proof (two_pow_pos ey). pose proof (two_pow_pos sh).
      assert (0 < inject_Z (Z.pos my))
        by (change 0 with (inject_Z 0); rewrite <- Zlt_Qlt; lia).
      field. repeat split; intros E0;
        match goal with
        | H : 0 < ?t |- _ => rewrite E0 in H; discriminate H
        end. }
    pose proof (@binary_round_aux_error (xorb sx sy) q e' l
                  (Z.pos mx * 2 ^ sh) (Z.pos my) Hst ltac:(lia)) as H.
    cbv zeta in H. rewrite Ev in H.
    destruct H as [H|[Hr Hb]].
    + left. split; [exact H|].
      destruct (@binary_round_aux_correct (xorb sx sy) q e' l
                  (Z.pos mx * 2 ^ sh) (Z.pos my) Hst ltac:(lia))
        as (k & ef & Er & Hk & Hef & _).
      rewrite Er in H.
      destruct (Z_lt_le_dec (Zdigits2 q + e') 1024) as [L|G].
      * exfalso. revert H.
        apply (@rounded_no_overflow (xorb sx sy) q e' k ef Hn); [lia|exact L].
      * cbn [log2_up]. rewrite fexp64_eq in Hdig. lia.
    + right. split; [apply finite_result_of_rounding, Hr | exact Hb].
Qed.

Lemma rne_div_nonneg (n d : Z) : (0 <= n -> 0 < d -> 0 <= rne_div n d)%Z.
Proof.
  intros Hn Hd. unfold rne_div.
  assert (0 <= n / d)%Z by (apply Z.div_pos; lia).
  destruct (2 * (n mod d) ?= d)%Z; [destruct (Z.even (n / d))| |]; lia.
Qed.

(** The number of tenths is ten times the magnitude, up to one half. *)
Lemma tenths_error (s : bool) (m : positive) (e : Z) :
  (0 <= B64.tenths m e)%Z
  /\ Qabs (inject_Z (B64.tenths m e) - 10 * mag (S754_finite s m e))
     <= 1 # 2.
Proof.
  unfold B64.tenths. cbn [mag]. destruct e as [|k|k].
  - split; [lia|]. change (2 ^ 0)%Z with 1%Z. change (2 ^ 0) with 1.
    rewrite !inject_Z_mult. change (inject_Z 10) with 10.
    change (inject_Z 1) with 1.
    setoid_replace (10 * inject_Z (Z.pos m) * 1 - 10 * (inject_Z (Z.pos m) * 1))
      with 0 by ring.
    discriminate.
  - split; [pose proof (@pow2_pos (Z.pos k) ltac:(lia)); nia|].
    rewrite !inject_Z_mult, inject_Z_two_pow by lia.
    change (inject_Z 10) with 10.
    setoid_replace (10 * inject_Z (Z.pos m) * 2 ^ Z.pos k
                    - 10 * (inject_Z (Z.pos m) * 2 ^ Z.pos k))
      with 0 by ring.
    discriminate.
  - pose proof (@pow2_pos (Z.pos k) ltac:(lia)) as Hp.
    split; [apply rne_div_nonneg; lia|].
    pose proof (@rne_div_error (10 * Z.pos m) (2 ^ Z.pos k) Hp) as H.
    set (t := rne_div (10 * Z.pos m) (2 ^ Z.pos k)) in *.
    change (2 ^ Z.neg k) with (/ 2 ^ Z.pos k).
    rewrite <- (inject_Z_two_pow (n:=Z.pos k)) by lia.
    set (d := inject_Z (2 ^ Z.pos k)).
    assert (Hd : 0 < d)
      by (unfold d; change 0 with (inject_Z 0); rewrite <- Zlt_Qlt; exact Hp).
    assert (H1 : (2 * (t * 2 ^ Z.pos k) <= 2 ^ Z.pos k + 2 * (10 * Z.pos m))%Z)
      by lia.
    assert (H2 : (2 * (10 * Z.pos m) <= 2 ^ Z.pos k + 2 * (t * 2 ^ Z.pos k))%Z)
      by lia.
    rewrite Zle_Qle in H1, H2.
    rewrite !inject_Z_plus, !inject_Z_mult in H1, H2. fold d in H1, H2.
    change (inject_Z 2) with 2 in H1, H2.
    change (inject_Z 10) with 10 in H1, H2.
    apply Qabs_Qle_condition. split.
    + apply (Qmult_le_r _ _ d Hd).
      setoid_replace ((inject_Z t - 10 * (inject_Z (Z.pos m) * / d)) * d)
        with (inject_Z t * d - 10 * inject_Z (Z.pos m))
        by (field; intros E; rewrite E in Hd; discriminate).
      lra.
    + apply (Qmult_le_r _ _ d Hd).
      setoid_replace ((inject_Z t - 10 * (inject_Z (Z.pos m) * / d)) * d)
        with (inject_Z t * d - 10 * inject_Z (Z.pos m))
        by (field; intros E; rewrite E in Hd; discriminate).
      lra.
Qed.

Lemma eta_small : eta <= 1 # 1000000000000000000000000000000.
Proof. vm_compute. discriminate. Qed.

(** [round(x, 1)] of a finite float: a zero when [|x|] is at most 0.05,
    and otherwise within 0.05 of [x], up to the error of writing the tenths
    as a float. *)
Lemma round1_binary64_error (x : spec_float) :
  B64.is_finite x = true ->
  let r := B64.round1 x in
  r = S754_infinity (signbit x)
  \/ (finite_result (signbit x) r
      /\ ((mag r == 0 /\ mag x <= 1 # 20)
          \/ ((1 # 20) <= mag x
              /\ Qabs (mag r - mag x)
                 <= (1 # 20) + eps * (mag x + (1 # 20)) + eta))).
Proof.
  destruct x as [s|s| |s m e]; cbn [B64.is_finite]; intros Hx;
    try discriminate; cbv zeta; cbn [signbit B64.round1].
  - right. split; [apply finite_result_of_rounding; left; reflexivity|].
    left. split; [reflexivity | discriminate].
  - destruct (tenths_error s m e) as [Ht Herr].
    apply Qabs_Qle_condition in Herr. destruct Herr as [Hlo Hhi].
    set (a := mag (S754_finite s m e)) in *.
    destruct (B64.tenths m e) as [|n|n]; try lia.
    + right. split; [apply finite_result_of_rounding; left; reflexivity|].
      left. split; [reflexivity|].
      change (inject_Z 0) with 0 in Hlo, Hhi. lra.
    + unfold B64.of_ratio.
      pose proof (@SFdiv_error (S754_finite s n 0) false 10 0 eq_refl) as H.
      cbv zeta in H. cbn [signbit] in H. rewrite xorb_false_r in H.
      assert (E : mag (S754_finite s n 0) / mag (S754_finite false 10 0)
                  == inject_Z (Z.pos n) / 10).
      { cbn [mag]. change (2 ^ 0) with 1. change (inject_Z 10) with 10.
        field. }
      rewrite E in H.
      destruct H as [[H _]|[Hf Hb]]; [left; exact H|].
      right. split; [exact Hf|]. right.
      set (r := SFdiv B64.prec B64.emax (S754_finite s n 0)
                  (S754_finite false 10 0)) in *.
      set (t := inject_Z (Z.pos n)) in *.
      assert (Ht1 : 1 <= t)
        by (unfold t; change 1 with (inject_Z 1); rewrite <- Zle_Qle; lia).
      split; [lra|].
      apply Qabs_Qle_condition in Hb. destruct Hb as [Hblo Hbhi].
      pose proof eta_pos as He. unfold eps in *.
      set (u := t / 10) in *.
      assert (Hu : 10 * u == t) by (unfold u; field).
      set (h := eta) in *. clearbody h u.
      apply Qabs_Qle_condition. split; lra.
Qed.

(** ** The round trip on binary64 *)

Lemma round1_finite_inv (x : spec_float) :
  B64.is_finite (B64.round1 x) = true -> B64.is_finite x = true.
Proof. destruct x; cbn; auto. Qed.

Lemma SFmul_finite_inv (x : spec_float) (s : bool) (m : positive) (e : Z) :
  B64.is_finite (SFmul B64.prec B64.emax x (S754_finite s m e)) = true ->
  B64.is_finite x = true.
Proof. destruct x; cbn; auto. Qed.

Lemma finite_not_infinity (s : bool) (r : spec_float) :
  B64.is_finite r = true -> r <> S754_infinity s.
Proof. intros H E. rewrite E in H. discriminate. Qed.

(** Two floats of one sign: the distance between the values is the distance
    between the magnitudes. *)
Lemma value_distance (x y : spec_float) :
  signbit x = signbit y ->
  Qabs (B64.value x - B64.value y) == Qabs (mag x - mag y).
Proof.
  intros E. rewrite (value_mag x), (value_mag y), E.
  destruct (signbit y); [|reflexivity].
  setoid_replace (- mag x - - mag y) with (- (mag x - mag y)) by ring.
  apply Qabs_opp.
Qed.

Lemma value_abs (x : spec_float) : Qabs (B64.value x) == mag x.
Proof.
  rewrite (value_mag x). destruct (signbit x).
  - rewrite Qabs_opp. apply Qabs_pos, mag_nonneg.
  - apply Qabs_pos, mag_nonneg.
Qed.

(** A product by a positive constant, when it is finite. *)
Lemma SFmul_constant_error (x : spec_float) (m : positive) (e : Z) :
  let y := SFmul B64.prec B64.emax x (S754_finite false m e) in
  let c := mag (S754_finite false m e) in
  B64.is_finite y = true ->
  B64.is_finite x = true
  /\ finite_result (signbit x) y
  /\ Qabs (mag y - mag x * c) <= eps * (mag x * c) + eta.
Proof.
  intros y c Hy.
  pose proof (@SFmul_finite_inv x false m e Hy) as Hx.
  split; [exact Hx|].
  destruct (@SFmul_error x (S754_finite false m e) Hx eq_refl) as [H|H].
  - exfalso. exact (@finite_not_infinity _ _ Hy H).
  - cbn [signbit] in H. rewrite xorb_false_r in H. exact H.
Qed.

Lemma hpa_round_trip_binary64 (x : @num binary64) :
  let d := round1 (x * HPA_TO_INHG * INHG_TO_MB)%num in
  B64.is_finite d = true ->
  Qabs (B64.value d - B64.value x)
  <= (5 # 100) + Qabs (B64.value x) * (1 # 1000000).
Proof.
  intros d Hd. unfold d in *. cbn [round1 mul binary64] in *.
  rewrite HPA_TO_INHG_binary64, INHG_TO_MB_binary64 in *.
  set (C1 := S754_finite false 8511443007760048 (-58)) in *.
  set (C2 := S754_finite false 4765920231915992 (-47)) in *.
  set (y1 := SFmul B64.prec B64.emax x C1) in *.
  set (y2 := SFmul B64.prec B64.emax y1 C2) in *.
  pose proof (@round1_finite_inv _ Hd) as Hy2.
  destruct (@SFmul_constant_error y1 _ _ Hy2) as (Hy1 & (_ & S2 & _) & B2).
  destruct (@SFmul_constant_error x _ _ Hy1) as (Hx & (_ & S1 & _) & B1).
  fold C1 in B1. fold C2 in B2. fold y1 in B1, S1, S2, B2. fold y2 in B2, S2.
  destruct (@round1_binary64_error y2 Hy2) as [H|((_ & S3 & _) & B3)];
    [exfalso; exact (@finite_not_infinity _ _ Hd H)|].
  assert (Hs : signbit (B64.round1 y2) = signbit x).
  { rewrite S3. unfold y2, C2. rewrite S2. unfold y1, C1. exact S1. }
  rewrite (@value_distance _ _ Hs), (value_abs x).
  assert (E1 : mag C1 == 8511443007760048 # 288230376151711744)
    by reflexivity.
  assert (E2 : mag C2 == 4765920231915992 # 140737488355328)
    by reflexivity.
  rewrite E1 in B1. rewrite E2 in B2.
  pose proof (mag_nonneg x) as Ha. pose proof (mag_nonneg y1) as Hb.
  pose proof (mag_nonneg y2) as Hc.
  pose proof eta_pos as Hh0. pose proof eta_small as Hh1.
  set (a := mag x) in *. set (b := mag y1) in *. set (c := mag y2) in *.
  set (dd := mag (B64.round1 y2)) in *. set (h := eta) in *.
  clearbody a b c dd h. unfold eps in *.
  apply Qabs_Qle_condition in B1, B2.
  destruct B1 as [B1l B1h]. destruct B2 as [B2l B2h].
  apply Qabs_Qle_condition.
  destruct B3 as [[Z3 L3]|[L3 B3]].
  - rewrite Z3. split; lra.
  - apply Qabs_Qle_condition in B3. destruct B3 as [B3l B3h].
    split; lra.
Qed.

Lemma kpa_round_trip_binary64 (x : @num binary64) :
  let d := round1 (x * KPA_TO_INHG * INHG_TO_MB)%num in
  B64.is_finite d = true ->
  Qabs (B64.value (d / lit 10 0)%num - B64.value x)
  <= (5 # 1000) + Qabs (B64.value x) * (1 # 1000000).
Proof.
  intros d Hd. unfold d in *. cbn [round1 mul div binary64] in *.
  rewrite KPA_TO_INHG_binary64, INHG_TO_MB_binary64, lit_10 in *.
  set (C1 := S754_finite false 5319651879850030 (-54)) in *.
  set (C2 := S754_finite false 4765920231915992 (-47)) in *.
  set (y1 := SFmul B64.prec B64.emax x C1) in *.
  set (y2 := SFmul B64.prec B64.emax y1 C2) in *.
  pose proof (@round1_finite_inv _ Hd) as Hy2.
  destruct (@SFmul_constant_error y1 _ _ Hy2) as (Hy1 & (_ & S2 & _) & B2).
  destruct (@SFmul_constant_error x _ _ Hy1) as (Hx & (_ & S1 & _) & B1).
  fold C1 in B1. fold C2 in B2. fold y1 in B1, S1, S2, B2. fold y2 in B2, S2.
  destruct (@round1_binary64_error y2 Hy2) as [H|((_ & S3 & L3) & B3)];
    [exfalso; exact (@finite_not_infinity _ _ Hd H)|].
  set (r1 := B64.round1 y2) in *.
  destruct (@SFdiv_error r1 false 5629499534213120 (-49) Hd)
    as [[_ H]|((_ & S4 & _) & B4)].
  { exfalso. change (log2_up (S754_finite false 5629499534213120 (-49)))
      with 4%Z in H. lia. }
  rewrite xorb_false_r in S4.
  set (q := SFdiv B64.prec B64.emax r1
              (S754_finite false 5629499534213120 (-49))) in *.
  assert (Hs : signbit q = signbit x).
  { rewrite S4, S3. unfold y2, C2. rewrite S2. unfold y1, C1. exact S1. }
  rewrite (@value_distance _ _ Hs), (value_abs x).
  assert (E1 : mag C1 == 5319651879850030 # 18014398509481984)
    by reflexivity.
  assert (E2 : mag C2 == 4765920231915992 # 140737488355328)
    by reflexivity.
  assert (E3 : mag (S754_finite false 5629499534213120 (-49)) == 10)
    by reflexivity.
  rewrite E1 in B1. rewrite E2 in B2. rewrite E3 in B4.
  pose proof (mag_nonneg x) as Ha. pose proof (mag_nonneg y1) as Hb.
  pose proof (mag_nonneg y2) as Hc. pose proof (mag_nonneg r1) as Hdd.
  pose proof eta_pos as Hh0. pose proof eta_small as Hh1.
  set (a := mag x) in *. set (b := mag y1) in *. set (c := mag y2) in *.
  set (dd := mag r1) in *. set (qq := mag q) in *. set (h := eta) in *.
  set (u := dd / 10) in *.
  assert (Hu : 10 * u == dd) by (unfold u; field).
  clearbody a b c dd qq h u. unfold eps in *.
  apply Qabs_Qle_condition in B1, B2, B4.
  destruct B1 as [B1l B1h]. destruct B2 as [B2l B2h].
  destruct B4 as [B4l B4h].
  apply Qabs_Qle_condition.
  destruct B3 as [[Z3 L3']|[L3' B3]].
  - split; lra.
  - apply Qabs_Qle_condition in B3. destruct B3 as [B3l B3h].
    split; lra.
Qed.

End Rounding.

(** ** Orders of magnitude: when a call returns *)

Section Returns.

Local Open Scope Z_scope.

(** A finite float below [2^L]. *)
Definition moderate (L : Z) (x : spec_float) : Prop :=
  B64.is_finite x = true /\ log2_up x <= L.

Lemma moderate_le (L L' : Z) (x : spec_float) :
  L <= L' -> moderate L x -> moderate L' x.
Proof. intros H [F B]. split; [exact F | lia]. Qed.

Lemma Zdigits2_le_53 (k : Z) : 0 <= k < 2 ^ 53 -> Zdigits2 k <= 53.
Proof.
  intros Hk. destruct (Z.eq_dec k 0) as [->|Hnz]; [cbn; lia|].
  destruct (@Zdigits2_bounds k ltac:(lia)) as [Hd [Hlo _]].
  destruct (Z_le_gt_dec (Zdigits2 k) 53) as [L|G]; [exact L|].
  exfalso.
  assert (2 ^ 53 <= 2 ^ (Zdigits2 k - 1)) by (apply Z.pow_le_mono_r; lia).
  lia.
Qed.

(** The rounding of a mantissa that is long enough does not overflow below
    [2^1023], and adds at most one to the order of magnitude. *)
Lemma binary_round_aux_moderate (s : bool) (m e : Z) (l : location)
    (N D L : Z) :
  stands_for (shr_record_of_loc m l) N D ->
  0 <= fexp64 (Zdigits2 m + e) - e ->
  Zdigits2 m + e <= L -> L < 1024 ->
  moderate (Z.max (L + 1) (-1020))
    (binary_round_aux B64.prec B64.emax s m e l).
Proof.
  intros H Hn HL HL'.
  destruct (@binary_round_aux_correct s m e l N D H ltac:(lia))
    as (k & ef & Er & Hk & Hef & _).
  rewrite Er.
  pose proof (@rounded_no_overflow s m e k ef Hn ltac:(lia) ltac:(lia))
    as Hno.
  destruct (@rounded_finite s k ef Hk) as [Hinf|[[_ Hz]|(p & Hp & He & Hr)]].
  - contradiction.
  - rewrite Hz. split; [reflexivity | cbn; lia].
  - rewrite Hr. split; [reflexivity|]. cbn [log2_up].
    pose proof (@Zdigits2_le_53 k Hk) as Hd. rewrite Hp in Hd.
    rewrite fexp64_eq in *. lia.
Qed.

Lemma Zdigits2_mul (a b : positive) :
  Zdigits2 (Z.pos a) + Zdigits2 (Z.pos b) - 1 <= Zdigits2 (Z.pos (a * b))
  <= Zdigits2 (Z.pos a) + Zdigits2 (Z.pos b).
Proof.
  destruct (@Zdigits2_bounds (Z.pos a) ltac:(lia)) as [Ha [Hla Hha]].
  destruct (@Zdigits2_bounds (Z.pos b) ltac:(lia)) as [Hb [Hlb Hhb]].
  destruct (@Zdigits2_bounds (Z.pos (a * b)) ltac:(lia)) as [Hab [Hlab Hhab]].
  set (da := Zdigits2 (Z.pos a)) in *. set (db := Zdigits2 (Z.pos b)) in *.
  set (dab := Zdigits2 (Z.pos (a * b))) in *.
  rewrite Pos2Z.inj_mul in *.
  assert (Hlo : 2 ^ (da - 1 + (db - 1)) <= Z.pos a * Z.pos b).
  { rewrite Z.pow_add_r by lia.
    pose proof (@pow2_pos (da - 1) ltac:(lia)).
    pose proof (@pow2_pos (db - 1) ltac:(lia)). nia. }
  assert (Hhi : Z.pos a * Z.pos b < 2 ^ (da + db)).
  { rewrite Z.pow_add_r by lia. nia. }
  split.
  - destruct (Z_le_gt_dec (da + db - 1) dab) as [L|G]; [exact L|].
    exfalso.
    assert (2 ^ dab <= 2 ^ (da - 1 + (db - 1)))
      by (apply Z.pow_le_mono_r; lia). lia.
  - destruct (Z_le_gt_dec dab (da + db)) as [L|G]; [exact L|].
    exfalso.
    assert (2 ^ (da + db) <= 2 ^ (dab - 1))
      by (apply Z.pow_le_mono_r; lia). lia.
Qed.

(** A product by a constant with a full mantissa. *)
Lemma SFmul_moderate (L : Z) (x : spec_float) (s : bool) (m : positive)
    (e : Z) :
  Zdigits2 (Z.pos m) = 53 ->
  moderate L x -> L + (53 + e) < 1024 ->
  moderate (Z.max (L + (53 + e) + 1) (-1020))
    (SFmul B64.prec B64.emax x (S754_finite s m e)).
Proof.
  intros Hm [Hx HL] Hb.
  destruct x as [sx|sx| |sx mx ex]; try discriminate.
  - split; [reflexivity | cbn; lia].
  - cbn [SFmul]. cbn [log2_up] in HL.
    pose proof (Zdigits2_mul mx m) as Hd.
    destruct (@Zdigits2_bounds (Z.pos mx) ltac:(lia)) as [Hdx _].
    apply (@binary_round_aux_moderate _ _ _ _ (Z.pos (mx * m)) 1).
    + apply stands_for_exact. lia.
    + rewrite fexp64_eq. lia.
    + lia.
    + exact Hb.
Qed.

Lemma iter_xO (m d : positive) :
  Z.pos (Pos.iter xO m d) = Z.pos m * 2 ^ Z.pos d.
Proof.
  induction d as [|d IH] using Pos.peano_ind.
  - cbn. lia.
  - rewrite Pos.iter_succ, Pos2Z.inj_xO, IH, Pos2Z.inj_succ.
    rewrite Z.pow_succ_r by lia. ring.
Qed.

Lemma shl_align_spec (mx : positive) (ex ex' : Z) :
  snd (shl_align mx ex ex') = Z.min ex ex'
  /\ Z.pos (fst (shl_align mx ex ex'))
     = Z.pos mx * 2 ^ (ex - Z.min ex ex').
Proof.
  unfold shl_align. destruct (ex' - ex) as [|d|d] eqn:E; cbn [fst snd].
  - replace (Z.min ex ex') with ex by lia.
    rewrite Z.sub_diag, Z.pow_0_r. lia.
  - replace (Z.min ex ex') with ex by lia.
    rewrite Z.sub_diag, Z.pow_0_r. lia.
  - replace (Z.min ex ex') with ex' by lia.
    rewrite iter_xO. replace (ex - ex') with (Z.pos d) by lia. auto.
Qed.

Lemma Zdigits2_scale (m : positive) (k : Z) :
  0 <= k -> Zdigits2 (Z.pos m * 2 ^ k) = Zdigits2 (Z.pos m) + k.
Proof.
  intros Hk.
  destruct (@Zdigits2_bounds (Z.pos m) ltac:(lia)) as [Hd [Hlo Hhi]].
  pose proof (@pow2_pos k Hk) as Hp.
  apply Zdigits2_unique; [|lia]. split.
  - replace (Zdigits2 (Z.pos m) + k - 1) with (Zdigits2 (Z.pos m) - 1 + k)
      by lia.
    rewrite Z.pow_add_r by lia. nia.
  - rewrite Z.pow_add_r by lia. nia.
Qed.

Lemma binary_round_moderate (s : bool) (m : positive) (e L : Z) :
  Zdigits2 (Z.pos m) + e <= L -> L < 1024 ->
  moderate (Z.max (L + 1) (-1020)) (binary_round B64.prec B64.emax s m e).
Proof.
  intros HL HL'. unfold binary_round.
  fold (fexp64 (Z.pos (digits2_pos m) + e)).
  change (Z.pos (digits2_pos m)) with (Zdigits2 (Z.pos m)).
  destruct (shl_align_spec m e (fexp64 (Zdigits2 (Z.pos m) + e)))
    as [He Hm].
  destruct (shl_align m e (fexp64 (Zdigits2 (Z.pos m) + e))) as [mz ez].
  cbn [fst snd] in He, Hm.
  assert (Hd : Zdigits2 (Z.pos mz) + ez = Zdigits2 (Z.pos m) + e).
  { rewrite Hm, Zdigits2_scale by lia. lia. }
  apply (@binary_round_aux_moderate _ _ _ _ (Z.pos mz) 1).
  - apply stands_for_exact. lia.
  - rewrite Hd. lia.
  - lia.
  - exact HL'.
Qed.

Lemma binary_normalize_moderate (z e L : Z) :
  Zdigits2 z + e <= L -> L < 1024 ->
  moderate (Z.max (L + 1) (-1020))
    (binary_normalize B64.prec B64.emax z e false).
Proof.
  intros HL HL'. destruct z as [|p|p]; cbn [binary_normalize].
  - split; [reflexivity | cbn; lia].
  - apply binary_round_moderate; assumption.
  - apply binary_round_moderate; assumption.
Qed.

Lemma Zdigits2_le (z k : Z) : 0 <= k -> Z.abs z < 2 ^ k -> Zdigits2 z <= k.
Proof.
  intros Hk Hz. destruct (Z.eq_dec z 0) as [->|Hnz]; [cbn; lia|].
  assert (E : Zdigits2 z = Zdigits2 (Z.abs z)) by (destruct z; reflexivity).
  rewrite E.
  destruct (@Zdigits2_bounds (Z.abs z) ltac:(lia)) as [Hd [Hlo _]].
  destruct (Z_le_gt_dec (Zdigits2 (Z.abs z)) k) as [L|G]; [exact L|].
  exfalso.
  assert (2 ^ k <= 2 ^ (Zdigits2 (Z.abs z) - 1))
    by (apply Z.pow_le_mono_r; lia).
  lia.
Qed.

(** A difference of two floats below [2^L] is a float below [2^(L+2)]. *)
Lemma SFsub_moderate (L : Z) (x y : spec_float) :
  moderate L x -> moderate L y -> L + 1 < 1024 ->
  moderate (Z.max (L + 2) (-1020)) (SFsub B64.prec B64.emax x y).
Proof.
  intros [Hx HLx] [Hy HLy] Hb.
  destruct x as [sx|sx| |sx mx ex], y as [sy|sy| |sy my ey];
    try discriminate; cbn [SFsub].
  - split; [destruct sx, sy; reflexivity | destruct sx, sy; cbn; lia].
  - split; [reflexivity | cbn [log2_up] in *; lia].
  - split; [reflexivity | cbn [log2_up] in *; lia].
  - cbn [log2_up] in HLx, HLy.
    destruct (shl_align_spec mx ex (Z.min ex ey)) as [_ Hmx].
    destruct (shl_align_spec my ey (Z.min ex ey)) as [_ Hmy].
    replace (Z.min ex (Z.min ex ey)) with (Z.min ex ey) in Hmx by lia.
    replace (Z.min ey (Z.min ex ey)) with (Z.min ex ey) in Hmy by lia.
    set (ez := Z.min ex ey) in *.
    set (ax := fst (shl_align mx ex ez)) in *.
    set (ay := fst (shl_align my ey ez)) in *.
    assert (Hdx : Zdigits2 (Z.pos ax) + ez = Zdigits2 (Z.pos mx) + ex)
      by (rewrite Hmx, Zdigits2_scale by lia; lia).
    assert (Hdy : Zdigits2 (Z.pos ay) + ez = Zdigits2 (Z.pos my) + ey)
      by (rewrite Hmy, Zdigits2_scale by lia; lia).
    destruct (@Zdigits2_bounds (Z.pos ax) ltac:(lia)) as [Hax [_ Hhx]].
    destruct (@Zdigits2_bounds (Z.pos ay) ltac:(lia)) as [Hay [_ Hhy]].
    assert (Hpx : 2 ^ Zdigits2 (Z.pos ax) <= 2 ^ (L - ez))
      by (apply Z.pow_le_mono_r; lia).
    assert (Hpy : 2 ^ Zdigits2 (Z.pos ay) <= 2 ^ (L - ez))
      by (apply Z.pow_le_mono_r; lia).
    replace (Z.max (L + 2) (-1020)) with (Z.max (L + 1 + 1) (-1020)) by lia.
    apply binary_normalize_moderate; [|exact Hb].
    assert (Zdigits2 (cond_Zopp sx (Z.pos ax) - cond_Zopp sy (Z.pos ay))
            <= L - ez + 1); [|lia].
    apply Zdigits2_le; [lia|].
    rewrite Z.pow_add_r, Z.pow_1_r by lia.
    unfold cond_Zopp. destruct sx, sy; lia.
Qed.

(** A quotient by a finite float that is not a zero. *)
Lemma SFdiv_moderate (L : Z) (x : spec_float) (sy : bool) (my : positive)
    (ey : Z) :
  moderate L x ->
  L - log2_up (S754_finite sy my ey) + 1 < 1024 ->
  moderate (Z.max (L - log2_up (S754_finite sy my ey) + 2) (-1020))
    (SFdiv B64.prec B64.emax x (S754_finite sy my ey)).
Proof.
  intros [Hx HL] Hb.
  destruct x as [sx|sx| |sx mx ex]; try discriminate.
  - split; [reflexivity | cbn [SFdiv log2_up]; lia].
  - cbn [SFdiv]. cbn [log2_up] in *.
    destruct (SFdiv_core_binary_correct mx my ex ey)
      as (q & e' & l & sh & E & Hsh & He' & Hst & Hn & Hdig).
    rewrite E. cbv beta iota.
    rewrite fexp64_eq in Hdig.
    set (t := Zdigits2 (Z.pos mx) + ex - (Zdigits2 (Z.pos my) + ey)) in *.
    apply moderate_le with (Z.max (Z.max (t + 1) (-1074) + 1) (-1020));
      [lia|].
    apply (@binary_round_aux_moderate _ _ _ _ _ _ _ Hst Hn); lia.
Qed.

Lemma tenths_digits (m : positive) (e : Z) :
  Zdigits2 (B64.tenths m e) <= Z.max (Zdigits2 (Z.pos m) + e + 4) 3.
Proof.
  destruct (@Zdigits2_bounds (Z.pos m) ltac:(lia)) as [Hd [_ Hhi]].
  set (d := Zdigits2 (Z.pos m)) in *.
  unfold B64.tenths. destruct e as [|k|k].
  - apply Zdigits2_le; [lia|].
    replace (Z.max (d + 0 + 4) 3) with (d + 4) by lia.
    rewrite Z.pow_add_r by lia. change (2 ^ 4) with 16. change (2 ^ 0) with 1.
    lia.
  - pose proof (@pow2_pos (Z.pos k) ltac:(lia)) as Hp.
    apply Zdigits2_le; [lia|].
    replace (Z.max (d + Z.pos k + 4) 3) with (d + Z.pos k + 4) by lia.
    rewrite !Z.pow_add_r by lia. change (2 ^ 4) with 16. nia.
  - pose proof (@pow2_pos (Z.pos k) ltac:(lia)) as Hp.
    pose proof (@rne_div_error (10 * Z.pos m) (2 ^ Z.pos k) Hp) as H.
    pose proof (@rne_div_nonneg (10 * Z.pos m) (2 ^ Z.pos k)
                  ltac:(lia) Hp) as H0.
    set (t := rne_div (10 * Z.pos m) (2 ^ Z.pos k)) in *.
    apply Zdigits2_le; [lia|]. rewrite Z.abs_eq by exact H0.
    destruct (Z_le_gt_dec (Z.pos k - 1) d) as [Le|Gt].
    + replace (Z.max (d + Z.neg k + 4) 3) with (d - Z.pos k + 4) by lia.
      assert (Hk : 2 ^ Z.pos k <= 2 * 2 ^ d).
      { replace (2 * 2 ^ d) with (2 ^ (d + 1))
          by (rewrite Z.pow_add_r by lia; ring).
        apply Z.pow_le_mono_r; lia. }
      assert (Ht : t * 2 ^ Z.pos k < 2 ^ (d - Z.pos k + 4) * 2 ^ Z.pos k).
      { rewrite <- Z.pow_add_r by lia.
        replace (d - Z.pos k + 4 + Z.pos k) with (d + 4) by lia.
        rewrite Z.pow_add_r by lia. change (2 ^ 4) with 16. lia. }
      nia.
    + replace (Z.max (d + Z.neg k + 4) 3) with 3 by lia.
      change (2 ^ 3) with 8.
      assert (Hk : 4 * 2 ^ d <= 2 ^ Z.pos k).
      { replace (4 * 2 ^ d) with (2 ^ (d + 2))
          by (rewrite Z.pow_add_r by lia; ring).
        apply Z.pow_le_mono_r; lia. }
      nia.
Qed.

(** [round(x, 1)] of a float below [2^L]. *)
Lemma round1_moderate (L : Z) (x : spec_float) :
  moderate L x -> L + 1 < 1024 ->
  moderate (Z.max (L + 2) 1) (B64.round1 x).
Proof.
  intros [Hx HL] Hb.
  destruct x as [s|s| |s m e]; try discriminate; cbn [B64.round1].
  - split; [reflexivity | cbn; lia].
  - cbn [log2_up] in HL. pose proof (tenths_digits m e) as Hd.
    destruct (B64.tenths m e) as [|n|n].
    + split; [reflexivity | cbn; lia].
    + unfold B64.of_ratio.
      assert (Hn : moderate (Z.max (L + 4) 3) (S754_finite s n 0))
        by (split; [reflexivity | cbn [log2_up]; lia]).
      change (log2_up (S754_finite false 10 0)) with 4 in *.
      eapply moderate_le;
        [|apply (@SFdiv_moderate _ _ false 10 0 Hn);
          change (log2_up (S754_finite false 10 0)) with 4; lia].
      change (log2_up (S754_finite false 10 0)) with 4. lia.
    + split; [reflexivity | cbn; lia].
Qed.

Lemma SFabs_moderate (L : Z) (x : spec_float) :
  moderate L x -> moderate L (SFabs x).
Proof. destruct x; intros [F B]; split; assumption. Qed.

Lemma to_int_finite (x : spec_float) :
  B64.is_finite x = true -> exists n, B64.to_int x = Ok n.
Proof.
  destruct x as [s|s| |s m e]; try discriminate; intros _; cbn [B64.to_int];
    eexists; reflexivity.
Qed.

Lemma times_INHG_TO_MB_moderate (x : spec_float) :
  moderate 1000 x -> moderate 1007 (@mul binary64 x INHG_TO_MB).
Proof.
  intros H. rewrite INHG_TO_MB_binary64. cbn [mul binary64].
  eapply moderate_le; [|apply (@SFmul_moderate 1000); [reflexivity|exact H|lia]].
  lia.
Qed.

Lemma to_inhg_moderate (cur : @num binary64) (past : list (@num binary64))
    (u : string) (p_3h : @num binary64) :
  moderate 1000 cur -> nth_error past 2 = Some p_3h -> moderate 1000 p_3h ->
  moderate 1000 (fst (to_inhg cur past u))
  /\ exists q_3h, nth_error (snd (to_inhg cur past u)) 2 = Some q_3h
                  /\ moderate 1000 q_3h.
Proof.
  intros Hc Hn Hp.
  assert (Hh : forall x, moderate 1000 x ->
                         moderate 1000 (@mul binary64 x HPA_TO_INHG)).
  { intros x Hx. rewrite HPA_TO_INHG_binary64. cbn [mul binary64].
    eapply moderate_le;
      [|apply (@SFmul_moderate 1000); [reflexivity|exact Hx|lia]].
    lia. }
  assert (Hk : forall x, moderate 1000 x ->
                         moderate 1000 (@mul binary64 x KPA_TO_INHG)).
  { intros x Hx. rewrite KPA_TO_INHG_binary64. cbn [mul binary64].
    eapply moderate_le;
      [|apply (@SFmul_moderate 1000); [reflexivity|exact Hx|lia]].
    lia. }
  unfold to_inhg.
  destruct (String.eqb u "hPa"); [|destruct (String.eqb u "kPa");
    [|destruct (String.eqb u "custom")]]; cbn [fst snd].
  - split; [apply Hh, Hc|]. eexists. split; [|apply Hh, Hp].
    rewrite nth_error_map, Hn. reflexivity.
  - split; [apply Hk, Hc|]. eexists. split; [|apply Hk, Hp].
    rewrite nth_error_map, Hn. reflexivity.
  - split; [exact Hc|]. eexists. split; [|apply Hh, Hp].
    rewrite nth_error_map, Hn. reflexivity.
  - split; [exact Hc|]. exists p_3h. split; assumption.
Qed.

(** The call returns a record on every history of three readings or more
    whose current reading and reading of three hours ago are finite floats
    below [2^1000], whatever the unit selector. *)
Lemma calculate_pressure_trend_returns (cur : @num binary64)
    (past : list (@num binary64)) (u : string) (p_3h : @num binary64) :
  nth_error past 2 = Some p_3h ->
  moderate 1000 cur -> moderate 1000 p_3h ->
  exists r : TrendResult binary64, calculate_pressure_trend cur past u = Ok r.
Proof.
  intros Hn Hc Hp.
  destruct (@to_inhg_moderate cur past u p_3h Hc Hn Hp)
    as (Hci & q3 & Hq3 & Hq).
  unfold calculate_pressure_trend.
  destruct (to_inhg cur past u) as [ci pi]. cbn [fst snd] in *.
  destruct pi as [|q1 [|q2 [|q3' rest]]]; try discriminate Hq3.
  cbn [nth_error] in Hq3. injection Hq3 as ->.
  cbn [index nth_error bind].
  pose proof (times_INHG_TO_MB_moderate Hci) as Hmb.
  pose proof (times_INHG_TO_MB_moderate Hq) as Hmb3.
  assert (Hdiff : moderate 1009 (@sub binary64 (ci * INHG_TO_MB)
                                   (q3 * INHG_TO_MB))%num).
  { cbn [sub binary64].
    eapply moderate_le; [|apply (@SFsub_moderate 1007 _ _ Hmb Hmb3); lia].
    lia. }
  assert (Hch : moderate 1011 (@round1 binary64 (ci * INHG_TO_MB
                                                 - q3 * INHG_TO_MB))%num).
  { eapply moderate_le; [|apply (@round1_moderate 1009 _ Hdiff); lia]. lia. }
  assert (Hrd : moderate 1009 (@round1 binary64 (ci * INHG_TO_MB))%num).
  { eapply moderate_le; [|apply (@round1_moderate 1007 _ Hmb); lia]. lia. }
  assert (Hten : forall x, moderate 1011 x ->
                   B64.is_finite (@mul binary64 x (lit 10 0)) = true).
  { intros x Hx. rewrite lit_10. cbn [mul binary64].
    apply (@SFmul_moderate 1011 x false 5629499534213120 (-49) eq_refl Hx).
    lia. }
  destruct (@to_int_finite _ (Hten _ (SFabs_moderate Hch))) as [tv Htv].
  destruct (@to_int_finite _ (Hten _ (@moderate_le 1009 1011 _ ltac:(lia) Hrd)))
    as [tm Htm].
  cbn [absf to_int binary64] in *. rewrite Htv. cbn [bind]. rewrite Htm.
  cbn [bind].
  destruct (to_display _ _ _ _) as [[dc dp] ul]. eexists. reflexivity.
Qed.

(** The sample readings are of that kind. *)
Example sample_readings_moderate :
  moderate 1000 Sample.hpa_now /\ moderate 1000 Sample.inhg_now
  /\ Forall (moderate 1000) Sample.hpa_past.
Proof.
  repeat split; try reflexivity; try (cbn; lia).
  repeat constructor; try reflexivity; cbn; lia.
Qed.

End Returns.

(** ** The round trip of the current reading *)

Section RoundTrip.

Context {N : PyNum}.

Local Open Scope string_scope.
Local Open Scope num_scope.

(** The displayed current pressure in each of the three single-unit
    modes. *)
Lemma current_pressure_display_hPa x past r :
  calculate_pressure_trend x past "hPa" = Ok r ->
  current_pressure_display r = round1 (x * HPA_TO_INHG * INHG_TO_MB).
Proof.
  intros H. apply calculate_pressure_trend_Ok in H.
  destruct H as (p1 & p2 & p3 & _ & _ & _ & tm & H).
  destruct H as (_ & _ & _ & _ & _ & _ & Hd & _).
  injection Hd as Hd _ _. exact Hd.
Qed.

Lemma current_pressure_display_kPa x past r :
  calculate_pressure_trend x past "kPa" = Ok r ->
  current_pressure_display r
  = round1 (x * KPA_TO_INHG * INHG_TO_MB) / lit 10 0.
Proof.
  intros H. apply calculate_pressure_trend_Ok in H.
  destruct H as (p1 & p2 & p3 & _ & _ & _ & tm & H).
  destruct H as (_ & _ & _ & _ & _ & _ & Hd & _).
  injection Hd as Hd _ _. exact Hd.
Qed.

Lemma current_pressure_display_inHg x past r :
  calculate_pressure_trend x past "inHg" = Ok r ->
  current_pressure_display r = x.
Proof.
  intros H. apply calculate_pressure_trend_Ok in H.
  destruct H as (p1 & p2 & p3 & _ & _ & _ & tm & H).
  destruct H as (_ & _ & _ & _ & _ & _ & Hd & _).
  injection Hd as Hd _ _. exact Hd.
Qed.

End RoundTrip.

(** C8, as stated, fails.  A current reading of 1013.2495 hPa comes back as
    1013.3 hPa, more than 0.05 mb away, and 101.32495 kPa comes back as
    101.33 kPa, more than 0.005 kPa away: the two conversion factors multiply
    to 1.000000967, which carries the reading over the rounding boundary. *)
Lemma round_trip_exceeds_tolerance :
  (calculate_pressure_trend Sample.drift_hpa
     [Sample.drift_hpa; Sample.drift_hpa; Sample.drift_hpa] "hPa"
   = Ok Sample.drift_hpa_result
   /\ (5 # 100 < Qabs (B64.value (current_pressure_display
                                    Sample.drift_hpa_result)
                       - B64.value Sample.drift_hpa))%Q)
  /\ (calculate_pressure_trend Sample.drift_kpa
        [Sample.drift_kpa; Sample.drift_kpa; Sample.drift_kpa] "kPa"
      = Ok Sample.drift_kpa_result
      /\ (5 # 1000 < Qabs (B64.value (current_pressure_display
                                        Sample.drift_kpa_result)
                           - B64.value Sample.drift_kpa))%Q).
Proof.
  split; (split; [run_call | vm_compute; reflexivity]).
Qed.

(** The round trip in exact arithmetic: the drift is the excess of the
    product of the two conversion factors over 1. *)
Lemma round_trip_exact (x : Q) (past : list Q) (r : TrendResult exact) :
  (calculate_pressure_trend x past "hPa" = Ok r ->
   (Qabs (current_pressure_display r - x)
    <= (5 # 100) + Qabs x * (967 # 1000000000))%Q)
  /\ (calculate_pressure_trend x past "kPa" = Ok r ->
      (Qabs (current_pressure_display r - x)
       <= (5 # 1000) + Qabs x * (967 # 1000000000))%Q).
Proof.
  split.
  - intros H. rewrite (current_pressure_display_hPa _ _ H).
    apply hpa_round_trip_error.
  - intros H. rewrite (current_pressure_display_kPa _ _ H).
    apply kpa_round_trip_error.
Qed.

(** The current pressure in mb, rounded, of a returned record is finite:
    [int] has accepted ten times it. *)
Lemma current_pressure_mb_finite (x : @num binary64)
    (past : list (@num binary64)) (u : string) (r : TrendResult binary64) :
  calculate_pressure_trend x past u = Ok r ->
  current_pressure_mb r = round1 (fst (to_inhg x past u) * INHG_TO_MB)%num
  /\ B64.is_finite (current_pressure_mb r) = true.
Proof.
  intros H. apply calculate_pressure_trend_Ok in H.
  destruct H as (p1 & p2 & p3 & _ & _ & _ & tm & H).
  destruct H as (_ & Htm & _ & Hm & _).
  split; [exact Hm|]. rewrite Hm. rewrite lit_10 in Htm.
  exact (to_int_mul_finite _ _ _ Htm).
Qed.

(** C8, amended.  As the program computes it, in binary64, the round trip of
    a current reading [x] stays within 0.05 mb + 0.000001 |x| of [x] in the
    hPa mode and within 0.005 kPa + 0.000001 |x| in the kPa mode; in the
    inHg mode the reading is displayed as it was given. *)
Theorem round_trip_within_tolerance_and_drift (x : @num binary64)
    (past : list (@num binary64)) (r : TrendResult binary64) :
  (calculate_pressure_trend x past "hPa" = Ok r ->
   (Qabs (B64.value (current_pressure_display r) - B64.value x)
    <= (5 # 100) + Qabs (B64.value x) * (1 # 1000000))%Q)
  /\ (calculate_pressure_trend x past "kPa" = Ok r ->
      (Qabs (B64.value (current_pressure_display r) - B64.value x)
       <= (5 # 1000) + Qabs (B64.value x) * (1 # 1000000))%Q)
  /\ (calculate_pressure_trend x past "inHg" = Ok r ->
      current_pressure_display r = x).
Proof.
  split; [|split].
  - intros H. destruct (current_pressure_mb_finite _ _ _ H) as [Hm Hf].
    rewrite (current_pressure_display_hPa _ _ H).
    rewrite Hm in Hf. apply hpa_round_trip_binary64. exact Hf.
  - intros H. destruct (current_pressure_mb_finite _ _ _ H) as [Hm Hf].
    rewrite (current_pressure_display_kPa _ _ H).
    rewrite Hm in Hf. apply kpa_round_trip_binary64. exact Hf.
  - intros H. exact (current_pressure_display_inHg _ _ H).
Qed.

Lemma round_trip_within_tolerance_and_drift_witness :
  calculate_pressure_trend Sample.drift_hpa
    [Sample.drift_hpa; Sample.drift_hpa; Sample.drift_hpa] "hPa"
  = Ok Sample.drift_hpa_result
  /\ (Qabs (B64.value (current_pressure_display Sample.drift_hpa_result)
            - B64.value Sample.drift_hpa)
      <= (5 # 100) + Qabs (B64.value Sample.drift_hpa) * (1 # 1000000))%Q.
Proof.
  assert (H : calculate_pressure_trend Sample.drift_hpa
                [Sample.drift_hpa; Sample.drift_hpa; Sample.drift_hpa] "hPa"
              = Ok Sample.drift_hpa_result) by run_call.
  split; [exact H|].
  exact (proj1 (@round_trip_within_tolerance_and_drift
                  Sample.drift_hpa _ Sample.drift_hpa_result) H).
Defined.

(** ** More on exact rationals *)

Section ExactProgram.

Local Open Scope Q_scope.

Lemma Exact_ltb_spec (x y : Q) : Exact.ltb x y = true <-> x < y.
Proof. unfold Exact.ltb, Qlt. apply Z.ltb_lt. Qed.

Lemma Exact_ltb_false (x y : Q) : Exact.ltb x y = false <-> y <= x.
Proof.
  unfold Exact.ltb, Qle. rewrite Z.ltb_ge. reflexivity.
Qed.

(** The three properties of the classifier that the specification lists
    for testing, for a threshold above zero. *)
Lemma determine_trend_around_threshold (x t eps : Q) :
  0 < t -> 0 < eps ->
  @determine_trend exact x (x + t + eps) t = "Rising"%string
  /\ @determine_trend exact x (x - t - eps) t = "Falling"%string
  /\ @determine_trend exact x x t = "Steady"%string.
Proof.
  intros Ht He. unfold determine_trend. cbn [gt lt sub neg exact].
  assert (H1 : Exact.ltb t (x + t + eps - x) = true)
    by (apply Exact_ltb_spec; lra).
  assert (H2 : Exact.ltb t (x - t - eps - x) = false)
    by (apply Exact_ltb_false; lra).
  assert (H3 : Exact.ltb (x - t - eps - x) (- t) = true)
    by (apply Exact_ltb_spec; lra).
  assert (H4 : Exact.ltb t (x - x) = false)
    by (apply Exact_ltb_false; lra).
  assert (H5 : Exact.ltb (x - x) (- t) = false)
    by (apply Exact_ltb_false; lra).
  rewrite H1, H2, H3, H4, H5. repeat split.
Qed.

(** In exact arithmetic a call raises nothing but [IndexError]. *)
Lemma calculate_pressure_trend_exact_returns (cur : Q) (past : list Q)
    (u : string) :
  (3 <= List.length past)%nat ->
  exists r : TrendResult exact, calculate_pressure_trend cur past u = Ok r.
Proof.
  intros H. destruct (three_or_more past H) as (a & b & c & rest & ->).
  unfold calculate_pressure_trend, to_inhg.
  destruct (String.eqb u "hPa"); [|destruct (String.eqb u "kPa");
    [|destruct (String.eqb u "custom")]];
    cbn [map index nth_error bind to_int exact Exact.to_int];
    destruct (to_display _ _ _ _) as [[dc dp] ul]; eexists; reflexivity.
Qed.

(** A value rounded to one decimal, times ten, is an integer. *)
Lemma round1_times_ten (x : Q) :
  Exact.round1 x * (10 # 1)
  == inject_Z (rne_div (10 * Qnum x) (Z.pos (Qden x))).
Proof.
  unfold Exact.round1, Qeq, Qmult. cbn [Qnum Qden inject_Z]. lia.
Qed.

Lemma to_int_inject_Z (q : Q) (k n : Z) :
  q == inject_Z k -> Exact.to_int q = Ok n -> n = k /\ n = Qfloor q.
Proof.
  intros E H. unfold Exact.to_int in H. apply Ok_inj in H.
  assert (Hk : n = k).
  { unfold Qeq in E. cbn [inject_Z Qnum Qden] in E.
    rewrite Z.mul_1_r in E. rewrite E in H.
    rewrite Z.quot_mul in H by lia. auto. }
  split; [exact Hk|]. rewrite E, Qfloor_Z. exact Hk.
Qed.

(** The station model pressure in exact arithmetic, for every current
    reading, negative ones included. *)
Lemma station_model_pressure_exact (cur : Q) (past : list Q) (u : string)
    (r : TrendResult exact) :
  calculate_pressure_trend cur past u = Ok r ->
  station_model_pressure r
  = (Qfloor (current_pressure_mb r * (10 # 1)) mod 1000)%Z.
Proof.
  intros H. apply calculate_pressure_trend_Ok in H.
  destruct H as (p1 & p2 & p3 & _ & _ & _ & tm & H).
  destruct H as (_ & Htm & Hs & Hm & _).
  rewrite Hs, Hm.
  destruct (to_int_inject_Z (round1_times_ten _) Htm) as [_ ->].
  reflexivity.
Qed.

(** The trend value in exact arithmetic: the change in tenths of a
    millibar, a whole number. *)
Lemma trend_value_exact (cur : Q) (past : list Q) (u : string)
    (r : TrendResult exact) :
  calculate_pressure_trend cur past u = Ok r ->
  (0 <= trend_value r)%Z
  /\ trend_value r = Qfloor (Qabs (pressure_change_mb r) * (10 # 1))
  /\ inject_Z (trend_value r) == Qabs (pressure_change_mb r) * (10 # 1).
Proof.
  intros H. apply calculate_pressure_trend_Ok in H.
  destruct H as (p1 & p2 & p3 & _ & _ & _ & tm & H).
  destruct H as (Htv & _ & _ & _ & Hc & _).
  rewrite Hc. cbn [absf exact round1] in Htv |- *.
  set (z := (@sub exact (fst (@to_inhg exact cur past u) * INHG_TO_MB)
                         (p3 * INHG_TO_MB))%num) in *.
  assert (E : Qabs (Exact.round1 z) * (10 # 1)
              == inject_Z (Z.abs (rne_div (10 * Qnum z) (Z.pos (Qden z))))).
  { unfold Exact.round1, Qabs, Qeq, Qmult. cbn [Qnum Qden inject_Z]. lia. }
  destruct (to_int_inject_Z E Htv) as [Hk Hf].
  split; [lia|]. split; [exact Hf|].
  rewrite Hk. symmetry. exact E.
Qed.

End ExactProgram.

(** ** Which exception, and when *)

(** X1. On binary64, the call raises [IndexError] exactly when the history
    holds fewer than three readings, whatever the current reading, the
    readings and the unit selector. *)
Lemma calculate_pressure_trend_IndexError_iff (cur : @num binary64)
    (past : list (@num binary64)) (u : string) :
  calculate_pressure_trend cur past u = Raise IndexError
  <-> (List.length past < 3)%nat.
Proof.
  split.
  - intros H. destruct (Nat.lt_ge_cases (List.length past) 3) as [L|G];
      [exact L|].
    destruct (three_or_more past G) as (a & b & c & rest & ->).
    exfalso. revert H. apply calculate_pressure_trend_no_IndexError.
    exact to_int_binary64_no_IndexError.
  - apply calculate_pressure_trend_short.
Qed.

(** ** The scenarios of the specification *)

(** 1013.2 hPa after 1012.0, 1010.5 and 1009.0 hPa: a change of 4.2 mb,
    Rising, station model pressure 132, trend value 42. *)
Example scenario_hPa :
  calculate_pressure_trend Sample.hpa_now Sample.hpa_past "hPa"
    = Ok Sample.hpa_result
  /\ pressure_change_mb Sample.hpa_result = @lit binary64 42 1
  /\ overall_trend Sample.hpa_result = "Rising"%string
  /\ station_model_pressure Sample.hpa_result = 132%Z
  /\ trend_value Sample.hpa_result = 42%Z.
Proof. split; [run_call|]. repeat split. Qed.

(** Four equal readings of 29.92 inHg: no change, Steady, symbol "=". *)
Example scenario_steady :
  exists r : TrendResult binary64,
    calculate_pressure_trend (lit 2992 2) [lit 2992 2; lit 2992 2; lit 2992 2]
      "inHg" = Ok r
    /\ pressure_change_mb r = S754_zero false
    /\ overall_trend r = "Steady"%string
    /\ tendency_symbol r = "="%string.
Proof.
  exists (@Build_TrendResult binary64
            (S754_finite false 8421731303182828 (-48))
            (S754_finite false 8912201450101146 (-43))
            132 (S754_zero false) (S754_zero false)
            0 "Steady" "Steady then Steady" "=" "inHg" "inHg").
  split; [run_call|]. repeat split.
Qed.

(** 30.00, 30.05, 29.90 inHg: Rising, then Falling by more, so Falling over
    the first two hours. *)
Example scenario_disagreement :
  calculate_pressure_trend Sample.inhg_now Sample.inhg_past "inHg"
    = Ok Sample.inhg_result
  /\ @determine_trend binary64 (lit 3000 2) (lit 3005 2) default_threshold
     = "Rising"%string
  /\ @determine_trend binary64 (lit 3005 2) (lit 2990 2) default_threshold
     = "Falling"%string
  /\ tendency_description Sample.inhg_result = "Falling then Rising"%string.
Proof. repeat split; run_call. Qed.

(** A rise of 0.003 inHg, 0.1 mb, over three hours: below the threshold of
    the classifier, and Rising all the same for the overall trend. *)
Example overall_trend_has_no_threshold :
  exists r : TrendResult binary64,
    calculate_pressure_trend (lit 29923 3)
      [lit 2992 2; lit 2992 2; lit 2992 2] "inHg" = Ok r
    /\ overall_trend r = "Rising"%string
    /\ trend_value r = 1%Z
    /\ @determine_trend binary64 (lit 2992 2) (lit 29923 3) default_threshold
       = "Steady"%string.
Proof.
  match goal with
  | |- exists r, ?c = _ /\ _ =>
      let v := eval vm_compute in c in
      match v with
      | Ok ?r0 => exists r0; split; [change (v = Ok r0); reflexivity|]
      end
  end.
  split; [reflexivity|]. split; [reflexivity|]. run_call.
Qed.

(** * More on a call: exceptions, finite results, signs *)

(** ** What a returned record holds *)

Section Finite.

Local Open Scope Z_scope.

Lemma round1_finite_result (x : spec_float) :
  B64.is_finite (B64.round1 x) = true ->
  finite_result (signbit x) (B64.round1 x).
Proof.
  intros H. pose proof (round1_finite_inv x H) as Hx.
  destruct (round1_binary64_error x Hx) as [E|[F _]]; [|exact F].
  rewrite E in H. discriminate.
Qed.

(** A quotient of a float of the format by 10 or by [INHG_TO_MB] does not
    overflow. *)
Lemma SFdiv_small_constant (x : spec_float) (s : bool) (m : positive) (e : Z) :
  B64.is_finite x = true -> log2_up x <= 1024 ->
  2 <= log2_up (S754_finite s m e) ->
  finite_result (xorb (signbit x) s)
    (SFdiv B64.prec B64.emax x (S754_finite s m e)).
Proof.
  intros Hx HL Hc.
  pose proof (@SFdiv_error x s m e Hx) as H. cbv zeta in H.
  destruct H as [[_ H]|[F _]]; [lia | exact F].
Qed.

Lemma SFsub_finite_inv (x y : spec_float) :
  B64.is_finite (SFsub B64.prec B64.emax x y) = true ->
  B64.is_finite x = true /\ B64.is_finite y = true.
Proof.
  destruct x as [sx|[|]| |sx mx ex], y as [sy|[|]| |sy my ey]; cbn;
    intros H; try discriminate; split; reflexivity.
Qed.

End Finite.

(** X2. When a call returns on binary64, the four floats of the record
    (the current pressure as displayed and in mb, the change as displayed
    and in mb) are finite, and so were the current reading and the reading
    of three hours ago. *)
Theorem returned_floats_are_finite (cur : @num binary64)
    (past : list (@num binary64)) (u : string) (r : TrendResult binary64) :
  calculate_pressure_trend cur past u = Ok r ->
  B64.is_finite (current_pressure_display r) = true
  /\ B64.is_finite (current_pressure_mb r) = true
  /\ B64.is_finite (pressure_change_display r) = true
  /\ B64.is_finite (pressure_change_mb r) = true
  /\ B64.is_finite cur = true
  /\ exists p_3h, nth_error past 2 = Some p_3h /\ B64.is_finite p_3h = true.
Proof.
  intros H. apply calculate_pressure_trend_Ok in H.
  destruct H as (p1 & p2 & p3 & _ & _ & H3 & tm & H).
  destruct H as (Htv & Htm & _ & Hm & Hc & _ & Hd & _).
  rewrite lit_10 in Htv, Htm.
  apply to_int_abs_mul_finite in Htv. apply to_int_mul_finite in Htm.
  set (ci := fst (to_inhg cur past u)) in *.
  set (rounded := (round1 (ci * INHG_TO_MB))%num) in *.
  set (change := (round1 (ci * INHG_TO_MB - p3 * INHG_TO_MB))%num) in *.
  assert (Hmb : B64.is_finite (ci * INHG_TO_MB)%num = true)
    by (apply round1_finite_inv; exact Htm).
  assert (Hci : B64.is_finite ci = true).
  { rewrite INHG_TO_MB_binary64 in Hmb. cbn [mul binary64] in Hmb.
    exact (SFmul_finite_inv _ _ _ _ Hmb). }
  assert (Hsub : B64.is_finite (p3 * INHG_TO_MB)%num = true).
  { apply round1_finite_inv in Htv. cbn [sub binary64] in Htv.
    apply SFsub_finite_inv in Htv. exact (proj2 Htv). }
  assert (Hp3 : B64.is_finite p3 = true).
  { rewrite INHG_TO_MB_binary64 in Hsub. cbn [mul binary64] in Hsub.
    exact (SFmul_finite_inv _ _ _ _ Hsub). }
  assert (Hdiv : forall x s m e, B64.is_finite (B64.round1 x) = true ->
            (2 <= log2_up (S754_finite s m e))%Z ->
            B64.is_finite (SFdiv B64.prec B64.emax (B64.round1 x)
                             (S754_finite s m e)) = true).
  { intros x s m e Hx Hy. apply round1_finite_result in Hx.
    destruct Hx as (Hf & _ & HL).
    exact (proj1 (@SFdiv_small_constant _ s m e Hf HL Hy)). }
  assert (Hdisp : B64.is_finite (current_pressure_display r) = true
                  /\ B64.is_finite (pressure_change_display r) = true).
  { assert (E1 := f_equal (fun t => fst (fst t)) Hd).
    assert (E2 := f_equal (fun t => snd (fst t)) Hd).
    cbn [fst snd] in E1, E2. rewrite E1, E2. clear E1 E2 Hd.
    unfold to_display.
    destruct (String.eqb u "hPa"); [cbn [fst snd]; auto|].
    destruct (String.eqb u "kPa").
    { cbn [fst snd]. rewrite lit_10. cbn [div binary64].
      split; apply Hdiv; try assumption; cbn; lia. }
    destruct (String.eqb u "custom"); [cbn [fst snd]; auto|].
    cbn [fst snd]. split; [exact Hci|].
    rewrite INHG_TO_MB_binary64. cbn [div binary64].
    apply Hdiv; [exact Htv | cbn; lia]. }
  destruct Hdisp as [Hd1 Hd2].
  rewrite Hm, Hc. repeat (split; [assumption|]).
  assert (Hmul : forall x c : spec_float,
            c = @HPA_TO_INHG binary64 \/ c = @KPA_TO_INHG binary64 ->
            B64.is_finite (@mul binary64 x c) = true ->
            B64.is_finite x = true).
  { intros x c [->| ->]; [rewrite HPA_TO_INHG_binary64
                         |rewrite KPA_TO_INHG_binary64];
      cbn [mul binary64]; apply SFmul_finite_inv. }
  subst ci. unfold to_inhg in *.
  destruct (String.eqb u "hPa");
    [|destruct (String.eqb u "kPa"); [|destruct (String.eqb u "custom")]];
    cbn [fst snd] in *.
  - split; [exact (Hmul _ _ (or_introl eq_refl) Hci)|].
    rewrite nth_error_map in H3.
    destruct (nth_error past 2) as [q|]; [|discriminate].
    injection H3 as <-. exists q. split; [reflexivity|].
    exact (Hmul _ _ (or_introl eq_refl) Hp3).
  - split; [exact (Hmul _ _ (or_intror eq_refl) Hci)|].
    rewrite nth_error_map in H3.
    destruct (nth_error past 2) as [q|]; [|discriminate].
    injection H3 as <-. exists q. split; [reflexivity|].
    exact (Hmul _ _ (or_intror eq_refl) Hp3).
  - split; [exact Hci|].
    rewrite nth_error_map in H3.
    destruct (nth_error past 2) as [q|]; [|discriminate].
    injection H3 as <-. exists q. split; [reflexivity|].
    exact (Hmul _ _ (or_introl eq_refl) Hp3).
  - split; [exact Hci|]. exists p3. split; assumption.
Qed.

Lemma returned_floats_are_finite_witness :
  B64.is_finite (current_pressure_display Sample.hpa_result) = true
  /\ B64.is_finite (current_pressure_mb Sample.hpa_result) = true
  /\ B64.is_finite (pressure_change_display Sample.hpa_result) = true
  /\ B64.is_finite (pressure_change_mb Sample.hpa_result) = true
  /\ B64.is_finite Sample.hpa_now = true
  /\ exists p_3h, nth_error Sample.hpa_past 2 = Some p_3h
                  /\ B64.is_finite p_3h = true.
Proof.
  assert (H : calculate_pressure_trend Sample.hpa_now Sample.hpa_past "hPa"
              = Ok Sample.hpa_result) by run_call.
  exact (@returned_floats_are_finite Sample.hpa_now Sample.hpa_past "hPa"
           Sample.hpa_result H).
Defined.

Section Magnitudes.

Local Open Scope Q_scope.

(** A finite float whose value is below [2^L] is of order [L] at most. *)
Lemma moderate_of_value (L : Z) (x : spec_float) :
  (-1074 <= L)%Z -> B64.is_finite x = true ->
  Qabs (B64.value x) < 2 ^ L -> moderate L x.
Proof.
  intros HL Hx Hv. split; [exact Hx|].
  destruct x as [s|s| |s m e]; try discriminate; cbn [log2_up]; [exact HL|].
  rewrite value_abs in Hv. cbn [mag] in Hv.
  destruct (@Zdigits2_bounds (Z.pos m) ltac:(lia)) as [Hd [Hlo _]].
  set (d := Zdigits2 (Z.pos m)) in *.
  assert (H : 2 ^ (d - 1 + e) < 2 ^ L).
  { eapply Qle_lt_trans; [|exact Hv].
    rewrite two_pow_add, <- inject_Z_two_pow by lia.
    apply Qmult_le_compat_r; [|apply Qlt_le_weak, two_pow_pos].
    rewrite <- Zle_Qle. exact Hlo. }
  apply Qpower_lt_compat_l_inv in H; [lia | reflexivity].
Qed.

Lemma ten_pow_300 : inject_Z (10 ^ 300) < 2 ^ 1000.
Proof.
  rewrite <- inject_Z_two_pow by lia. rewrite <- Zlt_Qlt.
  vm_compute. reflexivity.
Qed.

End Magnitudes.

(** X3. On binary64, a call returns a record, and raises nothing, whenever
    the history has a third reading and the current reading and the reading
    of three hours ago are finite and of magnitude 10^300 at most: whatever
    the unit selector and the two other readings, which may be NaN or
    infinite. *)
Theorem readings_up_to_1e300_return (cur : @num binary64)
    (past : list (@num binary64)) (u : string) (p_3h : @num binary64) :
  nth_error past 2 = Some p_3h ->
  B64.is_finite cur = true -> B64.is_finite p_3h = true ->
  (Qabs (B64.value cur) <= inject_Z (10 ^ 300))%Q ->
  (Qabs (B64.value p_3h) <= inject_Z (10 ^ 300))%Q ->
  exists r : TrendResult binary64, calculate_pressure_trend cur past u = Ok r.
Proof.
  intros Hn Fc Fp Bc Bp.
  apply (@calculate_pressure_trend_returns cur past u p_3h Hn);
    apply moderate_of_value; try assumption; try lia;
    (eapply Qle_lt_trans; [eassumption | exact ten_pow_300]).
Qed.

Lemma readings_up_to_1e300_return_witness :
  exists r : TrendResult binary64,
    calculate_pressure_trend (@lit binary64 1 300) Sample.hpa_past "kPa"
    = Ok r.
Proof.
  apply (@readings_up_to_1e300_return (@lit binary64 1 300) Sample.hpa_past
           "kPa" (lit 10090 1));
    [reflexivity | run_call | run_call
     | vm_compute; intros H; discriminate H
     | vm_compute; intros H; discriminate H].
Defined.

(** ** The unit selector *)

(** X4. The unit selector does nothing but convert the readings.  In any
    arithmetic, a call and the call on its converted readings with the
    selector inHg raise the same exception, or both return, with the same
    pressure and change in mb, station model pressure, trend value, overall
    trend, description and symbol. *)
Theorem unit_only_converts (N : PyNum) (cur : num) (past : list num)
    (u : string) :
  let cur_inhg := fst (to_inhg cur past u) in
  let past_inhg := snd (to_inhg cur past u) in
  match calculate_pressure_trend cur past u,
        calculate_pressure_trend cur_inhg past_inhg "inHg" with
  | Ok r, Ok r' =>
      current_pressure_mb r = current_pressure_mb r'
      /\ station_model_pressure r = station_model_pressure r'
      /\ pressure_change_mb r = pressure_change_mb r'
      /\ trend_value r = trend_value r'
      /\ overall_trend r = overall_trend r'
      /\ tendency_description r = tendency_description r'
      /\ tendency_symbol r = tendency_symbol r'
  | Raise e, Raise e' => e = e'
  | _, _ => False
  end.
Proof.
  cbv zeta. unfold calculate_pressure_trend.
  destruct (to_inhg cur past u) as [ci pi]. cbn [fst snd].
  change (to_inhg ci pi "inHg") with (ci, pi).
  cbv beta iota.
  destruct (index pi 0) as [p1|]; [|cbn [bind]; reflexivity].
  destruct (index pi 1) as [p2|]; [|cbn [bind]; reflexivity].
  destruct (index pi 2) as [p3|]; [|cbn [bind]; reflexivity].
  cbn [bind].
  destruct (to_int _) as [tv|]; [|cbn [bind]; reflexivity].
  cbn [bind].
  destruct (to_int _) as [tm|]; [|cbn [bind]; reflexivity].
  cbn [bind].
  destruct (to_display u _ _ _) as [[dc dp] ul].
  destruct (to_display "inHg" _ _ _) as [[dc' dp'] ul'].
  cbn. repeat split.
Qed.

(** ** The displayed change *)

Section DisplayedChange.

Local Open Scope Q_scope.

(** A value rounded to one decimal is a zero or at least 0.09 in
    magnitude. *)
Lemma round1_zero_or_tenth (x : spec_float) :
  B64.is_finite (B64.round1 x) = true ->
  (exists s, B64.round1 x = S754_zero s) \/ (9 # 100) <= mag (B64.round1 x).
Proof.
  destruct x as [s|s| |s m e]; cbn [B64.round1]; intros H;
    try discriminate; [left; now exists s|].
  destruct (B64.tenths m e) as [|n|n]; try (left; now exists s).
  right. unfold B64.of_ratio in *.
  pose proof (@SFdiv_error (S754_finite s n 0) false 10 0 eq_refl) as E.
  cbv zeta in E. destruct E as [[E _]|[_ E]];
    [rewrite E in H; discriminate|].
  set (r := SFdiv B64.prec B64.emax (S754_finite s n 0)
              (S754_finite false 10 0)) in *.
  assert (Ev : mag (S754_finite s n 0) / mag (S754_finite false 10 0)
               == inject_Z (Z.pos n) / 10).
  { cbn [mag]. change (2 ^ 0) with 1. change (inject_Z 10) with 10. field. }
  rewrite Ev in E.
  assert (Hn : 1 <= inject_Z (Z.pos n))
    by (change 1 with (inject_Z 1); rewrite <- Zle_Qle; lia).
  apply Qabs_Qle_condition in E. destruct E as [Elo _].
  pose proof eta_small as He. unfold eps in *.
  set (t := inject_Z (Z.pos n)) in *.
  set (v := t / 10) in *.
  assert (Hv : 10 * v == t) by (unfold v; field).
  set (h := eta) in *. clearbody h v t. lra.
Qed.

(** The quotient of such a value by a constant between 4 and 64 keeps its
    sign and is a zero only if the value is. *)
Lemma SFdiv_keeps_sign (x : spec_float) (m : positive) (e : Z) :
  B64.is_finite x = true -> (log2_up x <= 1024)%Z ->
  (exists s, x = S754_zero s) \/ (9 # 100) <= mag x ->
  (2 <= log2_up (S754_finite false m e))%Z ->
  mag (S754_finite false m e) <= 64 ->
  let r := SFdiv B64.prec B64.emax x (S754_finite false m e) in
  signbit r = signbit x /\ (mag r == 0 <-> mag x == 0).
Proof.
  intros Hx HL Hz Hy Hc r.
  destruct Hz as [[s ->]|Hz].
  { subst r. cbn [SFdiv signbit mag]. rewrite xorb_false_r.
    split; [reflexivity | split; reflexivity]. }
  pose proof (@SFdiv_error x false m e Hx) as E. cbv zeta in E.
  fold r in E. rewrite xorb_false_r in E.
  destruct E as [[_ E]|[(_ & Hs & _) E]]; [lia|].
  split; [exact Hs|].
  pose proof (mag_finite_pos false m e) as Hp.
  set (c := mag (S754_finite false m e)) in *.
  apply Qabs_Qle_condition in E. destruct E as [Elo _].
  pose proof eta_small as He. pose proof eta_pos as He0. unfold eps in *.
  set (v := mag x / c) in *.
  assert (Hv : v * c == mag x) by (unfold v; field; lra).
  assert (Hv0 : (9 # 6400) <= v).
  { assert (0 < v).
    { unfold v. apply Qlt_shift_div_l; lra. }
    nra. }
  set (h := eta) in *. set (a := mag x) in *. set (b := mag r) in *.
  clearbody h v a b c.
  split; intros E0; exfalso; lra.
Qed.

Lemma value_sign (x : spec_float) :
  (0 < B64.value x <-> signbit x = false /\ 0 < mag x)
  /\ (B64.value x < 0 <-> signbit x = true /\ 0 < mag x).
Proof.
  pose proof (value_mag x) as E. pose proof (mag_nonneg x) as H.
  destruct (signbit x); rewrite E; split; split;
    try (intros [H1 H2]; try discriminate; lra);
    intros H1; (split; [reflexivity|lra]) || (exfalso; lra).
Qed.

End DisplayedChange.

(** X5. In a record returned on binary64, the change as displayed has
    the sign of the change in mb: it is positive exactly when the change in
    mb is, and negative exactly when the change in mb is. *)
Theorem displayed_change_keeps_sign (cur : @num binary64)
    (past : list (@num binary64)) (u : string) (r : TrendResult binary64) :
  calculate_pressure_trend cur past u = Ok r ->
  ((0 < B64.value (pressure_change_display r))%Q
   <-> (0 < B64.value (pressure_change_mb r))%Q)
  /\ ((B64.value (pressure_change_display r) < 0)%Q
      <-> (B64.value (pressure_change_mb r) < 0)%Q).
Proof.
  intros H. apply calculate_pressure_trend_Ok in H.
  destruct H as (p1 & p2 & p3 & _ & _ & _ & tm & H).
  destruct H as (Htv & _ & _ & _ & Hc & _ & Hd & _).
  rewrite lit_10 in Htv. apply to_int_abs_mul_finite in Htv.
  set (ci := fst (to_inhg cur past u)) in *.
  set (z := (ci * INHG_TO_MB - p3 * INHG_TO_MB)%num) in *.
  assert (E2 := f_equal (fun t => snd (fst t)) Hd).
  cbn [fst snd] in E2. rewrite E2, Hc. clear E2 Hd Hc.
  assert (Hdiv : forall m e,
            (2 <= log2_up (S754_finite false m e))%Z ->
            (mag (S754_finite false m e) <= 64)%Q ->
            let q := SFdiv B64.prec B64.emax (B64.round1 z)
                       (S754_finite false m e) in
            ((0 < B64.value q)%Q <-> (0 < B64.value (B64.round1 z))%Q)
            /\ ((B64.value q < 0)%Q <-> (B64.value (B64.round1 z) < 0)%Q)).
  { intros m e Hy Hb q.
    pose proof (round1_finite_result z Htv) as (Hf & _ & HL).
    destruct (@SFdiv_keeps_sign (B64.round1 z) m e Hf HL
                (round1_zero_or_tenth z Htv) Hy Hb) as [Hs Hz].
    fold q in Hs, Hz.
    pose proof (value_sign q) as [Hq1 Hq2].
    pose proof (value_sign (B64.round1 z)) as [Hr1 Hr2].
    pose proof (mag_nonneg q) as Hq0.
    pose proof (mag_nonneg (B64.round1 z)) as Hr0.
    rewrite Hq1, Hq2, Hr1, Hr2, Hs.
    assert (Hpos : (0 < mag q <-> 0 < mag (B64.round1 z))%Q).
    { split; intros Hp.
      - destruct (Qlt_le_dec 0 (mag (B64.round1 z))) as [L|G]; [exact L|].
        exfalso. assert (E : (mag (B64.round1 z) == 0)%Q) by lra.
        apply Hz in E. lra.
      - destruct (Qlt_le_dec 0 (mag q)) as [L|G]; [exact L|].
        exfalso. assert (E : (mag q == 0)%Q) by lra.
        apply Hz in E. lra. }
    rewrite Hpos. split; reflexivity. }
  unfold to_display.
  destruct (String.eqb u "hPa"); [cbn [fst snd]; split; reflexivity|].
  destruct (String.eqb u "kPa").
  { cbn [fst snd]. rewrite lit_10. cbn [div binary64 round1].
    apply Hdiv; [cbn; lia | vm_compute; discriminate]. }
  destruct (String.eqb u "custom"); [cbn [fst snd]; split; reflexivity|].
  cbn [fst snd]. rewrite INHG_TO_MB_binary64. cbn [div binary64 round1].
  apply Hdiv; [cbn; lia | vm_compute; discriminate].
Qed.

Lemma displayed_change_keeps_sign_witness :
  (B64.value (pressure_change_display Sample.inhg_result) < 0)%Q
  <-> (B64.value (pressure_change_mb Sample.inhg_result) < 0)%Q.
Proof.
  assert (H : calculate_pressure_trend Sample.inhg_now Sample.inhg_past "inHg"
              = Ok Sample.inhg_result) by run_call.
  exact (proj2 (@displayed_change_keeps_sign Sample.inhg_now Sample.inhg_past
                  "inHg" Sample.inhg_result H)).
Defined.

(** ** Readings that are not numbers *)

Section NotANumber.

Local Open Scope string_scope.

(** A comparison with a NaN is false, so a NaN on either side classifies as
    Steady. *)
Lemma determine_trend_nan (p t : spec_float) :
  @determine_trend binary64 S754_nan p t = "Steady"
  /\ @determine_trend binary64 p S754_nan t = "Steady".
Proof.
  unfold determine_trend. cbn [sub gt lt neg binary64].
  split; destruct p as [s|s| |s m e]; destruct t as [s'|s'| |s' m' e'];
    reflexivity.
Qed.

End NotANumber.

(** X6. When the reading of two hours ago is NaN and the call returns,
    the first period is Steady, whatever the readings of one and three
    hours ago: the description is Steady followed by the trend of the last
    hour, with the symbol of that pair. *)
Theorem nan_two_hours_ago_reads_steady (cur p_1h p_3h : @num binary64)
    (u : string) (r : TrendResult binary64) :
  calculate_pressure_trend cur [p_1h; S754_nan; p_3h] u = Ok r ->
  exists second : string,
    tendency_description r = ("Steady then " ++ second)%string
    /\ (second = "Rising" \/ second = "Falling" \/ second = "Steady")%string
    /\ tendency_symbol r = tendency_symbol_of "Steady" second.
Proof.
  intros H. apply calculate_pressure_trend_Ok in H.
  destruct H as (p1 & p2 & p3 & H1 & H2 & H3 & tm & H).
  destruct H as (_ & _ & _ & _ & _ & _ & _ & Hd & Hs & _).
  assert (E2 : p2 = S754_nan).
  { revert H2. unfold to_inhg.
    destruct (String.eqb u "hPa"); [|destruct (String.eqb u "kPa");
      [|destruct (String.eqb u "custom")]];
      cbn [snd map nth_error]; intros E; injection E as <-; reflexivity. }
  subst p2.
  rewrite (proj2 (determine_trend_nan p3 _)) in Hd, Hs.
  rewrite (proj1 (determine_trend_nan p1 _)) in Hd, Hs.
  change (first_period_trend_of "Steady" "Steady" p3 p1) with "Steady"%string
    in Hd, Hs.
  eexists. split; [exact Hd|]. split; [apply determine_trend_range|exact Hs].
Qed.

Lemma nan_two_hours_ago_reads_steady_witness :
  exists second : string,
    tendency_description Readings.nan_gap_result
    = ("Steady then " ++ second)%string.
Proof.
  assert (H : calculate_pressure_trend Sample.inhg_now Readings.nan_gap_past
                "inHg"
              = Ok Readings.nan_gap_result) by run_call.
  destruct (@nan_two_hours_ago_reads_steady Sample.inhg_now (lit 2990 2)
              (lit 3000 2) "inHg" _ H) as (second & Hd & _).
  exists second. exact Hd.
Defined.

(** ** The description and the symbol *)

(** X7. Two returned records have the same tendency symbol exactly when
    they have the same tendency description, in any arithmetic. *)
Theorem symbol_tells_description (N : PyNum) (cur1 cur2 : num)
    (past1 past2 : list num) (u1 u2 : string) (r1 r2 : TrendResult N) :
  calculate_pressure_trend cur1 past1 u1 = Ok r1 ->
  calculate_pressure_trend cur2 past2 u2 = Ok r2 ->
  tendency_symbol r1 = tendency_symbol r2
  <-> tendency_description r1 = tendency_description r2.
Proof.
  intros H1 H2.
  apply calculate_pressure_trend_Ok in H1, H2.
  destruct H1 as (p1 & p2 & p3 & _ & _ & _ & tm & H1).
  destruct H1 as (_ & _ & _ & _ & _ & _ & _ & Hd1 & Hs1 & _).
  destruct H2 as (q1 & q2 & q3 & _ & _ & _ & tm' & H2).
  destruct H2 as (_ & _ & _ & _ & _ & _ & _ & Hd2 & Hs2 & _).
  rewrite Hd1, Hs1, Hd2, Hs2.
  pose proof (first_period_trend_of_range p3 p1
                (determine_trend_range p3 p2 default_threshold)
                (determine_trend_range p2 p1 default_threshold)) as Ha.
  pose proof (determine_trend_range p1 (fst (to_inhg cur1 past1 u1))
                default_threshold) as Hb.
  pose proof (first_period_trend_of_range q3 q1
                (determine_trend_range q3 q2 default_threshold)
                (determine_trend_range q2 q1 default_threshold)) as Hc.
  pose proof (determine_trend_range q1 (fst (to_inhg cur2 past2 u2))
                default_threshold) as Hd.
  cbv zeta in Ha, Hc.
  destruct Ha as [-> | [-> | ->]]; destruct Hb as [-> | [-> | ->]];
    destruct Hc as [-> | [-> | ->]]; destruct Hd as [-> | [-> | ->]];
    cbv; split; intros E; try reflexivity; discriminate E.
Qed.

Lemma symbol_tells_description_witness :
  tendency_symbol Sample.inhg_result = tendency_symbol Sample.hpa_result
  <-> tendency_description Sample.inhg_result
      = tendency_description Sample.hpa_result.
Proof.
  assert (H1 : calculate_pressure_trend Sample.inhg_now Sample.inhg_past
                 "inHg" = Ok Sample.inhg_result) by run_call.
  assert (H2 : calculate_pressure_trend Sample.hpa_now Sample.hpa_past "hPa"
               = Ok Sample.hpa_result) by run_call.
  exact (@symbol_tells_description binary64 Sample.inhg_now Sample.hpa_now
           Sample.inhg_past Sample.hpa_past "inHg" "hPa" Sample.inhg_result
           Sample.hpa_result H1 H2).
Defined.

(** ** The classifier with its readings exchanged *)

Section Exchange.

Local Open Scope Z_scope.

(** Two floats that compare alike with every float: equal, or two zeros. *)
Definition same_number (x y : spec_float) : Prop :=
  forall z, SFcompare x z = SFcompare y z /\ SFcompare z x = SFcompare z y.

Lemma same_number_refl (x : spec_float) : same_number x x.
Proof. intros z. split; reflexivity. Qed.

Lemma same_number_zeros (s s' : bool) :
  same_number (S754_zero s) (S754_zero s').
Proof. intros [sz|sz| |sz mz ez]; split; reflexivity. Qed.

Lemma SFopp_involutive (x : spec_float) : SFopp (SFopp x) = x.
Proof. destruct x as [s|s| |s m e]; cbn; rewrite ?negb_involutive; reflexivity. Qed.

Lemma SFcompare_opp (x y : spec_float) :
  SFcompare (SFopp x) (SFopp y) = SFcompare y x.
Proof.
  destruct x as [[|]|[|]| |[|] mx ex], y as [[|]|[|]| |[|] my ey];
    try reflexivity; cbn [SFopp SFcompare negb];
    rewrite (Z.compare_antisym ex ey);
    destruct (ex ?= ey); cbn [CompOpp]; try reflexivity.
  - rewrite (Pos.compare_cont_antisym my mx Eq). reflexivity.
  - rewrite (Pos.compare_cont_antisym mx my Eq). reflexivity.
Qed.

(** The rounding of a negated integer is the negated rounding. *)
Lemma binary_round_opp (m : positive) (e : Z) :
  binary_round B64.prec B64.emax true m e
  = SFopp (binary_round B64.prec B64.emax false m e).
Proof.
  unfold binary_round.
  destruct (shl_align m e _) as [mz ez].
  unfold binary_round_aux.
  destruct (shr_fexp B64.prec B64.emax (Z.pos mz) ez loc_Exact) as [mrs' e'].
  destruct (shr_fexp B64.prec B64.emax _ e' loc_Exact) as [mrs'' e''].
  destruct (shr_m mrs'') as [|p|p]; try reflexivity.
  destruct (e'' <=? B64.emax - B64.prec); reflexivity.
Qed.

Lemma binary_normalize_opp (z e : Z) :
  same_number (binary_normalize B64.prec B64.emax (- z) e false)
    (SFopp (binary_normalize B64.prec B64.emax z e false)).
Proof.
  destruct z as [|p|p]; cbn [Z.opp binary_normalize SFopp].
  - apply same_number_zeros.
  - rewrite binary_round_opp. apply same_number_refl.
  - rewrite binary_round_opp, SFopp_involutive. apply same_number_refl.
Qed.

(** [b - a] is [-(a - b)], up to the sign of a zero. *)
Lemma SFsub_exchange (a b : spec_float) :
  same_number (SFsub B64.prec B64.emax b a)
    (SFopp (SFsub B64.prec B64.emax a b)).
Proof.
  destruct a as [[|]|[|]| |sa ma ea], b as [[|]|[|]| |sb mb eb];
    cbn [SFsub SFopp negb];
    try apply same_number_refl; try apply same_number_zeros;
    try (rewrite negb_involutive; apply same_number_refl).
  rewrite (Z.min_comm eb ea).
  set (x := cond_Zopp sa (Z.pos (fst (shl_align ma ea (Z.min ea eb))))).
  set (y := cond_Zopp sb (Z.pos (fst (shl_align mb eb (Z.min ea eb))))).
  replace (y - x) with (- (x - y)) by lia.
  apply binary_normalize_opp.
Qed.

(** A difference above a threshold and below its negation: the threshold
    is negative. *)
Lemma above_and_below (t d : spec_float) :
  SFltb t d = true -> SFltb d (SFopp t) = true ->
  SFltb t (S754_zero false) = true.
Proof.
  destruct t as [[|]|[|]| |[|] mt et], d as [[|]|[|]| |[|] md ed];
    unfold SFltb; cbn [SFopp SFcompare negb];
    intros A B; try discriminate; reflexivity.
Qed.

End Exchange.

(** X8. On binary64, with a threshold that is not below zero,
    exchanging the two readings of [determine_trend] exchanges Rising and
    Falling and keeps Steady, for all floats, NaN and infinities
    included. *)
Theorem determine_trend_exchange (p1 p2 t : @num binary64) :
  (t <? lit 0 0)%num = false ->
  (determine_trend p2 p1 t = "Rising"%string
   <-> determine_trend p1 p2 t = "Falling"%string)
  /\ (determine_trend p2 p1 t = "Falling"%string
      <-> determine_trend p1 p2 t = "Rising"%string)
  /\ (determine_trend p2 p1 t = "Steady"%string
      <-> determine_trend p1 p2 t = "Steady"%string).
Proof.
  intros Ht. rewrite lit_0 in Ht. cbn [lt binary64] in Ht.
  unfold determine_trend. cbn [gt lt sub neg binary64].
  set (d := SFsub B64.prec B64.emax p2 p1).
  pose proof (SFsub_exchange p2 p1) as E. fold d in E.
  set (d' := SFsub B64.prec B64.emax p1 p2) in *.
  assert (E1 : SFltb t d' = SFltb d (SFopp t)).
  { unfold SFltb. rewrite (proj2 (E t)).
    rewrite <- (SFopp_involutive t) at 1. rewrite SFcompare_opp.
    reflexivity. }
  assert (E2 : SFltb d' (SFopp t) = SFltb t d).
  { unfold SFltb. rewrite (proj1 (E (SFopp t))), SFcompare_opp.
    reflexivity. }
  rewrite E1, E2.
  pose proof (above_and_below t d) as X.
  destruct (SFltb t d), (SFltb d (SFopp t));
    try (rewrite X in Ht by reflexivity; discriminate Ht);
    repeat split; intros H; try reflexivity; discriminate H.
Qed.

Lemma determine_trend_exchange_witness :
  @determine_trend binary64 (lit 2992 2) (lit 2990 2) default_threshold
  = "Falling"%string
  <-> @determine_trend binary64 (lit 2990 2) (lit 2992 2) default_threshold
      = "Rising"%string.
Proof.
  assert (H : (@default_threshold binary64 <? lit 0 0)%num = false)
    by run_call.
  exact (proj1 (proj2 (@determine_trend_exchange (lit 2990 2) (lit 2992 2)
                         default_threshold H))).
Defined.

(** ** Two small changes in a row *)

Section Drift.

Local Open Scope Z_scope.

(** The second step of the rounding, case by case. *)
Lemma shr_fexp_after_rounding_cases (k1 e' : Z) :
  0 <= k1 ->
  let n2 := fexp64 (Zdigits2 k1 + e') - e' in
  (n2 <= 0 ->
   shr_fexp B64.prec B64.emax k1 e' loc_Exact
   = (shr_record_of_loc k1 loc_Exact, e'))
  /\ (n2 = 1 ->
      exists mrs, shr_fexp B64.prec B64.emax k1 e' loc_Exact = (mrs, e' + 1)
                  /\ shr_m mrs = k1 / 2).
Proof.
  intros Hk n2.
  destruct (@shr_fexp_stands_for k1 e' loc_Exact k1 1
              (@stands_for_exact k1 Hk)) as [HA HB].
  fold n2 in HA, HB. split; [exact HA|].
  intros Hn. destruct (HB ltac:(lia)) as (mrs & E & _ & Hm).
  rewrite Hn in E, Hm. exists mrs. split; [exact E | exact Hm].
Qed.

(** The rounding of an integer [m] at the exponent [e], when bits are cut
    or none is to spare: the exponent of the result is the one of the
    format for [m * 2^e], or the next one with the mantissa [2^52], and the
    result is within half a unit in the last place. *)
Lemma binary_round_aux_exact (s : bool) (m e : Z) :
  0 < m ->
  let n := fexp64 (Zdigits2 m + e) - e in
  0 <= n ->
  exists k ef,
    binary_round_aux B64.prec B64.emax s m e loc_Exact = rounded s k ef
    /\ 0 <= k < 2 ^ 53
    /\ (ef = e + n \/ (ef = e + n + 1 /\ k = 2 ^ 52))
    /\ 2 * Z.abs (k * 2 ^ (ef - e) - m) <= 2 ^ n.
Proof.
  intros Hm n Hpos.
  assert (H : stands_for (shr_record_of_loc m loc_Exact) m 1)
    by (apply stands_for_exact; lia).
  unfold binary_round_aux.
  destruct (@shr_fexp_nonneg m e loc_Exact m 1 H Hpos)
    as (mrs & E & Hs & Hm1).
  fold n in E, Hs, Hm1. rewrite E. cbv beta iota.
  destruct (@round_nearest_even_stands_for mrs m _ Hs) as (Herr & Hk1 & _).
  set (k1 := round_nearest_even (shr_m mrs) (loc_of_shr_record mrs)) in *.
  rewrite Hm1 in Hk1. rewrite Z.mul_1_r in Herr.
  pose proof (@second_shift_is_exact m e k1 ltac:(lia) Hpos Hk1) as H2.
  pose proof (@pow2_pos n Hpos) as Hp.
  assert (Hk1pos : 0 <= k1).
  { assert (0 <= m / 2 ^ n) by (apply Z.div_pos; lia). lia. }
  destruct (@shr_fexp_after_rounding_cases k1 (e + n) Hk1pos) as [HA HB].
  destruct H2 as [[Hn2 Hb]|(Hn2 & Hev & Hb)].
  - rewrite (HA Hn2). cbv beta iota. cbn [shr_record_of_loc shr_m].
    exists k1, (e + n). split; [reflexivity|]. split; [lia|].
    split; [left; reflexivity|].
    replace (e + n - e) with n by lia. exact Herr.
  - destruct (HB Hn2) as (mrs2 & E2 & Hm2). rewrite E2. cbv beta iota.
    rewrite Hm2.
    assert (Hd : Zdigits2 k1 = 54).
    { rewrite fexp64_eq in Hn2. unfold n in Hn2.
      rewrite fexp64_eq in Hn2. lia. }
    assert (Hk1' : 0 < k1).
    { destruct (Z.eq_dec k1 0) as [E0|]; [|lia].
      rewrite E0 in Hd. discriminate Hd. }
    destruct (@Zdigits2_bounds k1 Hk1') as [_ [Hlo _]].
    rewrite Hd in Hlo. change (2 ^ (54 - 1)) with (2 ^ 53) in Hlo.
    assert (Ek : k1 = 2 ^ 53) by lia.
    exists (2 ^ 52), (e + n + 1). rewrite Ek.
    split; [reflexivity|]. split; [rewrite two_pow_53; lia|].
    split; [right; split; reflexivity|].
    replace (e + n + 1 - e) with (1 + n) by lia.
    rewrite Z.pow_add_r by lia.
    replace (2 ^ 52 * (2 ^ 1 * 2 ^ n)) with (2 ^ 53 * 2 ^ n)
      by (change (2 ^ 53) with (2 ^ 52 * 2 ^ 1); ring).
    rewrite <- Ek. exact Herr.
Qed.

(** The same for [binary_round], which first gives the mantissa the bits
    it may lack. *)
Lemma binary_round_exact (s : bool) (m : positive) (e : Z) :
  let e' := fexp64 (Zdigits2 (Z.pos m) + e) in
  let ez := Z.min e e' in
  exists k ef,
    binary_round B64.prec B64.emax s m e = rounded s k ef
    /\ 0 <= k < 2 ^ 53
    /\ (ef = e' \/ (ef = e' + 1 /\ k = 2 ^ 52))
    /\ 2 * Z.abs (k * 2 ^ (ef - ez) - Z.pos m * 2 ^ (e - ez)) <= 2 ^ (e' - ez).
Proof.
  intros e' ez. unfold binary_round.
  fold (fexp64 (Z.pos (digits2_pos m) + e)).
  change (Z.pos (digits2_pos m)) with (Zdigits2 (Z.pos m)). fold e'.
  destruct (shl_align_spec m e e') as [He Hm]. fold ez in He, Hm.
  destruct (shl_align m e e') as [mz ez']. cbn [fst snd] in He, Hm.
  subst ez'.
  assert (Hd : Zdigits2 (Z.pos mz) + ez = Zdigits2 (Z.pos m) + e).
  { rewrite Hm, Zdigits2_scale by lia. lia. }
  destruct (@binary_round_aux_exact s (Z.pos mz) ez ltac:(lia))
    as (k & ef & Er & Hk & Hef & Herr).
  { rewrite Hd. fold e'. lia. }
  rewrite Hd in Hef, Herr. fold e' in Hef, Herr.
  exists k, ef. split; [exact Er|]. split; [exact Hk|].
  split; [destruct Hef as [->|[-> ->]]; [left|right; split]; lia|].
  rewrite <- Hm. exact Herr.
Qed.

(** A float whose exponent is below that of [t], or equal with a mantissa
    that is not above: it is not above [t] and not below [-t]. *)
Lemma SFltb_not_beyond (m0 : positive) (e0 : Z) (s : bool) (p : positive)
    (ef : Z) :
  ef < e0 \/ (ef = e0 /\ Z.pos p <= Z.pos m0) ->
  SFltb (S754_finite false m0 e0) (S754_finite s p ef) = false
  /\ SFltb (S754_finite s p ef) (S754_finite true m0 e0) = false.
Proof.
  intros H. unfold SFltb, SFcompare.
  change (Pos.compare_cont Eq m0 p) with (Pos.compare m0 p).
  change (Pos.compare_cont Eq p m0) with (Pos.compare p m0).
  destruct s.
  - split; [reflexivity|].
    destruct (Z.compare_spec ef e0) as [E|L|G]; try reflexivity; [|lia].
    destruct (Pos.compare_spec p m0) as [E'|L'|G']; try reflexivity. lia.
  - split; [|reflexivity].
    destruct (Z.compare_spec e0 ef) as [E|L|G]; try reflexivity; [|lia].
    destruct (Pos.compare_spec m0 p) as [E'|L'|G']; try reflexivity. lia.
Qed.

Lemma two_pow_le (a b : Z) : a <= b -> (2 ^ a <= 2 ^ b)%Q.
Proof.
  intros H. replace b with (a + (b - a)) by lia.
  rewrite two_pow_add, <- (inject_Z_two_pow (n := b - a)) by lia.
  pose proof (two_pow_pos a) as Ha.
  assert (H1 : (1 <= inject_Z (2 ^ (b - a)))%Q).
  { change 1%Q with (inject_Z 1). rewrite <- Zle_Qle.
    pose proof (@pow2_pos (b - a) ltac:(lia)). lia. }
  rewrite <- (Qmult_1_r (2 ^ a)) at 1.
  apply Qmult_le_l; assumption.
Qed.

(** The threshold of the classifier, 0.01 as a float. *)
Definition hundredth : spec_float := S754_finite false 5764607523034235 (-59).

(** A float of magnitude below the float after [hundredth], whose mantissa
    has its 53 bits when its exponent is above that of [hundredth]. *)
Lemma below_hundredth (s : bool) (p : positive) (ef : Z) :
  (inject_Z (Z.pos p) * 2 ^ ef < inject_Z 5764607523034236 * 2 ^ (-59))%Q ->
  ef <= -59 \/ 2 ^ 52 <= Z.pos p ->
  SFltb hundredth (S754_finite s p ef) = false
  /\ SFltb (S754_finite s p ef) (SFopp hundredth) = false.
Proof.
  intros Hv Hc. apply SFltb_not_beyond.
  assert (He : ef <= -59).
  { destruct Hc as [Hc|Hp]; [exact Hc|].
    destruct (Z_le_gt_dec ef (-59)) as [L|G]; [exact L|]. exfalso.
    assert (H1 : (2 ^ (-58) <= 2 ^ ef)%Q) by (apply two_pow_le; lia).
    assert (H2 : (inject_Z (2 ^ 52) <= inject_Z (Z.pos p))%Q)
      by (rewrite <- Zle_Qle; exact Hp).
    assert (H3 : (inject_Z (2 ^ 52) * 2 ^ (-58)
                  <= inject_Z (Z.pos p) * 2 ^ ef)%Q).
    { apply Qle_trans with (inject_Z (2 ^ 52) * 2 ^ ef)%Q.
      - apply Qmult_le_l; [reflexivity | exact H1].
      - apply Qmult_le_r; [apply two_pow_pos | exact H2]. }
    assert (H4 : (inject_Z 5764607523034236 * 2 ^ (-59)
                  <= inject_Z (2 ^ 52) * 2 ^ (-58))%Q)
      by (vm_compute; intros H; discriminate H).
    apply (Qlt_irrefl (inject_Z (Z.pos p) * 2 ^ ef)).
    eapply Qlt_le_trans; [exact Hv|].
    eapply Qle_trans; [exact H4 | exact H3]. }
  destruct (Z.eq_dec ef (-59)) as [->|Hne]; [right|left; lia].
  split; [reflexivity|].
  apply Qmult_lt_r in Hv; [|apply two_pow_pos].
  rewrite <- Zlt_Qlt in Hv. lia.
Qed.

Lemma inject_Z_scaled (a x y : Z) :
  y <= x -> (inject_Z (a * 2 ^ (x - y)) * 2 ^ y == inject_Z a * 2 ^ x)%Q.
Proof.
  intros H. rewrite inject_Z_mult, inject_Z_two_pow by lia.
  replace x with (x - y + y) at 2 by lia.
  rewrite two_pow_add. ring.
Qed.

(** A float that is not a zero, of magnitude 0.01 at most, is below
    [2^-6]. *)
Lemma digits_of_small (q : positive) (ez : Z) :
  (inject_Z (Z.pos q) * 2 ^ ez <= 1 # 100)%Q ->
  Zdigits2 (Z.pos q) + ez <= -6.
Proof.
  intros Hd.
  destruct (Z_le_gt_dec (Zdigits2 (Z.pos q) + ez) (-6)) as [L|G];
    [exact L|]. exfalso.
  destruct (@Zdigits2_bounds (Z.pos q) ltac:(lia)) as [Hpos [Hlo _]].
  set (d := Zdigits2 (Z.pos q)) in *.
  assert (H1 : (inject_Z (2 ^ (d - 1)) <= inject_Z (Z.pos q))%Q)
    by (rewrite <- Zle_Qle; exact Hlo).
  rewrite inject_Z_two_pow in H1 by lia.
  assert (H2 : (2 ^ (d - 1) * 2 ^ ez <= inject_Z (Z.pos q) * 2 ^ ez)%Q)
    by (apply Qmult_le_r; [apply two_pow_pos | exact H1]).
  rewrite <- two_pow_add in H2.
  assert (H3 : (2 ^ (-6) <= 2 ^ (d - 1 + ez))%Q) by (apply two_pow_le; lia).
  assert (H4 : (1 # 100 < 2 ^ (-6))%Q) by reflexivity.
  apply (Qlt_irrefl (1 # 100)).
  eapply Qlt_le_trans; [exact H4|].
  eapply Qle_trans; [exact H3|]. eapply Qle_trans; [exact H2 | exact Hd].
Qed.

(** The rounding of a number of magnitude 0.01 at most is not above the
    threshold and not below its opposite. *)
Lemma binary_round_small (s : bool) (q : positive) (ez : Z) :
  (inject_Z (Z.pos q) * 2 ^ ez <= 1 # 100)%Q ->
  let r := binary_round B64.prec B64.emax s q ez in
  SFltb hundredth r = false /\ SFltb r (SFopp hundredth) = false.
Proof.
  intros Hd r. pose proof (@digits_of_small q ez Hd) as HD.
  destruct (binary_round_exact s q ez) as (k & ef & Er & Hk & Hef & Herr).
  fold r in Er. rewrite Er.
  set (e' := fexp64 (Zdigits2 (Z.pos q) + ez)) in *.
  assert (He' : e' <= -59) by (unfold e'; rewrite fexp64_eq; lia).
  assert (He'' : -1074 <= e') by (unfold e'; rewrite fexp64_eq; lia).
  set (ez' := Z.min ez e') in *.
  destruct k as [|p|p]; [destruct s; split; reflexivity| |lia].
  assert (Hef' : ef <= 971) by lia.
  unfold rounded.
  replace (ef <=? B64.emax - B64.prec) with true
    by (symmetry; apply Z.leb_le; exact Hef').
  apply below_hundredth;
    [|destruct Hef as [->|[_ ->]]; [left; exact He' | right; reflexivity]].
  assert (H2 : Z.pos p * 2 ^ (ef - ez') + Z.pos p * 2 ^ (ef - ez')
               <= Z.pos q * 2 ^ (ez - ez') + Z.pos q * 2 ^ (ez - ez')
                  + 1 * 2 ^ (e' - ez')) by lia.
  rewrite Zle_Qle, !inject_Z_plus in H2.
  pose proof (two_pow_pos ez') as HE.
  pose proof (@inject_Z_scaled (Z.pos p) ef ez' ltac:(unfold ez'; lia)) as EA.
  pose proof (@inject_Z_scaled (Z.pos q) ez ez' ltac:(unfold ez'; lia)) as EB.
  pose proof (@inject_Z_scaled 1 e' ez' ltac:(unfold ez'; lia)) as EU.
  pose proof (two_pow_le He') as HU.
  assert (HC : ((1 # 100) + 2 ^ (-59) * (1 # 2)
                < inject_Z 5764607523034236 * 2 ^ (-59))%Q)
    by reflexivity.
  set (A := inject_Z (Z.pos p * 2 ^ (ef - ez'))) in *.
  set (B := inject_Z (Z.pos q * 2 ^ (ez - ez'))) in *.
  set (U := inject_Z (1 * 2 ^ (e' - ez'))) in *.
  assert (H3 : ((A + A) * 2 ^ ez' <= (B + B + U) * 2 ^ ez')%Q)
    by (apply Qmult_le_r; [exact HE | exact H2]).
  set (E := (2 ^ ez')%Q) in *.
  set (a := (inject_Z (Z.pos p) * 2 ^ ef)%Q) in *.
  set (b := (inject_Z (Z.pos q) * 2 ^ ez)%Q) in *.
  set (c := (2 ^ e')%Q) in *. set (t := (2 ^ (-59))%Q) in *.
  set (C := (inject_Z 5764607523034236 * t)%Q) in *.
  assert (Ec : (inject_Z 1 * c == c)%Q) by (change (inject_Z 1) with 1%Q; ring).
  rewrite Ec in EU.
  assert (H4 : (A * E + A * E <= B * E + B * E + U * E)%Q).
  { setoid_replace (A * E + A * E)%Q with ((A + A) * E)%Q by ring.
    setoid_replace (B * E + B * E + U * E)%Q with ((B + B + U) * E)%Q
      by ring.
    exact H3. }
  rewrite EA, EB, EU in H4.
  clearbody a b c t C. clear - Hd HU HC H4. lra.
Qed.

Lemma finite_double_small (s s' : bool) (p : positive) (ef : Z) :
  finite_double (S754_finite s p ef) = true ->
  (inject_Z (Z.pos p) * 2 ^ ef <= 1 # 100)%Q ->
  SFltb hundredth (S754_finite s' p ef) = false
  /\ SFltb (S754_finite s' p ef) (SFopp hundredth) = false.
Proof.
  intros Hv Hd. apply below_hundredth.
  - eapply Qle_lt_trans; [exact Hd | reflexivity].
  - unfold finite_double in Hv. cbn [B64.is_finite valid_binary andb] in Hv.
    unfold bounded, canonical_mantissa in Hv.
    apply andb_true_iff in Hv. destruct Hv as [Hc _].
    change ((fexp64 (Zdigits2 (Z.pos p) + ef) =? ef) = true) in Hc.
    apply Z.eqb_eq in Hc.
    rewrite fexp64_eq in Hc.
    destruct (Z_le_gt_dec ef (-59)) as [L|G]; [left; exact L | right].
    destruct (@Zdigits2_bounds (Z.pos p) ltac:(lia)) as [_ [Hlo _]].
    replace (Zdigits2 (Z.pos p)) with 53 in Hlo by lia. exact Hlo.
Qed.

Lemma value_finite (s : bool) (m : positive) (e : Z) :
  (B64.value (S754_finite s m e)
   == inject_Z (cond_Zopp s (Z.pos m)) * 2 ^ e)%Q.
Proof.
  rewrite value_mag. destruct s; cbn [signbit mag cond_Zopp]; [|reflexivity].
  change (inject_Z (- Z.pos m)) with (- inject_Z (Z.pos m))%Q.
  set (P := (2 ^ e)%Q). ring.
Qed.

(** The difference of two floats that are 0.01 apart at most is not above
    the threshold and not below its opposite. *)
Lemma SFsub_small (a b : spec_float) :
  finite_double a = true -> finite_double b = true ->
  (Qabs (B64.value a - B64.value b) <= 1 # 100)%Q ->
  let r := SFsub B64.prec B64.emax a b in
  SFltb hundredth r = false /\ SFltb r (SFopp hundredth) = false.
Proof.
  intros Ha Hb Hd.
  destruct a as [sa|sa| |sa ma ea]; try discriminate Ha;
    destruct b as [sb|sb| |sb mb eb]; try discriminate Hb; cbn [SFsub].
  - destruct sa, sb; split; reflexivity.
  - apply (@finite_double_small sb); [exact Hb|].
    rewrite <- (value_abs (S754_finite sb mb eb)).
    rewrite <- Qabs_opp. eapply Qle_trans; [|exact Hd].
    apply Qle_lteq. right. apply Qabs_wd. cbn [B64.value]. ring.
  - apply (@finite_double_small sa); [exact Ha|].
    rewrite <- (value_abs (S754_finite sa ma ea)).
    eapply Qle_trans; [|exact Hd].
    apply Qle_lteq. right. apply Qabs_wd. cbn [B64.value]. ring.
  - destruct (shl_align_spec ma ea (Z.min ea eb)) as [_ Hma].
    destruct (shl_align_spec mb eb (Z.min ea eb)) as [_ Hmb].
    replace (Z.min ea (Z.min ea eb)) with (Z.min ea eb) in Hma by lia.
    replace (Z.min eb (Z.min ea eb)) with (Z.min ea eb) in Hmb by lia.
    set (ez := Z.min ea eb) in *.
    set (ax := fst (shl_align ma ea ez)) in *.
    set (bx := fst (shl_align mb eb ez)) in *.
    set (z := cond_Zopp sa (Z.pos ax) - cond_Zopp sb (Z.pos bx)).
    assert (Hz : (B64.value (S754_finite sa ma ea)
                  - B64.value (S754_finite sb mb eb)
                  == inject_Z z * 2 ^ ez)%Q).
    { rewrite !value_finite.
      pose proof (@inject_Z_scaled (cond_Zopp sa (Z.pos ma)) ea ez
                    ltac:(unfold ez; lia)) as EA.
      pose proof (@inject_Z_scaled (cond_Zopp sb (Z.pos mb)) eb ez
                    ltac:(unfold ez; lia)) as EB.
      rewrite <- EA, <- EB. unfold z.
      replace (cond_Zopp sa (Z.pos ma) * 2 ^ (ea - ez))
        with (cond_Zopp sa (Z.pos ax)) by (destruct sa; cbn [cond_Zopp]; lia).
      replace (cond_Zopp sb (Z.pos mb) * 2 ^ (eb - ez))
        with (cond_Zopp sb (Z.pos bx)) by (destruct sb; cbn [cond_Zopp]; lia).
      unfold Z.sub. rewrite inject_Z_plus, inject_Z_opp.
      set (P := (2 ^ ez)%Q). ring. }
    rewrite Hz in Hd. clear Hz.
    destruct z as [|q|q]; cbn [binary_normalize].
    + split; reflexivity.
    + apply binary_round_small.
      rewrite <- (Qabs_pos (inject_Z (Z.pos q) * 2 ^ ez)); [exact Hd|].
      apply Qmult_le_0_compat; [discriminate | apply Qlt_le_weak, two_pow_pos].
    + apply binary_round_small.
      rewrite <- (Qabs_pos (inject_Z (Z.pos q) * 2 ^ ez));
        [|apply Qmult_le_0_compat;
          [discriminate | apply Qlt_le_weak, two_pow_pos]].
      rewrite <- Qabs_opp. eapply Qle_trans; [|exact Hd].
      apply Qle_lteq. right. apply Qabs_wd.
      change (inject_Z (Z.neg q)) with (- inject_Z (Z.pos q))%Q. ring.
Qed.

(** Two floats that are 0.01 apart at most classify as Steady. *)
Lemma determine_trend_small_change (a b : spec_float) :
  finite_double a = true -> finite_double b = true ->
  (Qabs (B64.value b - B64.value a) <= 1 # 100)%Q ->
  @determine_trend binary64 a b default_threshold = "Steady"%string.
Proof.
  intros Ha Hb Hd.
  destruct (@SFsub_small b a Hb Ha Hd) as [H1 H2].
  unfold determine_trend. cbn [gt lt sub neg binary64].
  rewrite default_threshold_binary64. fold hundredth.
  rewrite H1, H2. reflexivity.
Qed.

End Drift.

(** X9. On binary64, with readings in inHg that are finite doubles: when
    the stored readings are 0.01 apart at most from three to two hours ago
    and from two hours to one hour ago, the first period is Steady, whatever
    the change over the two hours together, and the description is Steady
    followed by the trend of the last hour, with the symbol of that pair.
    The distance is the exact one between the doubles. *)
Theorem slow_drift_reads_steady (cur p_1h p_2h p_3h : @num binary64)
    (r : TrendResult binary64) :
  calculate_pressure_trend cur [p_1h; p_2h; p_3h] "inHg" = Ok r ->
  finite_double p_1h = true -> finite_double p_2h = true ->
  finite_double p_3h = true ->
  (Qabs (B64.value p_2h - B64.value p_3h) <= 1 # 100)%Q ->
  (Qabs (B64.value p_1h - B64.value p_2h) <= 1 # 100)%Q ->
  exists second : string,
    tendency_description r = ("Steady then " ++ second)%string
    /\ (second = "Rising" \/ second = "Falling" \/ second = "Steady")%string
    /\ tendency_symbol r = tendency_symbol_of "Steady" second.
Proof.
  intros H F1 F2 F3 H32 H21. apply calculate_pressure_trend_Ok in H.
  destruct H as (p1 & p2 & p3 & H1 & H2 & H3 & tm & H).
  destruct H as (_ & _ & _ & _ & _ & _ & _ & Hd & Hs & _).
  change (Some p_1h = Some p1) in H1. change (Some p_2h = Some p2) in H2.
  change (Some p_3h = Some p3) in H3.
  assert (E1 : p1 = p_1h) by congruence.
  assert (E2 : p2 = p_2h) by congruence.
  assert (E3 : p3 = p_3h) by congruence.
  subst p1 p2 p3.
  rewrite (@determine_trend_small_change p_3h p_2h F3 F2 H32) in Hd, Hs.
  rewrite (@determine_trend_small_change p_2h p_1h F2 F1 H21) in Hd, Hs.
  change (@first_period_trend_of binary64 "Steady" "Steady" p_3h p_1h)
    with "Steady"%string in Hd, Hs.
  eexists. split; [exact Hd|]. split; [apply determine_trend_range | exact Hs].
Qed.

Lemma slow_drift_reads_steady_witness :
  @determine_trend binary64 (lit 30 0) (lit 300198 4) default_threshold
  = "Rising"%string
  /\ exists second : string,
       tendency_description Readings.slow_rise_result
       = ("Steady then " ++ second)%string.
Proof.
  split; [run_call|].
  assert (H : calculate_pressure_trend Readings.slow_rise_now
                Readings.slow_rise_past "inHg"
              = Ok Readings.slow_rise_result) by run_call.
  assert (H32 : (Qabs (B64.value (@lit binary64 300099 4)
                       - B64.value (@lit binary64 30 0))
                 <= 1 # 100)%Q)
    by (vm_compute; intros H'; discriminate H').
  assert (H21 : (Qabs (B64.value (@lit binary64 300198 4)
                       - B64.value (@lit binary64 300099 4))
                 <= 1 # 100)%Q)
    by (vm_compute; intros H'; discriminate H').
  destruct (@slow_drift_reads_steady Readings.slow_rise_now (lit 300198 4)
              (lit 300099 4) (lit 30 0) Readings.slow_rise_result H
              ltac:(vm_compute; reflexivity) ltac:(vm_compute; reflexivity)
              ltac:(vm_compute; reflexivity) H32 H21)
    as (second & Hd & _).
  exists second. exact Hd.
Defined.

(** ** Readings that are not finite *)

Section NotFinite.

Local Open Scope string_scope.

(** A reading in inHg: the reading itself, or its product by one of the
    two factors. *)
Definition converted (x y : @num binary64) : Prop :=
  y = x \/ y = @mul binary64 x HPA_TO_INHG \/ y = @mul binary64 x KPA_TO_INHG.

Lemma to_inhg_converted (cur : @num binary64) (past : list (@num binary64))
    (u : string) (p_3h : @num binary64) :
  nth_error past 2 = Some p_3h ->
  converted cur (fst (to_inhg cur past u))
  /\ exists a b q rest,
       snd (to_inhg cur past u) = a :: b :: q :: rest /\ converted p_3h q.
Proof.
  intros Hn.
  destruct past as [|a [|b [|c rest]]]; try discriminate Hn.
  injection Hn as ->. unfold to_inhg, converted.
  destruct (String.eqb u "hPa"); [|destruct (String.eqb u "kPa");
    [|destruct (String.eqb u "custom")]]; cbn [fst snd map];
    (split; [tauto|]); do 4 eexists; (split; [reflexivity|]); tauto.
Qed.

Lemma converted_moderate (x y : @num binary64) :
  converted x y -> moderate 1000 x -> moderate 1000 y.
Proof.
  intros [->|[->| ->]] Hx; [exact Hx| |];
    rewrite ?HPA_TO_INHG_binary64, ?KPA_TO_INHG_binary64;
    cbn [mul binary64];
    (eapply moderate_le;
     [|apply (@SFmul_moderate 1000); [reflexivity|exact Hx|lia]]); lia.
Qed.

Lemma converted_infinity (s : bool) (y : @num binary64) :
  converted (S754_infinity s) y -> y = S754_infinity s.
Proof.
  intros [->|[->| ->]]; [reflexivity| |];
    rewrite ?HPA_TO_INHG_binary64, ?KPA_TO_INHG_binary64; cbn;
    rewrite xorb_false_r; reflexivity.
Qed.

Lemma converted_nan (y : @num binary64) : converted S754_nan y -> y = S754_nan.
Proof. intros [->|[->| ->]]; reflexivity. Qed.

(** What the call does once the readings are in inHg. *)
Lemma calculate_pressure_trend_inhg (cur : @num binary64)
    (past : list (@num binary64)) (u : string) (a b q : @num binary64)
    (rest : list (@num binary64)) (e : PyError) :
  snd (to_inhg cur past u) = a :: b :: q :: rest ->
  to_int (absf (round1 (fst (to_inhg cur past u) * INHG_TO_MB
                        - q * INHG_TO_MB)) * lit 10 0)%num
  = Raise e ->
  calculate_pressure_trend cur past u = Raise e.
Proof.
  intros Hp He. unfold calculate_pressure_trend.
  destruct (to_inhg cur past u) as [ci pi]. cbn [fst snd] in Hp, He.
  subst pi. cbn [index nth_error bind]. rewrite He. reflexivity.
Qed.

(** The change in mb and what [int] makes of it, from the current reading
    and the reading of three hours ago in inHg. *)
Definition tenths_of_change (ci q : @num binary64) : py Z :=
  to_int (absf (round1 (ci * INHG_TO_MB - q * INHG_TO_MB)) * lit 10 0)%num.

Lemma tenths_of_change_nan (x : @num binary64) :
  tenths_of_change S754_nan x = Raise ValueError
  /\ tenths_of_change x S754_nan = Raise ValueError.
Proof.
  split; [reflexivity|]. unfold tenths_of_change.
  cbn [mul sub round1 absf to_int binary64].
  destruct (SFmul B64.prec B64.emax x (@INHG_TO_MB binary64))
    as [s|s| |s m e]; reflexivity.
Qed.

Lemma tenths_of_change_infinity (s : bool) (x : @num binary64) :
  moderate 1000 x ->
  tenths_of_change (S754_infinity s) x = Raise OverflowError
  /\ tenths_of_change x (S754_infinity s) = Raise OverflowError.
Proof.
  intros Hx. pose proof (times_INHG_TO_MB_moderate Hx) as [Hf _].
  unfold tenths_of_change.
  rewrite INHG_TO_MB_binary64 in *. rewrite lit_10.
  cbn [mul sub round1 absf to_int binary64] in *. cbn [SFmul].
  destruct (SFmul B64.prec B64.emax x _) as [sq|sq| |sq mq eq];
    try discriminate Hf; split; reflexivity.
Qed.

End NotFinite.

(** A NaN for the current reading or for the reading of three hours ago
    ends in [ValueError]; an infinity for one of the two, the other being
    of moderate size, in [OverflowError]. *)
Lemma calculate_pressure_trend_not_finite (cur : @num binary64)
    (past : list (@num binary64)) (u : string) (p_3h : @num binary64) :
  nth_error past 2 = Some p_3h ->
  (cur = S754_nan \/ p_3h = S754_nan ->
   calculate_pressure_trend cur past u = Raise ValueError)
  /\ (forall s : bool,
        (cur = S754_infinity s /\ moderate 1000 p_3h)
        \/ (moderate 1000 cur /\ p_3h = S754_infinity s) ->
        calculate_pressure_trend cur past u = Raise OverflowError).
Proof.
  intros Hn.
  destruct (to_inhg_converted cur past u Hn)
    as (Hc & a & b & q & rest & Hq & Hp).
  split.
  - intros H. apply (calculate_pressure_trend_inhg _ _ _ Hq).
    destruct H as [-> | ->].
    + rewrite (converted_nan Hc). exact (proj1 (tenths_of_change_nan q)).
    + rewrite (converted_nan Hp). exact (proj2 (tenths_of_change_nan _)).
  - intros s H. apply (calculate_pressure_trend_inhg _ _ _ Hq).
    destruct H as [[-> Hm] | [Hm ->]].
    + rewrite (converted_infinity Hc).
      exact (proj1 (tenths_of_change_infinity s (converted_moderate Hp Hm))).
    + rewrite (converted_infinity Hp).
      exact (proj2 (tenths_of_change_infinity s (converted_moderate Hc Hm))).
Qed.

Lemma moderate_of_bound (x : spec_float) :
  B64.is_finite x = true ->
  (Qabs (B64.value x) <= inject_Z (10 ^ 300))%Q -> moderate 1000 x.
Proof.
  intros Hf Hb. apply moderate_of_value; [lia | exact Hf |].
  eapply Qle_lt_trans; [exact Hb | exact ten_pow_300].
Qed.

(** X10. On binary64, with a history that has a third reading: the call
    raises [ValueError] when the current reading or the reading of three
    hours ago is NaN; it raises [OverflowError] when one of the two is an
    infinity and the other is finite and of magnitude 10^300 at most. *)
Theorem readings_that_are_not_finite_raise (cur : @num binary64)
    (past : list (@num binary64)) (u : string) (p_3h : @num binary64) :
  nth_error past 2 = Some p_3h ->
  (cur = S754_nan \/ p_3h = S754_nan ->
   calculate_pressure_trend cur past u = Raise ValueError)
  /\ (forall s : bool,
        (cur = S754_infinity s /\ B64.is_finite p_3h = true
         /\ (Qabs (B64.value p_3h) <= inject_Z (10 ^ 300))%Q)
        \/ (p_3h = S754_infinity s /\ B64.is_finite cur = true
            /\ (Qabs (B64.value cur) <= inject_Z (10 ^ 300))%Q) ->
        calculate_pressure_trend cur past u = Raise OverflowError).
Proof.
  intros Hn.
  destruct (calculate_pressure_trend_not_finite cur past u Hn) as [Hv Ho].
  split; [exact Hv|].
  intros s [(E & Hf & Hb) | (E & Hf & Hb)]; apply (Ho s).
  - left. split; [exact E | apply moderate_of_bound; assumption].
  - right. split; [apply moderate_of_bound; assumption | exact E].
Qed.

Lemma readings_that_are_not_finite_raise_witness :
  @calculate_pressure_trend binary64 S754_nan Sample.hpa_past "hPa"
  = Raise ValueError
  /\ @calculate_pressure_trend binary64 (S754_infinity false) Sample.hpa_past
       "hPa"
     = Raise OverflowError.
Proof.
  destruct (@readings_that_are_not_finite_raise S754_nan Sample.hpa_past
              "hPa" (lit 10090 1) eq_refl) as [Hv _].
  destruct (@readings_that_are_not_finite_raise (S754_infinity false)
              Sample.hpa_past "hPa" (lit 10090 1) eq_refl) as [_ Ho].
  split; [apply Hv; left; reflexivity|].
  apply (Ho false). left. split; [reflexivity|]. split; [reflexivity|].
  vm_compute. intros H. discriminate H.
Defined.

(** ** The trend value and the overall trend *)

Section TrendValue.

Local Open Scope Q_scope.

Lemma mag_lit_10 : mag (@lit binary64 10 0) == 10.
Proof. rewrite lit_10. vm_compute. reflexivity. Qed.

(** Ten times a tenth: one at least. *)
Lemma tenth_times_ten (s : bool) (n : positive) (t : Z) :
  let x : @num binary64 := B64.of_ratio s n 10 in
  B64.is_finite x = true ->
  @to_int binary64 (absf x * lit 10 0)%num = Ok t -> (1 <= t)%Z.
Proof.
  intros x Hf Ht.
  destruct (Pos.eq_dec n 1) as [->|Hn].
  { destruct s; vm_compute in Ht; apply Ok_inj in Ht; subst t; lia. }
  assert (Hn2 : 2 <= inject_Z (Z.pos n))
    by (change 2 with (inject_Z 2); rewrite <- Zle_Qle; lia).
  (* the magnitude of the tenth *)
  unfold x, B64.of_ratio in *.
  pose proof (@SFdiv_error (S754_finite s n 0) false 10 0 eq_refl) as E.
  cbv zeta in E. destruct E as [[E _]|[_ E]];
    [rewrite E in Hf; discriminate|].
  set (r := SFdiv B64.prec B64.emax (S754_finite s n 0)
              (S754_finite false 10 0)) in *.
  assert (Ev : mag (S754_finite s n 0) / mag (S754_finite false 10 0)
               == inject_Z (Z.pos n) / 10).
  { cbn [mag]. change (2 ^ 0) with 1. change (inject_Z 10) with 10. field. }
  rewrite Ev in E. apply Qabs_Qle_condition in E. destruct E as [Elo _].
  (* the product *)
  cbn [absf mul to_int binary64] in Ht.
  assert (Ha : B64.is_finite (SFabs r) = true) by (destruct r; auto).
  pose proof (@SFmul_error (SFabs r) (@lit binary64 10 0) Ha eq_refl) as P.
  cbv zeta in P.
  set (p := SFmul B64.prec B64.emax (SFabs r) (@lit binary64 10 0)) in *.
  destruct P as [P|[(Pf & Ps & _) P]]; [rewrite P in Ht; discriminate|].
  assert (Hs : signbit (SFabs r) = false) by (destruct r; reflexivity).
  rewrite Hs in Ps. rewrite lit_10 in Ps. cbn [signbit xorb] in Ps.
  assert (Hm : mag (SFabs r) == mag r) by (destruct r; reflexivity).
  rewrite Hm, mag_lit_10 in P.
  apply Qabs_Qle_condition in P. destruct P as [Plo _].
  assert (Hp : not_negative p).
  { destruct p as [sp|sp| |sp mp ep]; cbn in Ps |- *; try exact I;
      subst sp; exact I. }
  destruct (to_int_not_negative _ Hp Ht) as [_ ->].
  assert (Hv : 1 <= B64.value p).
  { rewrite (value_mag p), Ps.
    pose proof eta_small as He. pose proof eta_pos as He0. unfold eps in *.
    set (tn := inject_Z (Z.pos n)) in *.
    set (v := tn / 10) in *.
    assert (Hv : 10 * v == tn) by (unfold v; field).
    set (h := eta) in *. set (a := mag r) in *. set (b := mag p) in *.
    clearbody h v tn a b. lra. }
  change 1%Z with (Qfloor (inject_Z 1)) at 1.
  apply Qfloor_resp_le. exact Hv.
Qed.

End TrendValue.

(** X11. In a record returned on binary64, the trend value is 0 exactly
    when the overall trend is Steady, and exactly when the change in mb is
    zero. *)
Theorem trend_value_is_zero_iff_steady (cur : @num binary64)
    (past : list (@num binary64)) (u : string) (r : TrendResult binary64) :
  calculate_pressure_trend cur past u = Ok r ->
  (trend_value r = 0%Z <-> overall_trend r = "Steady"%string)
  /\ (trend_value r = 0%Z <-> (B64.value (pressure_change_mb r) == 0)%Q).
Proof.
  intros H. apply calculate_pressure_trend_Ok in H.
  destruct H as (p1 & p2 & p3 & _ & _ & _ & tm & H).
  destruct H as (Htv & _ & _ & _ & Hc & Ho & _).
  rewrite Ho, Hc. clear Ho Hc.
  set (z := (fst (to_inhg cur past u) * INHG_TO_MB - p3 * INHG_TO_MB)%num)
    in *.
  set (t := trend_value r) in *. clearbody t z.
  assert (Hf : B64.is_finite (B64.round1 z) = true).
  { rewrite lit_10 in Htv. exact (to_int_abs_mul_finite _ _ _ Htv). }
  assert (Hform : (exists s, B64.round1 z = S754_zero s)
                  \/ exists s n, B64.round1 z = B64.of_ratio s n 10).
  { destruct z as [s|s| |s m e]; try discriminate Hf;
      [left; now exists s|]. cbn [B64.round1].
    destruct (B64.tenths m e) as [|n|n];
      [left; now exists s | right; now exists s, n | left; now exists s]. }
  cbn [round1 binary64] in *.
  destruct Hform as [[s E]|(s & n & E)].
  - rewrite E in *. rewrite lit_10 in Htv. cbn in Htv.
    apply Ok_inj in Htv. subst t.
    destruct s; split; split; intros _; reflexivity.
  - assert (H1 : (1 <= t)%Z).
    { rewrite E in Hf, Htv. exact (@tenth_times_ten s n t Hf Htv). }
    destruct (B64.round1 z) as [sx|sx| |sx mx ex]; try discriminate Hf.
    + exfalso. rewrite lit_10 in Htv. cbn in Htv. apply Ok_inj in Htv. lia.
    + assert (Hv : ~ (B64.value (S754_finite sx mx ex) == 0)%Q).
      { intros E0. destruct sx.
        - pose proof (value_finite_negative mx ex) as Hn.
          rewrite E0 in Hn. discriminate Hn.
        - pose proof (value_finite_positive mx ex) as Hp.
          rewrite E0 in Hp. discriminate Hp. }
      split; split; intros H0; try lia; exfalso;
        [destruct sx; discriminate H0 | exact (Hv H0)].
Qed.

Lemma trend_value_is_zero_iff_steady_witness :
  (trend_value Sample.drift_hpa_result = 0%Z
   <-> overall_trend Sample.drift_hpa_result = "Steady"%string)
  /\ (trend_value Sample.drift_hpa_result = 0%Z
      <-> (B64.value (pressure_change_mb Sample.drift_hpa_result) == 0)%Q).
Proof.
  assert (H : calculate_pressure_trend Sample.drift_hpa
                [Sample.drift_hpa; Sample.drift_hpa; Sample.drift_hpa] "hPa"
              = Ok Sample.drift_hpa_result) by run_call.
  exact (@trend_value_is_zero_iff_steady Sample.drift_hpa
           [Sample.drift_hpa; Sample.drift_hpa; Sample.drift_hpa] "hPa"
           Sample.drift_hpa_result H).
Defined.

(** * The runs of [main] *)

(** ** Runs of the interactive program *)

Section Runs.

Local Open Scope string_scope.
Local Open Scope io_scope.

Lemma after_nil (A : Type) (r : Run A) : after [] r = r.
Proof. destruct r; reflexivity. Qed.

Lemma after_after (A : Type) (ev1 ev2 : list Event) (r : Run A) :
  after ev1 (after ev2 r) = after (ev1 ++ ev2) r.
Proof. unfold after. cbn. rewrite app_assoc. reflexivity. Qed.

Lemma bind_emit (A : Type) (e : Event) (k : Datatypes.unit -> io A)
    (stdin : list string) :
  io_bind (emit e) k stdin = after [e] (k tt stdin).
Proof. reflexivity. Qed.

Lemma bind_ret (A B : Type) (a : A) (k : A -> io B) (stdin : list string) :
  io_bind (ret a) k stdin = k a stdin.
Proof. unfold io_bind, ret. cbn. apply after_nil. Qed.

Lemma bind_input (A : Type) (prompt : string) (k : string -> io A)
    (line : string) (rest : list string) :
  io_bind (input prompt) k (line :: rest) = after [Prompt prompt] (k line rest).
Proof.
  unfold input, io_bind, emit, read_line, after. cbn. reflexivity.
Qed.

Lemma bind_input_eof (A : Type) (prompt : string) (k : string -> io A) :
  io_bind (input prompt) k []
  = {| events := [Prompt prompt]; result := Raises EOFError; unread := [] |}.
Proof. reflexivity. Qed.

Lemma bind_assoc (A B C : Type) (c : io A) (k : A -> io B) (k' : B -> io C)
    (stdin : list string) :
  io_bind (io_bind c k) k' stdin
  = io_bind c (fun a => io_bind (k a) k') stdin.
Proof.
  unfold io_bind. destruct (c stdin) as [ev [a|e] rest]; cbn; [|reflexivity].
  destruct (k a rest) as [ev' [b|e'] rest']; cbn; [|reflexivity].
  symmetry. apply after_after.
Qed.

(** What a command may do: the exceptions it lets out and the lines it
    reads at least when it returns. *)
Definition behaves (allowed : Exn -> Prop) (n : nat) (A : Type) (c : io A)
    : Prop :=
  forall stdin,
    (List.length (unread (c stdin)) <= List.length stdin)%nat
    /\ match result (c stdin) with
       | Returns _ =>
           (List.length (unread (c stdin)) + n <= List.length stdin)%nat
       | Raises e => allowed e
       end.

Lemma behaves_bind (allowed : Exn -> Prop) (n m : nat) (A B : Type)
    (c : io A) (k : A -> io B) :
  behaves allowed n c -> (forall a, behaves allowed m (k a)) ->
  behaves allowed (n + m) (io_bind c k).
Proof.
  intros Hc Hk stdin. specialize (Hc stdin). unfold io_bind.
  destruct (c stdin) as [ev [a|e] rest]; cbn in *; [|exact Hc].
  specialize (Hk a rest).
  destruct (k a rest) as [ev' [b|e'] rest']; cbn in *; lia || (split; [lia|tauto]).
Qed.

Lemma behaves_bind_returned (allowed : Exn -> Prop) (n m : nat) (A B : Type)
    (c : io A) (k : A -> io B) :
  behaves allowed n c ->
  (forall a, (exists stdin, result (c stdin) = Returns a) ->
             behaves allowed m (k a)) ->
  behaves allowed (n + m) (io_bind c k).
Proof.
  intros Hc Hk stdin. specialize (Hc stdin). unfold io_bind.
  destruct (c stdin) as [ev [a|e] rest] eqn:E; cbn in *; [|exact Hc].
  assert (Ha : exists stdin, result (c stdin) = Returns a)
    by (exists stdin; rewrite E; reflexivity).
  specialize (Hk a Ha rest).
  destruct (k a rest) as [ev' [b|e'] rest']; cbn in *; lia || (split; [lia|tauto]).
Qed.

Lemma behaves_emit (allowed : Exn -> Prop) (e : Event) :
  behaves allowed 0 (emit e).
Proof. intros stdin. cbn. lia. Qed.

Lemma behaves_ret (allowed : Exn -> Prop) (A : Type) (a : A) :
  behaves allowed 0 (ret a).
Proof. intros stdin. cbn. lia. Qed.

Lemma behaves_read_line (allowed : Exn -> Prop) :
  allowed EOFError -> behaves allowed 1 read_line.
Proof. intros H [|line rest]; cbn; [auto | lia]. Qed.

Lemma behaves_lift (allowed : Exn -> Prop) (A : Type) (c : py A) :
  (forall e, c = Raise e -> allowed (Error e)) -> behaves allowed 0 (lift c).
Proof.
  intros H stdin. destruct c as [a|e]; cbn; [lia|].
  split; [lia | apply H; reflexivity].
Qed.

Lemma behaves_try (allowed : Exn -> Prop) (n : nat)
    (body handler : io Datatypes.unit) :
  behaves (fun e => allowed e \/ e = Error ValueError) n body ->
  behaves allowed 0 handler ->
  behaves allowed 0 (try_except_ValueError body handler).
Proof.
  intros Hb Hh stdin. specialize (Hb stdin). unfold try_except_ValueError.
  destruct (body stdin) as [ev [a|e] rest]; cbn in *; [lia|].
  destruct Hb as [Hl Hb].
  specialize (Hh rest).
  destruct e as [|[| |]]; cbn;
    try (split; [lia|]; destruct Hb as [Hb|Hb]; [exact Hb|discriminate Hb]).
  destruct (handler rest) as [ev' [b|e'] rest']; cbn in *; lia || (split; [lia|tauto]).
Qed.

End Runs.

Section Ways.

Local Open Scope string_scope.
Local Open Scope io_scope.

(** One more command of a sequence: [n] lines for it, [m] for what
    follows. *)
Ltac then_ a b :=
  apply behaves_bind with (n := a%nat) (m := b%nat); [|intros ?].

Lemma behaves_input (allowed : Exn -> Prop) (prompt : string) :
  allowed EOFError -> behaves allowed 1 (input prompt).
Proof.
  intros H. unfold input. then_ 0 1; [apply behaves_emit|].
  apply behaves_read_line, H.
Qed.

(** [float] raises nothing but [ValueError]. *)
Lemma of_string_raises (text : string) (e : PyError) :
  Float.of_string text = Raise e -> e = ValueError.
Proof.
  unfold Float.of_string.
  destruct (Float.drop_underscores _ _) as [t|]; [|congruence].
  destruct (Float.sign t) as [s body].
  destruct (Float.number body) as [[m k]|]; [discriminate|].
  destruct (Float.special s body); [discriminate | congruence].
Qed.

Lemma behaves_input_float (allowed : Exn -> Prop) (prompt : string) :
  allowed EOFError -> allowed (Error ValueError) ->
  behaves allowed 1 (input_float prompt).
Proof.
  intros H1 H2. unfold input_float.
  then_ 1 0; [apply behaves_input, H1|].
  apply behaves_lift. intros e E.
  rewrite (of_string_raises _ E). exact H2.
Qed.

Lemma behaves_input_pressures (allowed : Exn -> Prop) (u label : string) :
  allowed EOFError -> allowed (Error ValueError) ->
  behaves allowed 4 (input_pressures u label).
Proof.
  intros H1 H2. unfold input_pressures.
  destruct (String.eqb u "custom");
    (then_ 0 4; [apply behaves_emit|]);
    (then_ 1 3; [apply behaves_input_float; assumption|]);
    (then_ 1 2; [apply behaves_input_float; assumption|]);
    (then_ 1 1; [apply behaves_input_float; assumption|]);
    (then_ 1 0; [apply behaves_input_float; assumption|]);
    apply behaves_ret.
Qed.

(** The readings that [input_pressures] returns are three. *)
Lemma input_pressures_three (u label : string) (stdin : list string)
    (readings : @num binary64 * list (@num binary64)) :
  result (input_pressures u label stdin) = Returns readings ->
  exists a b c, snd readings = [a; b; c].
Proof.
  unfold input_pressures, input_float, print.
  destruct (String.eqb u "custom");
    rewrite bind_emit; cbn [after result];
    repeat (rewrite bind_assoc;
            destruct stdin as [|? stdin];
            [rewrite bind_input_eof; discriminate|];
            rewrite bind_input; cbn [after result];
            destruct (Float.of_string _) as [?|?];
            cbn [lift]; [rewrite bind_ret | discriminate]);
    cbn [ret result]; intros E; injection E as <-;
    now eexists; eexists; eexists.
Qed.

(** The first piece of a split always exists. *)
Lemma split_not_empty (sep : ascii) (s : string) :
  exists w ws, Str.split sep s = w :: ws.
Proof.
  induction s as [|c s IH]; cbn [Str.split]; [now eexists; eexists|].
  destruct (Ascii.eqb c sep); [now eexists; eexists|].
  destruct IH as (w & ws & ->). now eexists; eexists.
Qed.

Lemma unit_word_Ok (r : TrendResult binary64) :
  exists w, unit_word r = Ok w.
Proof.
  unfold unit_word. destruct (split_not_empty " " (unit_label r))
    as (w & ws & ->). now exists w.
Qed.

Lemma behaves_print_results (allowed : Exn -> Prop)
    (r : TrendResult binary64) :
  behaves allowed 0 (print_results r).
Proof.
  unfold print_results. destruct (unit_word_Ok r) as [w ->]. cbn [lift].
  repeat (then_ 0 0; [first [apply behaves_emit | apply behaves_ret]|]).
  apply behaves_emit.
Qed.

(** With three readings the calculator raises [ValueError] or
    [OverflowError], if anything. *)
Lemma calculate_three_raises (cur a b c : @num binary64) (u : string)
    (e : PyError) :
  calculate_pressure_trend cur [a; b; c] u = Raise e ->
  e = ValueError \/ e = OverflowError.
Proof.
  intros H. destruct e; [|now left|now right].
  exfalso. revert H. apply calculate_pressure_trend_no_IndexError.
  exact to_int_binary64_no_IndexError.
Qed.

Lemma behaves_unit_of_choice (allowed : Exn -> Prop) (choice : string) :
  behaves allowed 0 (unit_of_choice choice).
Proof.
  unfold unit_of_choice.
  repeat match goal with
         | |- context [if ?b then _ else _] => destruct b
         end;
    try apply behaves_ret.
Qed.

(** The two ways out of a pass besides its return. *)
Definition way_out (e : Exn) : Prop :=
  e = EOFError \/ e = Error OverflowError.

(** Lines 189-221 *)
Lemma behaves_try_block (u label : string) :
  behaves way_out 0
    (try_except_ValueError
       (readings <- input_pressures u label ;;
        result <- lift (calculate_pressure_trend (fst readings)
                          (snd readings) u) ;;
        print_results result)
       (print (String "010"
                 "Error: Please enter valid numeric values for pressures."))).
Proof.
  apply behaves_try with (n := 4%nat); [|apply behaves_emit].
  apply behaves_bind_returned with (n := 4%nat) (m := 0%nat).
  - apply behaves_input_pressures; [now left; left | now right].
  - intros readings [stdin H].
    destruct (input_pressures_three _ _ _ H) as (a & b & c & E).
    then_ 0 0; [|apply behaves_print_results].
    apply behaves_lift. intros e He. rewrite E in He.
    destruct (calculate_three_raises _ _ _ _ _ He) as [-> | ->];
      [now right | left; now right].
Qed.

Lemma behaves_iteration : behaves way_out 2 iteration.
Proof.
  assert (HE : way_out EOFError) by now left.
  unfold iteration, clear_console, print.
  do 8 (then_ 0 2; [apply behaves_emit|]).
  then_ 1 1; [apply behaves_input, HE|].
  then_ 0 1; [apply behaves_unit_of_choice|].
  then_ 0 1; [apply behaves_try_block|].
  then_ 0 1; [apply behaves_emit|].
  then_ 1 0; [apply behaves_read_line, HE|].
  destruct (negb _); [|apply behaves_ret].
  then_ 0 0; [apply behaves_emit|].
  then_ 0 0; [apply behaves_emit|apply behaves_ret].
Qed.

(** With fuel above the number of lines the loop ends, in one of three
    ways. *)
Lemma main_loop_ends (fuel : nat) (stdin : list string) :
  (List.length stdin < fuel)%nat ->
  exists r : Run Datatypes.unit,
    main_loop fuel stdin = Some r
    /\ (result r = Returns tt \/ result r = Raises EOFError
        \/ result r = Raises (Error OverflowError)).
Proof.
  revert stdin. induction fuel as [|fuel IH]; intros stdin Hf; [lia|].
  cbn [main_loop]. pose proof (behaves_iteration stdin) as [Hl Hb].
  destruct (result (iteration stdin)) as [[|]|e].
  - destruct (IH (unread (iteration stdin)) ltac:(lia)) as (r & -> & Hr).
    cbn [option_map]. eexists. split; [reflexivity|exact Hr].
  - eexists. split; [reflexivity|]. now left.
  - eexists. split; [reflexivity|]. right.
    destruct Hb as [-> | ->]; [now left | now right].
Qed.

End Ways.

(** X12. On every input, [main] ends: it returns, or [EOFError] leaves it
    because the input is over, or [OverflowError] leaves it.  No
    [ValueError] and no [IndexError] leaves [main]. *)
Theorem main_ends (stdin : list string) :
  exists r : Run Datatypes.unit,
    main stdin = Some r
    /\ (result r = Returns tt \/ result r = Raises EOFError
        \/ result r = Raises (Error OverflowError)).
Proof. apply main_loop_ends. lia. Qed.

(** ** One pass of the loop, step by step *)

Section Passes.

Local Open Scope string_scope.
Local Open Scope io_scope.

Lemma bind_run (A B : Type) (c : io A) (k : A -> io B) (stdin rest : list string)
    (ev : list Event) (a : A) :
  c stdin = {| events := ev; result := Returns a; unread := rest |} ->
  io_bind c k stdin = after ev (k a rest).
Proof. intros E. unfold io_bind. rewrite E. reflexivity. Qed.

Lemma bind_raise (A B : Type) (c : io A) (k : A -> io B)
    (stdin rest : list string) (ev : list Event) (e : Exn) :
  c stdin = {| events := ev; result := Raises e; unread := rest |} ->
  io_bind c k stdin = {| events := ev; result := Raises e; unread := rest |}.
Proof. intros E. unfold io_bind. rewrite E. reflexivity. Qed.

Lemma after_run (A : Type) (before ev : list Event) (o : outcome A)
    (rest : list string) :
  after before {| events := ev; result := o; unread := rest |}
  = {| events := before ++ ev; result := o; unread := rest |}.
Proof. reflexivity. Qed.

Lemma unit_of_choice_run (choice : string) (stdin : list string) :
  unit_of_choice choice stdin
  = {| events := notice choice; result := Returns (selection choice);
       unread := stdin |}.
Proof.
  unfold unit_of_choice, notice, selection, is_choice.
  destruct (String.eqb choice "1") eqn:E1.
  { apply String.eqb_eq in E1. subst choice. reflexivity. }
  destruct (String.eqb choice "2"); [reflexivity|].
  destruct (String.eqb choice "3"); [reflexivity|].
  destruct (String.eqb choice "4"); reflexivity.
Qed.

(** Lines 189-221: the request for the readings, the calculation and the
    results, with the handler of [ValueError]. *)
Definition request (u label : string) : io Datatypes.unit :=
  try_except_ValueError
    (readings <- input_pressures u label ;;
     result <- lift (calculate_pressure_trend (fst readings)
                       (snd readings) u) ;;
     print_results result)
    (print (String "010"
              "Error: Please enter valid numeric values for pressures.")).

(** Lines 223-229: the question and its answer. *)
Definition closing : io bool :=
  print (String "010" "Would you like to calculate another trend? (y/n)") ;;
  line <- read_line ;;
  if negb (String.eqb (Str.lower (Str.strip line)) "y") then
    clear_console ;;
    print "Thank you for using the Pressure Trend Calculator!" ;;
    ret false
  else ret true.

Lemma iteration_run (c : string) (rest : list string) :
  iteration (c :: rest)
  = after (menu ++ notice (Str.strip c))
      (io_bind (request (fst (selection (Str.strip c)))
                  (snd (selection (Str.strip c))))
         (fun _ => closing) rest).
Proof.
  unfold iteration, clear_console, print.
  do 8 rewrite bind_emit. rewrite bind_input.
  rewrite (@bind_run _ _ _ _ _ _ _ _
             (unit_of_choice_run (Str.strip c) rest)).
  rewrite !after_after. reflexivity.
Qed.

Lemma closing_run (answer : string) (rest : list string) :
  closing (answer :: rest)
  = if String.eqb (Str.lower (Str.strip answer)) "y" then
      {| events :=
           [Print (String "010"
                     "Would you like to calculate another trend? (y/n)")];
         result := Returns true; unread := rest |}
    else
      {| events :=
           [Print (String "010"
                     "Would you like to calculate another trend? (y/n)");
            System "cls";
            Print "Thank you for using the Pressure Trend Calculator!"];
         result := Returns false; unread := rest |}.
Proof.
  unfold closing, print. rewrite bind_emit.
  unfold io_bind at 1. cbn [read_line result unread events].
  destruct (String.eqb _ "y"); reflexivity.
Qed.

Lemma input_float_run (prompt line : string) (rest : list string) :
  input_float prompt (line :: rest)
  = match Float.of_string line with
    | Ok x => {| events := [Prompt prompt]; result := Returns x;
                 unread := rest |}
    | Raise e => {| events := [Prompt prompt]; result := Raises (Error e);
                    unread := rest |}
    end.
Proof.
  unfold input_float. rewrite bind_input.
  destruct (Float.of_string line); reflexivity.
Qed.

Lemma input_float_Ok (prompt line : string) (rest : list string)
    (x : spec_float) :
  Float.of_string line = Ok x ->
  input_float prompt (line :: rest)
  = {| events := [Prompt prompt]; result := Returns x; unread := rest |}.
Proof. intros E. rewrite input_float_run, E. reflexivity. Qed.

Lemma input_float_Raise (prompt line : string) (rest : list string) :
  (forall x, Float.of_string line <> Ok x) ->
  input_float prompt (line :: rest)
  = {| events := [Prompt prompt]; result := Raises (Error ValueError);
       unread := rest |}.
Proof.
  intros H. rewrite input_float_run.
  destruct (Float.of_string line) as [x|e] eqn:E; [now destruct (H x)|].
  rewrite (of_string_raises _ E). reflexivity.
Qed.

(** Four lines that [float] accepts. *)
Lemma input_pressures_run (u label l0 l1 l2 l3 : string)
    (rest : list string) (x0 x1 x2 x3 : @num binary64) :
  Float.of_string l0 = Ok x0 -> Float.of_string l1 = Ok x1 ->
  Float.of_string l2 = Ok x2 -> Float.of_string l3 = Ok x3 ->
  input_pressures u label (l0 :: l1 :: l2 :: l3 :: rest)
  = {| events := asking u label; result := Returns (x0, [x1; x2; x3]);
       unread := rest |}.
Proof.
  intros E0 E1 E2 E3. unfold input_pressures, asking, print.
  set (rest2 := l3 :: rest). set (rest1 := l2 :: rest2).
  set (rest0 := l1 :: rest1).
  destruct (String.eqb u "custom");
    rewrite bind_emit;
    rewrite (@bind_run _ _ _ _ _ _ _ _ (@input_float_Ok _ _ rest0 _ E0));
    rewrite (@bind_run _ _ _ _ _ _ _ _ (@input_float_Ok _ _ rest1 _ E1));
    rewrite (@bind_run _ _ _ _ _ _ _ _ (@input_float_Ok _ _ rest2 _ E2));
    rewrite (@bind_run _ _ _ _ _ _ _ _ (@input_float_Ok _ _ rest _ E3));
    reflexivity.
Qed.

End Passes.

Section Requests.

Local Open Scope string_scope.
Local Open Scope io_scope.

(** The printing of the results reads nothing and raises nothing. *)
Lemma print_results_run (r : TrendResult binary64) (stdin : list string) :
  print_results r stdin
  = {| events := events (print_results r []); result := Returns tt;
       unread := stdin |}.
Proof.
  unfold print_results, print. destruct (unit_word_Ok r) as [w ->].
  reflexivity.
Qed.

(** The request on four lines that [float] accepts. *)
Lemma request_run (u label l0 l1 l2 l3 : string) (rest : list string)
    (x0 x1 x2 x3 : @num binary64) :
  Float.of_string l0 = Ok x0 -> Float.of_string l1 = Ok x1 ->
  Float.of_string l2 = Ok x2 -> Float.of_string l3 = Ok x3 ->
  request u label (l0 :: l1 :: l2 :: l3 :: rest)
  = match @calculate_pressure_trend binary64 x0 [x1; x2; x3] u with
    | Ok r =>
        {| events := asking u label ++ events (print_results r []);
           result := Returns tt; unread := rest |}
    | Raise ValueError =>
        {| events :=
             asking u label
             ++ [Print (String "010"
                   "Error: Please enter valid numeric values for pressures.")];
           result := Returns tt; unread := rest |}
    | Raise e =>
        {| events := asking u label; result := Raises (Error e);
           unread := rest |}
    end.
Proof.
  intros E0 E1 E2 E3. unfold request, try_except_ValueError.
  rewrite (@bind_run _ _ _ _ _ _ _ _
             (@input_pressures_run u label _ _ _ _ rest _ _ _ _ E0 E1 E2 E3)).
  cbn [fst snd].
  destruct (@calculate_pressure_trend binary64 x0 [x1; x2; x3] u) as [r|e].
  - cbn [lift]. rewrite bind_ret, print_results_run. reflexivity.
  - unfold io_bind, after.
    destruct e; cbn [lift raise result events unread];
      rewrite ?app_nil_r; reflexivity.
Qed.

End Requests.

Section Loop.

Local Open Scope string_scope.
Local Open Scope io_scope.

Lemma main_loop_enough (fuel fuel' : nat) (stdin : list string) :
  (List.length stdin < fuel)%nat -> (List.length stdin < fuel')%nat ->
  main_loop fuel stdin = main_loop fuel' stdin.
Proof.
  revert fuel' stdin. induction fuel as [|fuel IH]; intros fuel' stdin H H';
    [lia|].
  destruct fuel' as [|fuel']; [lia|]. cbn [main_loop].
  pose proof (behaves_iteration stdin) as [Hl Hb].
  destruct (result (iteration stdin)) as [[|]|e]; try reflexivity.
  rewrite (IH fuel') by lia. reflexivity.
Qed.

(** [main], one pass at a time. *)
Lemma main_unfold (stdin : list string) :
  main stdin
  = let r := iteration stdin in
    match result r with
    | Returns true => option_map (after (events r)) (main (unread r))
    | Returns false =>
        Some {| events := events r; result := Returns tt;
                unread := unread r |}
    | Raises e =>
        Some {| events := events r; result := Raises e; unread := unread r |}
    end.
Proof.
  unfold main at 1. cbn [main_loop]. cbv zeta.
  pose proof (behaves_iteration stdin) as [Hl Hb].
  destruct (result (iteration stdin)) as [[|]|e]; try reflexivity.
  unfold main. rewrite (@main_loop_enough (List.length stdin)
                          (S (List.length (unread (iteration stdin)))))
    by lia.
  reflexivity.
Qed.

(** A pass whose request lets an exception out. *)
Lemma pass_raises (c : string) (lines rest : list string) (ev : list Event)
    (e : Exn) :
  request (fst (selection (Str.strip c))) (snd (selection (Str.strip c)))
    lines
  = {| events := ev; result := Raises e; unread := rest |} ->
  iteration (c :: lines)
  = {| events := menu ++ notice (Str.strip c) ++ ev; result := Raises e;
       unread := rest |}.
Proof.
  intros H. rewrite iteration_run, (@bind_raise _ _ _ _ _ _ _ _ H).
  rewrite after_run, <- app_assoc. reflexivity.
Qed.

(** A pass whose request is over, with an answer other than y. *)
Lemma pass_ends (c answer : string) (lines rest : list string)
    (ev : list Event) :
  request (fst (selection (Str.strip c))) (snd (selection (Str.strip c)))
    lines
  = {| events := ev; result := Returns tt; unread := answer :: rest |} ->
  String.eqb (Str.lower (Str.strip answer)) "y" = false ->
  iteration (c :: lines)
  = {| events :=
         menu ++ notice (Str.strip c) ++ ev
         ++ [Print (String "010"
                      "Would you like to calculate another trend? (y/n)");
             System "cls";
             Print "Thank you for using the Pressure Trend Calculator!"];
       result := Returns false; unread := rest |}.
Proof.
  intros H Hy. rewrite iteration_run, (@bind_run _ _ _ _ _ _ _ _ H).
  rewrite closing_run, Hy, !after_run, <- !app_assoc. reflexivity.
Qed.

End Loop.

(** X13. An infinite current reading stops the program.  When the four
    lines after the choice are read by [float] as an infinity and three
    numbers, the last of them finite and of magnitude 10^300 at most,
    [main] shows the menu, the notice of an invalid choice if there is one,
    and the four prompts, then [OverflowError] leaves it: the handler of
    [ValueError] does not catch it, no result and no question is printed,
    and the lines that follow are left unread. *)
Theorem infinite_reading_stops_main (choice l0 l1 l2 l3 : string)
    (rest : list string) (s : bool) (p_1h p_2h p_3h : @num binary64) :
  Float.of_string l0 = Ok (S754_infinity s) ->
  Float.of_string l1 = Ok p_1h -> Float.of_string l2 = Ok p_2h ->
  Float.of_string l3 = Ok p_3h ->
  B64.is_finite p_3h = true ->
  (Qabs (B64.value p_3h) <= inject_Z (10 ^ 300))%Q ->
  let u := fst (selection (Str.strip choice)) in
  let label := snd (selection (Str.strip choice)) in
  main (choice :: l0 :: l1 :: l2 :: l3 :: rest)
  = Some {| events := menu ++ notice (Str.strip choice) ++ asking u label;
            result := Raises (Error OverflowError);
            unread := rest |}.
Proof.
  intros E0 E1 E2 E3 Hf Hb u label.
  assert (Hc : @calculate_pressure_trend binary64 (S754_infinity s)
                 [p_1h; p_2h; p_3h] u = Raise OverflowError).
  { apply (proj2 (@calculate_pressure_trend_not_finite (S754_infinity s)
                    [p_1h; p_2h; p_3h] u p_3h eq_refl) s).
    left. split; [reflexivity | apply moderate_of_bound; assumption]. }
  pose proof (@request_run u label l0 l1 l2 l3 rest _ _ _ _ E0 E1 E2 E3)
    as Hr.
  rewrite Hc in Hr.
  rewrite main_unfold. cbv zeta.
  rewrite (@pass_raises choice _ _ _ _ Hr). reflexivity.
Qed.

Lemma infinite_reading_stops_main_witness :
  main ("2" :: "inf" :: "1012.0" :: "1010.5" :: "1009.0" :: ["y"])%string
  = Some {| events :=
              menu ++ notice "2" ++ asking "hPa" "hPa";
            result := Raises (Error OverflowError);
            unread := ["y"%string] |}.
Proof.
  apply (@infinite_reading_stops_main "2" "inf" "1012.0" "1010.5" "1009.0"
           ["y"%string] false (lit 10120 1) (lit 10105 1) (lit 10090 1));
    [vm_compute; reflexivity | vm_compute; reflexivity
     | vm_compute; reflexivity | vm_compute; reflexivity | reflexivity
     | vm_compute; intros H; discriminate H].
Defined.

Section Rejections.

Local Open Scope string_scope.
Local Open Scope io_scope.

(** The handler of [ValueError] after a request that raised it. *)
Lemma request_handles (u label : string) (lines rest : list string)
    (ev : list Event) :
  input_pressures u label lines
  = {| events := ev; result := Raises (Error ValueError); unread := rest |} ->
  request u label lines
  = {| events :=
         (ev ++ [Print (String "010"
                   "Error: Please enter valid numeric values for pressures.")])%list;
       result := Returns tt; unread := rest |}.
Proof.
  intros H. unfold request, try_except_ValueError.
  rewrite (@bind_raise _ _ _ _ _ _ _ _ H). reflexivity.
Qed.

(** Fewer than four lines that [float] accepts, then one that it does
    not. *)
Lemma input_pressures_rejected (u label : string) (good : list string)
    (bad : string) (rest : list string) :
  (List.length good <= 3)%nat ->
  Forall (fun line => exists x, Float.of_string line = Ok x) good ->
  (forall x, Float.of_string bad <> Ok x) ->
  input_pressures u label (good ++ bad :: rest)%list
  = {| events := firstn (2 + List.length good) (asking u label);
       result := Raises (Error ValueError); unread := rest |}.
Proof.
  intros Hl Hg Hb.
  assert (Hbad : forall prompt,
            input_float prompt (bad :: rest)
            = {| events := [Prompt prompt];
                 result := Raises (Error ValueError); unread := rest |})
    by (intros prompt; apply input_float_Raise, Hb).
  unfold input_pressures, asking, print.
  destruct good as [|g0 [|g1 [|g2 [|g3 good]]]]; cbn [List.length] in Hl;
    try lia; cbn [app List.length];
    repeat match goal with
           | H : Forall _ (_ :: _) |- _ =>
               let x := fresh "x" in let E := fresh "E" in
               apply Forall_cons_iff in H; destruct H as [[x E] H]
           end;
    destruct (String.eqb u "custom"); rewrite bind_emit;
    repeat match goal with
           | E : Float.of_string ?g = Ok ?x
             |- context [io_bind (input_float ?p) ?k (?g :: ?l)] =>
               rewrite (@bind_run _ _ _ _ _ _ _ _ (@input_float_Ok p g l x E))
           end;
    rewrite (@bind_raise _ _ _ _ _ _ _ _ (Hbad _));
    rewrite ?after_run; reflexivity.
Qed.

End Rejections.

(** X14. A line that [float] rejects ends the request for readings.
    After at most three lines that [float] accepts, a line that it rejects
    is followed by the error message and the question; the prompts of the
    readings that remain are not shown, the next line is the answer to the
    question, and with an answer other than y the console is cleared, the
    thanks are printed and [main] returns. *)
Theorem rejected_reading_ends_the_request (choice : string)
    (good : list string) (bad answer : string) (rest : list string) :
  (List.length good <= 3)%nat ->
  Forall (fun line => exists x, Float.of_string line = Ok x) good ->
  (forall x, Float.of_string bad <> Ok x) ->
  String.eqb (Str.lower (Str.strip answer)) "y" = false ->
  let u := fst (selection (Str.strip choice)) in
  let label := snd (selection (Str.strip choice)) in
  main (choice :: good ++ bad :: answer :: rest)
  = Some {| events :=
              menu ++ notice (Str.strip choice)
              ++ firstn (2 + List.length good) (asking u label)
              ++ [Print (String "010"
                    "Error: Please enter valid numeric values for pressures.");
                  Print (String "010"
                    "Would you like to calculate another trend? (y/n)");
                  System "cls";
                  Print "Thank you for using the Pressure Trend Calculator!"
                 ]%string;
            result := Returns tt;
            unread := rest |}.
Proof.
  intros Hl Hg Hb Hy u label.
  pose proof (@input_pressures_rejected u label good bad (answer :: rest)
                Hl Hg Hb) as Hi.
  pose proof (request_handles _ _ _ Hi) as Hr.
  rewrite main_unfold. cbv zeta.
  rewrite (@pass_ends choice answer _ rest _ Hr Hy).
  cbn [result events unread]. rewrite <- !app_assoc. reflexivity.
Qed.

Lemma rejected_reading_ends_the_request_witness :
  main ("1" :: ["29.92"; "29.90"] ++ "30,05" :: "N" :: ["left"])%string
  = Some {| events :=
              menu ++ notice "1" ++ firstn 4 (asking "inHg" "inHg")
              ++ [Print (String "010"
                    "Error: Please enter valid numeric values for pressures.");
                  Print (String "010"
                    "Would you like to calculate another trend? (y/n)");
                  System "cls";
                  Print "Thank you for using the Pressure Trend Calculator!"
                 ]%string;
            result := Returns tt;
            unread := ["left"%string] |}.
Proof.
  apply (@rejected_reading_ends_the_request "1" ["29.92"; "29.90"]%string
           "30,05" "N" ["left"%string]).
  - simpl. lia.
  - repeat constructor; eexists; vm_compute; reflexivity.
  - intros x. vm_compute. intros H. discriminate H.
  - vm_compute. reflexivity.
Defined.

(** X15. Four readings that [float] accepts, whose current reading or
    reading of three hours ago is NaN: [main] prints the same error message
    as for a line that is no number, then the question; with an answer
    other than y it clears the console, prints the thanks and returns. *)
Theorem nan_reading_is_reported_as_invalid
    (choice l0 l1 l2 l3 answer : string) (rest : list string)
    (cur p_1h p_2h p_3h : @num binary64) :
  Float.of_string l0 = Ok cur ->
  Float.of_string l1 = Ok p_1h -> Float.of_string l2 = Ok p_2h ->
  Float.of_string l3 = Ok p_3h ->
  cur = S754_nan \/ p_3h = S754_nan ->
  String.eqb (Str.lower (Str.strip answer)) "y" = false ->
  let u := fst (selection (Str.strip choice)) in
  let label := snd (selection (Str.strip choice)) in
  main (choice :: l0 :: l1 :: l2 :: l3 :: answer :: rest)
  = Some {| events :=
              menu ++ notice (Str.strip choice) ++ asking u label
              ++ [Print (String "010"
                    "Error: Please enter valid numeric values for pressures.");
                  Print (String "010"
                    "Would you like to calculate another trend? (y/n)");
                  System "cls";
                  Print "Thank you for using the Pressure Trend Calculator!"
                 ]%string;
            result := Returns tt;
            unread := rest |}.
Proof.
  intros E0 E1 E2 E3 Hn Hy u label.
  assert (Hc : @calculate_pressure_trend binary64 cur [p_1h; p_2h; p_3h] u
               = Raise ValueError).
  { apply (proj1 (@calculate_pressure_trend_not_finite cur
                    [p_1h; p_2h; p_3h] u p_3h eq_refl)). exact Hn. }
  pose proof (@request_run u label l0 l1 l2 l3 (answer :: rest) _ _ _ _
                E0 E1 E2 E3) as Hr.
  rewrite Hc in Hr.
  rewrite main_unfold. cbv zeta.
  rewrite (@pass_ends choice answer _ rest _ Hr Hy).
  cbn [result events unread]. rewrite <- !app_assoc. reflexivity.
Qed.

Lemma nan_reading_is_reported_as_invalid_witness :
  main ("3" :: "nan" :: "101.20" :: "101.05" :: "100.90" :: "n" :: [])%string
  = Some {| events :=
              menu ++ notice "3" ++ asking "kPa" "kPa"
              ++ [Print (String "010"
                    "Error: Please enter valid numeric values for pressures.");
                  Print (String "010"
                    "Would you like to calculate another trend? (y/n)");
                  System "cls";
                  Print "Thank you for using the Pressure Trend Calculator!"
                 ]%string;
            result := Returns tt;
            unread := [] |}.
Proof.
  apply (@nan_reading_is_reported_as_invalid "3" "nan" "101.20" "101.05"
           "100.90" "n" [] S754_nan (lit 10120 2) (lit 10105 2)
           (lit 10090 2));
    [vm_compute; reflexivity | vm_compute; reflexivity
     | vm_compute; reflexivity | vm_compute; reflexivity
     | left; reflexivity | vm_compute; reflexivity].
Defined.

(** X16. Four readings that [float] accepts, the current one and the one
    of three hours ago finite and of magnitude 10^300 at most, then an
    answer other than y: the call of [calculate_pressure_trend] on these
    readings with the selector of the choice returns a record, and [main]
    shows the menu, the notice of an invalid choice if there is one, the
    four prompts, the six lines of results of that record, the question,
    clears the console, prints the thanks and returns, leaving the lines
    after the answer unread. *)
Theorem finite_readings_are_reported (choice l0 l1 l2 l3 answer : string)
    (rest : list string) (cur p_1h p_2h p_3h : @num binary64) :
  Float.of_string l0 = Ok cur ->
  Float.of_string l1 = Ok p_1h -> Float.of_string l2 = Ok p_2h ->
  Float.of_string l3 = Ok p_3h ->
  B64.is_finite cur = true -> B64.is_finite p_3h = true ->
  (Qabs (B64.value cur) <= inject_Z (10 ^ 300))%Q ->
  (Qabs (B64.value p_3h) <= inject_Z (10 ^ 300))%Q ->
  String.eqb (Str.lower (Str.strip answer)) "y" = false ->
  let u := fst (selection (Str.strip choice)) in
  let label := snd (selection (Str.strip choice)) in
  exists r : TrendResult binary64,
    calculate_pressure_trend cur [p_1h; p_2h; p_3h] u = Ok r
    /\ main (choice :: l0 :: l1 :: l2 :: l3 :: answer :: rest)
       = Some {| events :=
                   menu ++ notice (Str.strip choice) ++ asking u label
                   ++ events (print_results r [])
                   ++ [Print (String "010"
                         "Would you like to calculate another trend? (y/n)");
                       System "cls";
                       Print "Thank you for using the Pressure Trend Calculator!"
                      ]%string;
                 result := Returns tt;
                 unread := rest |}.
Proof.
  intros E0 E1 E2 E3 Fc Fp Bc Bp Hy u label.
  destruct (@calculate_pressure_trend_returns cur [p_1h; p_2h; p_3h] u p_3h
              eq_refl (@moderate_of_bound _ Fc Bc) (@moderate_of_bound _ Fp Bp))
    as [r Hc].
  pose proof (@request_run u label l0 l1 l2 l3 (answer :: rest) _ _ _ _
                E0 E1 E2 E3) as Hr.
  rewrite Hc in Hr.
  exists r. split; [exact Hc|].
  rewrite main_unfold. cbv zeta.
  rewrite (@pass_ends choice answer _ rest _ Hr Hy).
  cbn [result events unread]. rewrite <- !app_assoc. reflexivity.
Qed.

Lemma finite_readings_are_reported_witness :
  main ("2" :: "1013.2" :: "1012.0" :: "1010.5" :: "1009.0" :: "n" :: [])%string
  = Some {| events :=
              menu ++ notice "2" ++ asking "hPa" "hPa"
              ++ events (print_results Sample.hpa_result [])
              ++ [Print (String "010"
                    "Would you like to calculate another trend? (y/n)");
                  System "cls";
                  Print "Thank you for using the Pressure Trend Calculator!"
                 ]%string;
            result := Returns tt;
            unread := [] |}.
Proof.
  assert (H : calculate_pressure_trend Sample.hpa_now Sample.hpa_past "hPa"
              = Ok Sample.hpa_result) by run_call.
  destruct (@finite_readings_are_reported "2" "1013.2" "1012.0" "1010.5"
              "1009.0" "n" [] Sample.hpa_now (lit 10120 1) (lit 10105 1)
              (lit 10090 1))
    as (r & Hr & Hm);
    [vm_compute; reflexivity | vm_compute; reflexivity
     | vm_compute; reflexivity | vm_compute; reflexivity
     | reflexivity | reflexivity
     | vm_compute; intros H'; discriminate H'
     | vm_compute; intros H'; discriminate H'
     | vm_compute; reflexivity |].
  change (calculate_pressure_trend Sample.hpa_now Sample.hpa_past "hPa" = Ok r)
    in Hr.
  rewrite H in Hr. injection Hr as <-. exact Hm.
Defined.

Section Choices.

Local Open Scope string_scope.

(** The pass that follows a line that is none of the four choices, next to
    the pass that follows the choice 1. *)
Lemma pass_with_invalid_choice (choice one : string) (rest : list string) :
  Str.strip choice <> "1" -> Str.strip choice <> "2" ->
  Str.strip choice <> "3" -> Str.strip choice <> "4" ->
  Str.strip one = "1" ->
  exists (ev : list Event) (o : outcome bool) (rest' : list string),
    iteration (one :: rest)
    = {| events := (menu ++ ev)%list; result := o; unread := rest' |}
    /\ iteration (choice :: rest)
       = {| events :=
              (menu
               ++ Print (String "010" "Invalid choice. Defaulting to inHg.")
                  :: ev)%list;
            result := o; unread := rest' |}.
Proof.
  intros H1 H2 H3 H4 Ho.
  apply String.eqb_neq in H1, H2, H3, H4.
  assert (Es : selection (Str.strip choice) = ("inHg", "inHg"))
    by (unfold selection; rewrite H2, H3, H4; reflexivity).
  assert (En : notice (Str.strip choice)
               = [Print (String "010" "Invalid choice. Defaulting to inHg.")])
    by (unfold notice, is_choice; rewrite H1, H2, H3, H4; reflexivity).
  destruct (io_bind (request "inHg" "inHg") (fun _ => closing) rest)
    as [ev o rest'] eqn:E.
  exists ev, o, rest'. split.
  - rewrite (iteration_run one rest), Ho.
    change (selection "1") with ("inHg", "inHg").
    change (notice "1") with (@nil Event).
    cbn [fst snd]. rewrite E, after_run, app_nil_r. reflexivity.
  - rewrite (iteration_run choice rest), Es, En. cbn [fst snd].
    rewrite E, after_run, <- app_assoc. reflexivity.
Qed.

Lemma insert_after_menu (ev tail : list Event) (e : Event) :
  (firstn 9 ((menu ++ ev) ++ tail) ++ e :: skipn 9 ((menu ++ ev) ++ tail))%list
  = ((menu ++ e :: ev) ++ tail)%list.
Proof. reflexivity. Qed.

(** [main], from its first pass. *)
Lemma main_of_pass (stdin : list string) (ev : list Event) (o : outcome bool)
    (rest : list string) :
  iteration stdin = {| events := ev; result := o; unread := rest |} ->
  main stdin
  = match o with
    | Returns true => option_map (after ev) (main rest)
    | Returns false =>
        Some {| events := ev; result := Returns tt; unread := rest |}
    | Raises e => Some {| events := ev; result := Raises e; unread := rest |}
    end.
Proof. intros E. rewrite main_unfold, E. reflexivity. Qed.

End Choices.

Section Again.

Local Open Scope string_scope.

(** A pass whose request is over, with the answer y. *)
Lemma pass_continues (c answer : string) (lines rest : list string)
    (ev : list Event) :
  request (fst (selection (Str.strip c))) (snd (selection (Str.strip c)))
    lines
  = {| events := ev; result := Returns tt; unread := answer :: rest |} ->
  String.eqb (Str.lower (Str.strip answer)) "y" = true ->
  iteration (c :: lines)
  = {| events :=
         (menu ++ notice (Str.strip c) ++ ev
          ++ [Print (String "010"
                       "Would you like to calculate another trend? (y/n)")])%list;
       result := Returns true; unread := rest |}.
Proof.
  intros H Hy. rewrite iteration_run, (@bind_run _ _ _ _ _ _ _ _ H).
  rewrite closing_run, Hy, !after_run, <- !app_assoc. reflexivity.
Qed.

End Again.

(** X17. Four readings that [float] accepts, the current one and the one
    of three hours ago finite and of magnitude 10^300 at most, then an
    answer that is y once stripped and put to lower case: [main] shows the
    menu, the prompts, the results and the question, and goes on as [main]
    does from the lines that follow the answer, starting with the menu
    again; no thanks are printed in between. *)
Theorem answer_y_starts_another_pass (choice l0 l1 l2 l3 answer : string)
    (rest : list string) (cur p_1h p_2h p_3h : @num binary64) :
  Float.of_string l0 = Ok cur ->
  Float.of_string l1 = Ok p_1h -> Float.of_string l2 = Ok p_2h ->
  Float.of_string l3 = Ok p_3h ->
  B64.is_finite cur = true -> B64.is_finite p_3h = true ->
  (Qabs (B64.value cur) <= inject_Z (10 ^ 300))%Q ->
  (Qabs (B64.value p_3h) <= inject_Z (10 ^ 300))%Q ->
  String.eqb (Str.lower (Str.strip answer)) "y" = true ->
  let u := fst (selection (Str.strip choice)) in
  let label := snd (selection (Str.strip choice)) in
  exists r : TrendResult binary64,
    calculate_pressure_trend cur [p_1h; p_2h; p_3h] u = Ok r
    /\ main (choice :: l0 :: l1 :: l2 :: l3 :: answer :: rest)
       = option_map
           (after (menu ++ notice (Str.strip choice) ++ asking u label
                   ++ events (print_results r [])
                   ++ [Print (String "010"
                         "Would you like to calculate another trend? (y/n)")
                      ]%string))
           (main rest).
Proof.
  intros E0 E1 E2 E3 Fc Fp Bc Bp Hy u label.
  destruct (@calculate_pressure_trend_returns cur [p_1h; p_2h; p_3h] u p_3h
              eq_refl (@moderate_of_bound _ Fc Bc) (@moderate_of_bound _ Fp Bp))
    as [r Hc].
  pose proof (@request_run u label l0 l1 l2 l3 (answer :: rest) _ _ _ _
                E0 E1 E2 E3) as Hr.
  rewrite Hc in Hr.
  exists r. split; [exact Hc|].
  rewrite main_unfold. cbv zeta.
  rewrite (@pass_continues choice answer _ rest _ Hr Hy).
  cbn [result events unread]. rewrite <- !app_assoc. reflexivity.
Qed.

Lemma answer_y_starts_another_pass_witness :
  main ("2" :: "1013.2" :: "1012.0" :: "1010.5" :: "1009.0" :: " Y " :: [])%string
  = Some {| events :=
              (menu ++ notice "2" ++ asking "hPa" "hPa"
               ++ events (print_results Sample.hpa_result [])
               ++ [Print (String "010"
                     "Would you like to calculate another trend? (y/n)")
                  ]%string)
              ++ menu;
            result := Raises EOFError;
            unread := [] |}.
Proof.
  assert (H : calculate_pressure_trend Sample.hpa_now Sample.hpa_past "hPa"
              = Ok Sample.hpa_result) by run_call.
  destruct (@answer_y_starts_another_pass "2" "1013.2" "1012.0" "1010.5"
              "1009.0" " Y " [] Sample.hpa_now (lit 10120 1) (lit 10105 1)
              (lit 10090 1))
    as (r & Hr & Hm);
    [vm_compute; reflexivity | vm_compute; reflexivity
     | vm_compute; reflexivity | vm_compute; reflexivity
     | reflexivity | reflexivity
     | vm_compute; intros H'; discriminate H'
     | vm_compute; intros H'; discriminate H'
     | vm_compute; reflexivity |].
  change (calculate_pressure_trend Sample.hpa_now Sample.hpa_past "hPa" = Ok r)
    in Hr.
  rewrite H in Hr. injection Hr as <-. exact Hm.
Defined.

(** X18. A choice that is none of 1, 2, 3 and 4 once stripped runs as
    the choice 1 does on the same lines after it: same end, same lines left
    unread, same events, but for the notice of an invalid choice printed
    after the nine events of the menu. *)
Theorem invalid_choice_is_inHg (choice one : string) (rest : list string)
    (r : Run Datatypes.unit) :
  Str.strip choice <> "1"%string -> Str.strip choice <> "2"%string ->
  Str.strip choice <> "3"%string -> Str.strip choice <> "4"%string ->
  Str.strip one = "1"%string ->
  main (one :: rest) = Some r ->
  main (choice :: rest)
  = Some {| events :=
              firstn 9 (events r)
              ++ Print (String "010" "Invalid choice. Defaulting to inHg.")
                 :: skipn 9 (events r);
            result := result r;
            unread := unread r |}.
Proof.
  intros H1 H2 H3 H4 Ho Hm.
  destruct (@pass_with_invalid_choice choice one rest H1 H2 H3 H4 Ho)
    as (ev & o & rest' & E1 & Ec).
  rewrite (main_of_pass E1) in Hm. rewrite (main_of_pass Ec).
  assert (Some_inj : forall a b : Run Datatypes.unit, Some a = Some b -> a = b)
    by (intros a b E; congruence).
  destruct o as [[|]|e].
  - destruct (main rest') as [r'|]; [|discriminate Hm].
    cbn [option_map] in Hm |- *. apply Some_inj in Hm. subst r.
    unfold after. cbn [events result unread].
    rewrite insert_after_menu. reflexivity.
  - apply Some_inj in Hm. subst r. cbn [events result unread].
    rewrite <- (app_nil_r (menu ++ ev)), insert_after_menu, !app_nil_r.
    reflexivity.
  - apply Some_inj in Hm. subst r. cbn [events result unread].
    rewrite <- (app_nil_r (menu ++ ev)), insert_after_menu, !app_nil_r.
    reflexivity.
Qed.

Lemma invalid_choice_is_inHg_witness :
  exists r : Run Datatypes.unit,
    main ("1"%string :: Session.inhg_lines) = Some r
    /\ main ("7"%string :: Session.inhg_lines)
       = Some {| events :=
                   firstn 9 (events r)
                   ++ Print (String "010" "Invalid choice. Defaulting to inHg.")
                      :: skipn 9 (events r);
                 result := result r;
                 unread := unread r |}.
Proof.
  destruct (@main_loop_ends
              (S (List.length ("1"%string :: Session.inhg_lines)))
              ("1"%string :: Session.inhg_lines) ltac:(simpl; lia))
    as (r & Hr & _).
  exists r. split; [exact Hr|].
  apply (@invalid_choice_is_inHg "7" "1" Session.inhg_lines r);
    [vm_compute; intros H; discriminate H
     | vm_compute; intros H; discriminate H
     | vm_compute; intros H; discriminate H
     | vm_compute; intros H; discriminate H
     | vm_compute; reflexivity | exact Hr].
Defined.

(** ** The lines of results *)

Section Results.

Local Open Scope string_scope.

(** The six lines, given the word that stands for the unit. *)
Lemma print_results_events (r : TrendResult binary64) (word : string) :
  unit_word r = Ok word ->
  events (print_results r [])
  = [Print (String "010" "Pressure Trend Results:");
     Print ("Current Pressure: "
            ++ Float.format_f false 2 (current_pressure_display r)
            ++ " " ++ word ++ " "
            ++ "(" ++ Float.format_f false 1 (current_pressure_mb r)
            ++ " mb)");
     Print ("Station Model Pressure: "
            ++ Str.format_0d 3 (station_model_pressure r));
     Print ("Pressure Change (3 hours): "
            ++ Float.format_f true 1 (pressure_change_display r)
            ++ " " ++ word ++ " "
            ++ "(" ++ Float.format_f true 1 (pressure_change_mb r)
            ++ " mb)");
     Print ("Pressure Trend: " ++ Str.of_int (trend_value r)
            ++ " tenths of mb " ++ "(" ++ overall_trend r ++ ")");
     Print ("Pressure Tendency: " ++ tendency_description r ++ " "
            ++ "(Symbol: " ++ tendency_symbol r ++ ")")].
Proof. intros E. unfold print_results. rewrite E. reflexivity. Qed.

(** The word that stands for the unit in the lines of results. *)
Lemma unit_word_of_selector (cur : @num binary64)
    (past : list (@num binary64)) (u : string) (r : TrendResult binary64) :
  calculate_pressure_trend cur past u = Ok r ->
  unit_word r
  = Ok (if String.eqb u "hPa" then "hPa"
        else if String.eqb u "kPa" then "kPa"
        else if String.eqb u "custom" then "hPa" else "inHg").
Proof.
  intros H. unfold unit_word. rewrite (unit_label_Ok _ _ _ H).
  unfold label_of.
  destruct (String.eqb u "hPa"); [reflexivity|].
  destruct (String.eqb u "kPa"); [reflexivity|].
  destruct (String.eqb u "custom"); reflexivity.
Qed.

(** Three digits for every number from 0 to 999. *)
Lemma format_three_digits (n : Z) :
  (0 <= n <= 999)%Z ->
  Str.format_0d 3 n
  = Str.of_int (n / 100) ++ Str.of_int (n / 10 mod 10) ++ Str.of_int (n mod 10).
Proof.
  intros Hn.
  assert (H : forallb
                (fun k : nat =>
                   let n := Z.of_nat k in
                   String.eqb (Str.format_0d 3 n)
                     (Str.of_int (n / 100) ++ Str.of_int (n / 10 mod 10)
                      ++ Str.of_int (n mod 10)))
                (seq 0 1000) = true)
    by (vm_compute; reflexivity).
  rewrite forallb_forall in H.
  specialize (H (Z.to_nat n)). cbv zeta in H.
  rewrite Z2Nat.id in H by lia.
  apply String.eqb_eq, H, in_seq. lia.
Qed.

End Results.

(** X19. The third line of the results of a returned record is
    "Station Model Pressure: " followed by exactly three decimal digits,
    those of the station model pressure, with its leading zeros. *)
Theorem station_model_pressure_prints_three_digits (cur : @num binary64)
    (past : list (@num binary64)) (u : string) (r : TrendResult binary64) :
  calculate_pressure_trend cur past u = Ok r ->
  exists a b c : Z,
    (0 <= a <= 9 /\ 0 <= b <= 9 /\ 0 <= c <= 9)%Z
    /\ station_model_pressure r = (100 * a + 10 * b + c)%Z
    /\ nth_error (events (print_results r [])) 2
       = Some (Print ("Station Model Pressure: "
                      ++ Str.of_int a ++ Str.of_int b ++ Str.of_int c)%string).
Proof.
  intros H.
  pose proof (unit_word_of_selector _ _ _ H) as Hw.
  apply calculate_pressure_trend_Ok in H.
  destruct H as (p1 & p2 & p3 & _ & _ & _ & tm & H).
  destruct H as (_ & _ & Hs & _).
  pose proof (Z.mod_pos_bound tm 1000 ltac:(lia)) as Hb.
  rewrite <- Hs in Hb. set (n := station_model_pressure r) in *.
  exists (n / 100)%Z, (n / 10 mod 10)%Z, (n mod 10)%Z.
  split; [|split].
  - pose proof (Z.mod_pos_bound (n / 10) 10 ltac:(lia)).
    pose proof (Z.mod_pos_bound n 10 ltac:(lia)).
    assert (0 <= n / 100)%Z by (apply Z.div_pos; lia).
    assert (n / 100 < 10)%Z by (apply Z.div_lt_upper_bound; lia).
    lia.
  - pose proof (Z.div_mod n 10 ltac:(lia)).
    pose proof (Z.div_mod (n / 10) 10 ltac:(lia)).
    assert (n / 10 / 10 = n / 100)%Z by (rewrite Z.div_div; lia || reflexivity).
    lia.
  - rewrite (print_results_events _ Hw). cbn [nth_error].
    fold n. rewrite format_three_digits by lia. reflexivity.
Qed.

Lemma station_model_pressure_prints_three_digits_witness :
  exists a b c : Z,
    (0 <= a <= 9 /\ 0 <= b <= 9 /\ 0 <= c <= 9)%Z
    /\ station_model_pressure Sample.hpa_result = (100 * a + 10 * b + c)%Z
    /\ nth_error (events (print_results Sample.hpa_result [])) 2
       = Some (Print ("Station Model Pressure: "
                      ++ Str.of_int a ++ Str.of_int b ++ Str.of_int c)%string).
Proof.
  assert (H : calculate_pressure_trend Sample.hpa_now Sample.hpa_past "hPa"
              = Ok Sample.hpa_result) by run_call.
  exact (@station_model_pressure_prints_three_digits Sample.hpa_now
           Sample.hpa_past "hPa" Sample.hpa_result H).
Defined.

(** X20. With the selector custom, the second line of the results shows
    the current reading as it was entered, in inHg, with two decimals, and
    labels it hPa. *)
Theorem custom_mode_labels_inHg_as_hPa (cur : @num binary64)
    (past : list (@num binary64)) (r : TrendResult binary64) :
  calculate_pressure_trend cur past "custom" = Ok r ->
  nth_error (events (print_results r [])) 1
  = Some (Print ("Current Pressure: " ++ Float.format_f false 2 cur
                 ++ " hPa ("
                 ++ Float.format_f false 1 (current_pressure_mb r)
                 ++ " mb)")%string).
Proof.
  intros H.
  pose proof (unit_word_of_selector _ _ _ H) as Hw.
  rewrite (print_results_events _ Hw). cbn [nth_error].
  apply calculate_pressure_trend_Ok in H.
  destruct H as (p1 & p2 & p3 & _ & _ & _ & tm & H).
  destruct H as (_ & _ & _ & _ & _ & _ & Hd & _).
  assert (E1 := f_equal (fun t => fst (fst t)) Hd).
  cbn [fst snd] in E1. rewrite E1. reflexivity.
Qed.

Lemma custom_mode_labels_inHg_as_hPa_witness :
  nth_error (events (print_results Session.custom_result [])) 1
  = Some (Print "Current Pressure: 29.92 hPa (1013.2 mb)").
Proof.
  assert (H : calculate_pressure_trend Sample.inhg_now Sample.hpa_past
                "custom" = Ok Session.custom_result) by run_call.
  rewrite (@custom_mode_labels_inHg_as_hPa Sample.inhg_now Sample.hpa_past
             Session.custom_result H).
  vm_compute. reflexivity.
Defined.

Section Resolution.

Local Open Scope string_scope.

(** A value rounded to one decimal, of magnitude [bound / 10] at most: a
    zero, or one of the tenths up to [bound]. *)
Lemma round1_small (z : spec_float) (bound : positive) :
  (bound <= 1000)%positive ->
  B64.is_finite (B64.round1 z) = true ->
  (Qabs (B64.value (B64.round1 z)) <= inject_Z (Z.pos bound) / 10)%Q ->
  (exists s, B64.round1 z = S754_zero s)
  \/ exists s n, B64.round1 z = B64.of_ratio s n 10 /\ (n <= bound)%positive.
Proof.
  intros Hbound.
  destruct z as [s|s| |s m e]; cbn [B64.round1]; intros Hf Hb;
    try discriminate; [left; now exists s|].
  destruct (B64.tenths m e) as [|n|n]; try (left; now exists s).
  right. exists s, n. split; [reflexivity|].
  rewrite value_abs in Hb. unfold B64.of_ratio in *.
  pose proof (@SFdiv_error (S754_finite s n 0) false 10 0 eq_refl) as E.
  cbv zeta in E. destruct E as [[E _]|[_ E]];
    [rewrite E in Hf; discriminate|].
  set (r := SFdiv B64.prec B64.emax (S754_finite s n 0)
              (S754_finite false 10 0)) in *.
  assert (Ev : (mag (S754_finite s n 0) / mag (S754_finite false 10 0)
                == inject_Z (Z.pos n) / 10)%Q).
  { cbn [mag]. change (2 ^ 0)%Q with 1%Q.
    change (inject_Z 10) with 10%Q. field. }
  rewrite Ev in E.
  destruct (Pos.leb_spec n bound) as [L|G]; [exact L|]. exfalso.
  assert (Hn : (inject_Z (Z.pos bound) + 1 <= inject_Z (Z.pos n))%Q).
  { change 1%Q with (inject_Z 1).
    rewrite <- (inject_Z_plus (Z.pos bound) 1), <- Zle_Qle. lia. }
  assert (Hb0 : (inject_Z (Z.pos bound) <= 1000)%Q)
    by (change 1000%Q with (inject_Z 1000); rewrite <- Zle_Qle; lia).
  apply Qabs_Qle_condition in E. destruct E as [Elo _].
  pose proof eta_small as He. unfold eps in *.
  set (t := inject_Z (Z.pos n)) in *.
  set (b := inject_Z (Z.pos bound)) in *.
  set (v := (t / 10)%Q) in *. set (w := (b / 10)%Q) in *.
  assert (Hv : (10 * v == t)%Q) by (unfold v; field).
  assert (Hw : (10 * w == b)%Q) by (unfold w; field).
  set (h := eta) in *. set (a := mag r) in *.
  clearbody h v w t b a.
  lra.
Qed.

(** The displayed change of every tenth up to 1.6 mb, in inHg, and up to
    0.4 mb, in kPa, with one decimal. *)
Lemma small_changes_print_as_zero :
  forallb
    (fun k : nat =>
       forallb
         (fun s : bool =>
            let d := Float.format_f true 1
                       (@div binary64 (B64.of_ratio s (Pos.of_nat k) 10)
                          INHG_TO_MB) in
            String.eqb d "+0.0" || String.eqb d "-0.0")
         [true; false])
    (seq 1 16) = true
  /\ forallb
       (fun k : nat =>
          forallb
            (fun s : bool =>
               let d := Float.format_f true 1
                          (@div binary64 (B64.of_ratio s (Pos.of_nat k) 10)
                             (lit 10 0)) in
               String.eqb d "+0.0" || String.eqb d "-0.0")
            [true; false])
       (seq 1 4) = true.
Proof. split; vm_compute; reflexivity. Qed.

Lemma small_change_in_units (x : spec_float) (bound : positive)
    (c : @num binary64) :
  forallb
    (fun k : nat =>
       forallb
         (fun s : bool =>
            let d := Float.format_f true 1
                       (@div binary64 (B64.of_ratio s (Pos.of_nat k) 10) c) in
            String.eqb d "+0.0" || String.eqb d "-0.0")
         [true; false])
    (seq 1 (Pos.to_nat bound)) = true ->
  (forall s, Float.format_f true 1 (@div binary64 (S754_zero s) c) = "+0.0"
             \/ Float.format_f true 1 (@div binary64 (S754_zero s) c) = "-0.0") ->
  (exists s, x = S754_zero s)
  \/ (exists s n, x = B64.of_ratio s n 10 /\ (n <= bound)%positive) ->
  Float.format_f true 1 (@div binary64 x c) = "+0.0"
  \/ Float.format_f true 1 (@div binary64 x c) = "-0.0".
Proof.
  intros Hall Hzero [[s ->]|(s & n & -> & Hn)]; [apply Hzero|].
  rewrite forallb_forall in Hall.
  specialize (Hall (Pos.to_nat n)).
  rewrite Pos2Nat.id in Hall.
  assert (Hin : In (Pos.to_nat n) (seq 1 (Pos.to_nat bound)))
    by (apply in_seq; lia).
  specialize (Hall Hin). rewrite forallb_forall in Hall.
  specialize (Hall s ltac:(destruct s; cbn; tauto)). cbv zeta in Hall.
  apply orb_true_iff in Hall.
  destruct Hall as [E|E]; apply String.eqb_eq in E; tauto.
Qed.

End Resolution.

(** X21. With readings in inHg, a change of 1.6 mb at most in magnitude
    is displayed as +0.0 or -0.0 inHg, next to its value in mb; with
    readings in kPa, so is a change of 0.4 mb at most. *)
Theorem small_changes_are_displayed_as_zero (cur : @num binary64)
    (past : list (@num binary64)) (r : TrendResult binary64) :
  (calculate_pressure_trend cur past "inHg" = Ok r ->
   (Qabs (B64.value (pressure_change_mb r)) <= 16 # 10)%Q ->
   exists shown : string,
     (shown = "+0.0" \/ shown = "-0.0")%string
     /\ nth_error (events (print_results r [])) 3
        = Some (Print ("Pressure Change (3 hours): " ++ shown ++ " inHg ("
                       ++ Float.format_f true 1 (pressure_change_mb r)
                       ++ " mb)")%string))
  /\ (calculate_pressure_trend cur past "kPa" = Ok r ->
      (Qabs (B64.value (pressure_change_mb r)) <= 4 # 10)%Q ->
      exists shown : string,
        (shown = "+0.0" \/ shown = "-0.0")%string
        /\ nth_error (events (print_results r [])) 3
           = Some (Print ("Pressure Change (3 hours): " ++ shown ++ " kPa ("
                          ++ Float.format_f true 1 (pressure_change_mb r)
                          ++ " mb)")%string)).
Proof.
  split; intros H Hb;
    pose proof (unit_word_of_selector _ _ _ H) as Hw;
    rewrite (print_results_events _ Hw); cbn [nth_error];
    apply calculate_pressure_trend_Ok in H;
    destruct H as (p1 & p2 & p3 & _ & _ & _ & tm & H);
    destruct H as (Htv & _ & _ & _ & Hc & _ & Hd & _);
    rewrite lit_10 in Htv; apply to_int_abs_mul_finite in Htv;
    assert (E2 := f_equal (fun t => snd (fst t)) Hd);
    cbn [fst snd] in E2; rewrite E2, Hc in *;
    eexists; (split; [|reflexivity]).
  - apply (@small_change_in_units _ 16 INHG_TO_MB
             (proj1 small_changes_print_as_zero)).
    + intros [|]; [right | left]; vm_compute; reflexivity.
    + apply round1_small; [lia | exact Htv | exact Hb].
  - apply (@small_change_in_units _ 4 (lit 10 0)
             (proj2 small_changes_print_as_zero)).
    + intros [|]; [right | left]; vm_compute; reflexivity.
    + apply round1_small; [lia | exact Htv | exact Hb].
Qed.

Lemma small_changes_are_displayed_as_zero_witness :
  exists shown : string,
    (shown = "+0.0" \/ shown = "-0.0")%string
    /\ nth_error (events (print_results Session.small_rise_result [])) 3
       = Some (Print ("Pressure Change (3 hours): " ++ shown ++ " inHg ("
                      ++ Float.format_f true 1
                           (pressure_change_mb Session.small_rise_result)
                      ++ " mb)")%string).
Proof.
  assert (H : calculate_pressure_trend Session.small_rise_now
                Session.small_rise_past "inHg"
              = Ok Session.small_rise_result) by run_call.
  apply (proj1 (@small_changes_are_displayed_as_zero Session.small_rise_now
                  Session.small_rise_past Session.small_rise_result) H).
  vm_compute. intros H'. discriminate H'.
Defined.
